(** * Purgeable memory: the user-extended page table and the region manager

    A shallow embedding of
      - libpurgeablemem/common/src/ux_page_table_c.c  (the USE_UXPT > 0 build;
        the stubs of the other build are in [NoUxpt])
      - libpurgeablemem/c/src/purgeable_mem_c.c
    for an LP64 target: [uint64_t], [size_t] and [unsigned long] are 64-bit
    unsigned integers, [unsigned int] is 32 bits wide.  Unsigned values are
    integers of [Z] and every wrap-around of the C arithmetic is written out
    with [u64] or [u32].

    Conventions of the embedding
      - a pointer that may be NULL is an [option]; [None] is NULL;
      - a computation that may fail to return (a loop that never exits, a
        load through NULL or outside a mapping) is an [option] as well, with
        [None] for "does not return"; the two are never mixed in one type
        without a name ([upt_ptr], [builder_ptr]);
      - the results of the system and library calls the code checks
        ([mmap], [munmap], [malloc], the [pthread_rwlock_*] functions) are
        read from an environment record that is part of the state. *)

From Stdlib Require Import ZArith Lia Bool List.
From Stdlib Require Import Init.Byte.
From stdpp Require Import base option list.

Local Open Scope Z_scope.

(** ** Platform constants

    [pm_util.h] (PAGE_SHIFT, PAGE_SIZE) is not among the sources, and
    [g_supportUxpt] is written once by the constructor [CheckUxpt] before any
    other function runs; both are parameters of the development. *)

Class Platform := {
  PAGE_SHIFT : Z;
  PAGE_SHIFT_range : 3 <= PAGE_SHIFT <= 30;
  g_supportUxpt : bool
}.

Definition u64 (z : Z) : Z := z mod 2 ^ 64.
Definition u32 (z : Z) : Z := z mod 2 ^ 32.

Definition ULONG_MAX : Z := 2 ^ 64 - 1.
Definition SIZE_MAX : Z := 2 ^ 64 - 1.

(** The constructor [CheckUxpt]: the capability is on when the purgeable
    mapping and then the uxpte mapping can both be obtained. *)
Definition CheckUxpt (mmap_purg_ok mmap_uxpt_ok : bool) : bool :=
  if negb mmap_purg_ok then false
  else if mmap_uxpt_ok then true else false.

Section UxPageTable.
Context `{Platform}.

Definition PAGE_SIZE : Z := Z.shiftl 1 PAGE_SHIFT.

Definition uxpte_t := Z.

Definition UXPTE_SIZE_SHIFT : Z := 3.
Definition UXPTE_PER_PAGE_SHIFT : Z := PAGE_SHIFT - UXPTE_SIZE_SHIFT.
Definition UXPTE_PER_PAGE : Z := Z.shiftl 1 UXPTE_PER_PAGE_SHIFT.

Definition VirtPageNo (vaddr : Z) : Z := Z.shiftr vaddr PAGE_SHIFT.
Definition UxptePageNo (vaddr : Z) : Z := Z.shiftr (VirtPageNo vaddr) UXPTE_PER_PAGE_SHIFT.
Definition UxpteOffset (vaddr : Z) : Z := Z.land (VirtPageNo vaddr) (UXPTE_PER_PAGE - 1).

Definition UXPTE_PRESENT_BIT : Z := 1.
Definition UXPTE_PRESENT_MASK : Z := Z.shiftl 1 UXPTE_PRESENT_BIT - 1.
Definition UXPTE_REFCNT_ONE : Z := Z.shiftl 1 UXPTE_PRESENT_BIT.
Definition UXPTE_UNDER_RECLAIM : uxpte_t := u64 (- UXPTE_REFCNT_ONE).

Definition IsUxptePresent (pte : uxpte_t) : bool :=
  negb (Z.land pte UXPTE_PRESENT_MASK =? 0).

Definition IsUxpteUnderReclaim (pte : uxpte_t) : bool :=
  pte =? UXPTE_UNDER_RECLAIM.

Definition GetUxPageSize (dataAddr dataSize : Z) : Z :=
  let sum := u64 (dataAddr + dataSize) in
  if (sum <? dataAddr) || (sum <? dataSize) || (sum <? 1) then 0
  else
    let pageNoEnd := UxptePageNo (u64 (sum - 1)) in
    let pageNoStart := UxptePageNo dataAddr in
    if pageNoEnd <? pageNoStart then 0
    else if SIZE_MAX / PAGE_SIZE <? u64 (u64 (pageNoEnd - pageNoStart) + 1) then 0
    else u64 (u64 (u64 (pageNoEnd - pageNoStart) + 1) * PAGE_SIZE).

(** [RoundUp] of both C files (the one of purgeable_mem_c.c is on [size_t],
    the same type here). *)
Definition RoundUp (val align : Z) : Z :=
  if (u64 (val + align) <? val) || (u64 (val + align) <? align) then val
  else if align =? 0 then val
  else u64 (u64 (u64 (val + align) - 1) / align * align).

Definition RoundDown (val align : Z) : Z :=
  if align =? 0 then val
  else Z.land val (u64 (Z.lnot (u64 (align - 1)))).

Inductive UxpteOp := UPT_GET | UPT_PUT | UPT_CLEAR | UPT_IS_PRESENT.

(** The states of pm_state_c.h that the two files name. *)
Inductive PMState :=
  | PM_OK | PM_BUILDER_NULL
  | PM_MMAP_PURG_FAIL | PM_MMAP_UXPT_FAIL
  | PM_UNMAP_PURG_FAIL | PM_UNMAP_UXPT_FAIL
  | PM_UXPT_OUT_RANGE | PM_UXPT_NO_PRESENT
  | PM_LOCK_READ_FAIL | PM_LOCK_WRITE_FAIL
  | PM_UNLOCK_READ_FAIL | PM_UNLOCK_WRITE_FAIL
  | PM_DATA_PURGED | PM_DATA_NO_PURGED
  | PMB_BUILD_ALL_SUCC | PMB_BUILD_ALL_FAIL | PMB_DESTORY_FAIL.

Definition PMState_eqb (a b : PMState) : bool :=
  match a, b with
  | PM_OK, PM_OK | PM_BUILDER_NULL, PM_BUILDER_NULL
  | PM_MMAP_PURG_FAIL, PM_MMAP_PURG_FAIL | PM_MMAP_UXPT_FAIL, PM_MMAP_UXPT_FAIL
  | PM_UNMAP_PURG_FAIL, PM_UNMAP_PURG_FAIL | PM_UNMAP_UXPT_FAIL, PM_UNMAP_UXPT_FAIL
  | PM_UXPT_OUT_RANGE, PM_UXPT_OUT_RANGE | PM_UXPT_NO_PRESENT, PM_UXPT_NO_PRESENT
  | PM_LOCK_READ_FAIL, PM_LOCK_READ_FAIL | PM_LOCK_WRITE_FAIL, PM_LOCK_WRITE_FAIL
  | PM_UNLOCK_READ_FAIL, PM_UNLOCK_READ_FAIL | PM_UNLOCK_WRITE_FAIL, PM_UNLOCK_WRITE_FAIL
  | PM_DATA_PURGED, PM_DATA_PURGED | PM_DATA_NO_PURGED, PM_DATA_NO_PURGED
  | PMB_BUILD_ALL_SUCC, PMB_BUILD_ALL_SUCC | PMB_BUILD_ALL_FAIL, PMB_BUILD_ALL_FAIL
  | PMB_DESTORY_FAIL, PMB_DESTORY_FAIL => true
  | _, _ => false
  end.

(** *** The descriptor word shared with the kernel

    [UxpteLoad] and [UxpteCAS_] act on one 64-bit word that the kernel may
    rewrite at any time.  A run of a CAS loop is therefore taken against a
    schedule [kernel : list (option uxpte_t)]: its n-th entry is what the
    kernel stores into the word between the load and the compare-and-swap of
    the n-th iteration ([None]: nothing); after the schedule is used up the
    kernel leaves the word alone.  The result of a run is the final content of
    the word and the number of [sched_yield] calls made. *)

Record CasRun := { run_pte : uxpte_t; run_yields : nat }.

Definition kernel_store (kernel : list (option uxpte_t)) (pte : uxpte_t) : uxpte_t :=
  match kernel with
  | Some v :: _ => v
  | _ => pte
  end.

(** What one pass through the body of the do-while of [UxpteAdd] decides,
    given the value just loaded. *)
Inductive AddStep :=
  | AddBreak                                       (* break *)
  | AddReturn                                      (* return *)
  | AddCAS (yield : bool) (old newVal : uxpte_t).  (* reach the loop test *)

(** In a do-while, [continue] jumps to the loop test, so the pass that calls
    [sched_yield] still evaluates [UxpteCAS_(pte, old, newVal)]. *)
Definition UxpteAdd_body (old incNum : Z) : AddStep :=
  if (u64 (old + incNum) <? old) || (u64 (old + incNum) <? incNum) then AddBreak
  else
    let newVal := u64 (old + incNum) in
    if u64 (ULONG_MAX - old) <? incNum then AddReturn
    else if IsUxpteUnderReclaim old then AddCAS true old newVal
    else AddCAS false old newVal.

Fixpoint UxpteAdd (fuel : nat) (kernel : list (option uxpte_t))
    (pte : uxpte_t) (incNum : Z) (yields : nat) : option CasRun :=
  match fuel with
  | O => None
  | S fuel' =>
    let old := pte in
    match UxpteAdd_body old incNum with
    | AddBreak | AddReturn => Some {| run_pte := pte; run_yields := yields |}
    | AddCAS yield old newVal =>
      let yields' := if yield then S yields else yields in
      let pte' := kernel_store kernel pte in
      if pte' =? old then Some {| run_pte := newVal; run_yields := yields' |}
      else UxpteAdd fuel' (tl kernel) pte' incNum yields'
    end
  end.

Fixpoint UxpteSub (fuel : nat) (kernel : list (option uxpte_t))
    (pte : uxpte_t) (decNum : Z) (yields : nat) : option CasRun :=
  match fuel with
  | O => None
  | S fuel' =>
    let old := pte in
    let pte' := kernel_store kernel pte in
    if pte' =? old then Some {| run_pte := u64 (old - decNum); run_yields := yields |}
    else UxpteSub fuel' (tl kernel) pte' decNum yields
  end.

Fixpoint UxpteClear_loop (fuel : nat) (kernel : list (option uxpte_t))
    (pte : uxpte_t) (yields : nat) : option CasRun :=
  match fuel with
  | O => None
  | S fuel' =>
    let old := pte in
    let pte' := kernel_store kernel pte in
    if pte' =? old then Some {| run_pte := 0; run_yields := yields |}
    else UxpteClear_loop fuel' (tl kernel) pte' yields
  end.

Definition UxpteClear_ (fuel : nat) (kernel : list (option uxpte_t))
    (pte : uxpte_t) : option CasRun :=
  let old := pte in
  if old =? 0 then Some {| run_pte := pte; run_yields := O |}
  else UxpteClear_loop fuel kernel pte O.

(** *** The table

    [uxpte] is the result of [MapUxptePages]: NULL, or the mapped array of
    descriptors ([GetUxPageSize / 8] of them).  A load or store outside the
    array, or through a NULL [uxpte], does not return. *)

Record UxPageTableStruct := {
  dataAddr : Z;
  dataSize : Z;
  uxpte : option (list uxpte_t)
}.

Definition upt_ptr := option UxPageTableStruct.

Definition set_uxpte (upt : UxPageTableStruct) (ptes : list uxpte_t) : UxPageTableStruct :=
  {| dataAddr := dataAddr upt; dataSize := dataSize upt; uxpte := Some ptes |}.

Definition GetIndexInUxpte (startAddr currAddr : Z) : Z :=
  u64 (UxpteOffset startAddr + u64 (VirtPageNo currAddr - VirtPageNo startAddr)).

(** [uxpte[index]] read, and rewritten by a CAS loop run while the kernel is
    quiet (no schedule, so one pass suffices). *)
Definition uxpte_load (upt : UxPageTableStruct) (index : Z) : option uxpte_t :=
  ptes ← uxpte upt; ptes !! Z.to_nat index.

Definition uxpte_update (upt : UxPageTableStruct) (index : Z)
    (loop : uxpte_t -> option CasRun) : option UxPageTableStruct :=
  ptes ← uxpte upt;
  old ← ptes !! Z.to_nat index;
  run ← loop old;
  Some (set_uxpte upt (<[Z.to_nat index := run_pte run]> ptes)).

Definition GetUxpteAt (upt : upt_ptr) (addr : Z) : option upt_ptr :=
  match upt with
  | None => Some None
  | Some t =>
    let index := GetIndexInUxpte (dataAddr t) addr in
    t' ← uxpte_update t index (fun pte => UxpteAdd 1 [] pte UXPTE_REFCNT_ONE O);
    Some (Some t')
  end.

Definition PutUxpteAt (upt : upt_ptr) (addr : Z) : option upt_ptr :=
  match upt with
  | None => Some None
  | Some t =>
    let index := GetIndexInUxpte (dataAddr t) addr in
    t' ← uxpte_update t index (fun pte => UxpteSub 1 [] pte UXPTE_REFCNT_ONE O);
    Some (Some t')
  end.

Definition ClearUxpteAt (upt : upt_ptr) (addr : Z) : option upt_ptr :=
  match upt with
  | None => Some None
  | Some t =>
    let index := GetIndexInUxpte (dataAddr t) addr in
    t' ← uxpte_update t index (fun pte => UxpteClear_ 1 [] pte);
    Some (Some t')
  end.

Definition IsPresentAt (upt : upt_ptr) (addr : Z) : option bool :=
  t ← upt;
  let index := GetIndexInUxpte (dataAddr t) addr in
  pte ← uxpte_load t index;
  Some (IsUxptePresent pte).

(** The for loop of [UxpteOps]; [off += PAGE_SIZE] wraps at 2^64. *)
Fixpoint UxpteOps_loop (fuel : nat) (upt : upt_ptr) (off end_ : Z) (op : UxpteOp)
    : option (PMState * upt_ptr) :=
  match fuel with
  | O => None
  | S fuel' =>
    if off <? end_ then
      match op with
      | UPT_GET =>
        upt' ← GetUxpteAt upt off;
        UxpteOps_loop fuel' upt' (u64 (off + PAGE_SIZE)) end_ op
      | UPT_PUT =>
        upt' ← PutUxpteAt upt off;
        UxpteOps_loop fuel' upt' (u64 (off + PAGE_SIZE)) end_ op
      | UPT_CLEAR =>
        upt' ← ClearUxpteAt upt off;
        UxpteOps_loop fuel' upt' (u64 (off + PAGE_SIZE)) end_ op
      | UPT_IS_PRESENT =>
        present ← IsPresentAt upt off;
        if negb present then Some (PM_UXPT_NO_PRESENT, upt)
        else UxpteOps_loop fuel' upt (u64 (off + PAGE_SIZE)) end_ op
      end
    else Some (PM_OK, upt)
  end.

(** Enough passes for every run in which [off] does not wrap: one per page
    between [start] and [end_], one for a partial last page and one for the
    test that leaves the loop.  A run that uses them up never leaves the
    loop (see [UxpteOps_loop_returns]). *)
Definition UxpteOps_fuel (start end_ : Z) : nat :=
  Z.to_nat ((end_ - start) / PAGE_SIZE) + 2.

Definition UxpteOps (upt : upt_ptr) (addr len : Z) (op : UxpteOp)
    : option (PMState * upt_ptr) :=
  match upt with
  | None => Some (PM_BUILDER_NULL, upt)
  | Some t =>
    let start := RoundDown addr PAGE_SIZE in
    let end_ := RoundUp (u64 (addr + len)) PAGE_SIZE in
    if (start <? dataAddr t) || (u64 (dataAddr t + dataSize t) <? end_)
    then Some (PM_UXPT_OUT_RANGE, upt)
    else UxpteOps_loop (UxpteOps_fuel start end_) upt start end_ op
  end.

Definition UxpteIsEnabled : bool := g_supportUxpt.

Definition UxpteGet (upt : upt_ptr) (addr len : Z) : option upt_ptr :=
  if negb g_supportUxpt then Some upt
  else r ← UxpteOps upt addr len UPT_GET; Some (snd r).

Definition UxptePut (upt : upt_ptr) (addr len : Z) : option upt_ptr :=
  if negb g_supportUxpt then Some upt
  else r ← UxpteOps upt addr len UPT_PUT; Some (snd r).

Definition UxpteClear (upt : upt_ptr) (addr len : Z) : option upt_ptr :=
  if negb g_supportUxpt then Some upt
  else r ← UxpteOps upt addr len UPT_CLEAR; Some (snd r).

Definition UxpteIsPresent (upt : upt_ptr) (addr len : Z) : option bool :=
  if negb g_supportUxpt then Some true
  else r ← UxpteOps upt addr len UPT_IS_PRESENT; Some (PMState_eqb (fst r) PM_OK).

(** *** Mapping and unmapping the descriptors

    The kernel's answers: whether [mmap] with MAP_USEREXPTE succeeds, what
    the mapped words hold at first, and what [munmap] returns.  [mmap] of a
    zero length fails. *)

Record UxptEnv := {
  mmap_uxpte_ok : bool;
  mmap_uxpte_init : nat -> uxpte_t;
  munmap_uxpte_ret : Z
}.

Definition MapUxptePages (env : UxptEnv) (dataAddr dataSize : Z) : option (list uxpte_t) :=
  let size := GetUxPageSize dataAddr dataSize in
  if mmap_uxpte_ok env && negb (size =? 0)
  then Some (map (mmap_uxpte_init env) (seq 0 (Z.to_nat (Z.shiftr size UXPTE_SIZE_SHIFT))))
  else None.

Definition UnmapUxptePages (env : UxptEnv) (ptes : list uxpte_t) (size : Z) : Z :=
  munmap_uxpte_ret env.

Definition InitUxPageTable (env : UxptEnv) (upt : upt_ptr) (addr len : Z)
    : option (PMState * upt_ptr) :=
  if negb g_supportUxpt then Some (PM_OK, upt)
  else
    match upt with
    | None => Some (PM_MMAP_UXPT_FAIL, upt)
    | Some _ =>
      let t := {| dataAddr := addr; dataSize := len;
                  uxpte := MapUxptePages env addr len |} in
      match uxpte t with
      | None => Some (PM_MMAP_UXPT_FAIL, Some t)
      | Some _ =>
        upt' ← UxpteClear (Some t) addr len;
        Some (PM_OK, upt')
      end
    end.

Definition DeinitUxPageTable (env : UxptEnv) (upt : upt_ptr) : PMState * upt_ptr :=
  if negb g_supportUxpt then (PM_OK, upt)
  else
    match upt with
    | None => (PM_MMAP_UXPT_FAIL, upt)
    | Some t =>
      let size := GetUxPageSize (dataAddr t) (dataSize t) in
      match uxpte t with
      | Some ptes =>
        if negb (UnmapUxptePages env ptes size =? 0) then (PM_UNMAP_UXPT_FAIL, upt)
        else (PM_OK, Some {| dataAddr := 0; dataSize := 0; uxpte := None |})
      | None => (PM_OK, Some {| dataAddr := 0; dataSize := 0; uxpte := None |})
      end
    end.

End UxPageTable.

(** ** The build without USE_UXPT

    The second half of ux_page_table_c.c: the table structure is empty and
    every function is a stub.  A [void] stub returns the table it was given. *)

Module NoUxpt.

Definition UxpteIsEnabled : bool := false.

Definition UxPageTableSize : Z := 0.

Definition InitUxPageTable {T : Type} (upt : option T) (addr len : Z) : PMState * option T :=
  (PM_OK, upt).

Definition DeinitUxPageTable {T : Type} (upt : option T) : PMState * option T :=
  (PM_OK, upt).

Definition UxpteGet {T : Type} (upt : option T) (addr len : Z) : option T := upt.

Definition UxptePut {T : Type} (upt : option T) (addr len : Z) : option T := upt.

Definition UxpteIsPresent {T : Type} (upt : option T) (addr len : Z) : bool := true.

End NoUxpt.

(** ** The builder chain

    Modelled from the spec: purgeable_mem_builder_c.c is not among the
    sources.  Section 4.B: the chain is an append-only singly linked list of
    (fn, param) nodes; [buildAll(dst, size)] walks it from head to tail,
    invoking each [fn(dst, size, param)] in order, and any [false] return
    aborts and returns [false]; [append] links a new node at the tail;
    [destroy] walks the chain releasing each node.  Creating, appending and
    destroying can fail (sections 4.C and 7); whether they do is read from the
    environment, and a failed append or destroy leaves the chain as it was.

    A pointer to the head of a chain is the list of its nodes, NULL the empty
    list.  A modify function receives the data pointer, so it is a function
    of the whole mapping, and the size it was passed. *)

Definition buffer := list byte.

Definition PurgMemModifyFunc := buffer -> Z -> Z -> bool * buffer.

Record PurgMemBuilder := {
  Build : PurgMemModifyFunc;
  param : Z
}.

Definition builder_ptr := list PurgMemBuilder.

Record BuilderEnv := {
  builder_create_ok : bool;
  builder_append_ok : bool;
  builder_destroy_ok : bool
}.

Definition PurgMemBuilderCreate (env : BuilderEnv) (func : PurgMemModifyFunc) (funcPara : Z)
    : builder_ptr :=
  if builder_create_ok env then [ {| Build := func; param := funcPara |} ] else [].

Definition PurgMemBuilderAppendBuilder (env : BuilderEnv) (head newcomer : builder_ptr)
    : bool * builder_ptr :=
  if builder_append_ok env then (true, head ++ newcomer) else (false, head).

Fixpoint PurgMemBuilderBuildAll (chain : builder_ptr) (data : buffer) (size : Z)
    : bool * buffer :=
  match chain with
  | [] => (true, data)
  | node :: rest =>
    let '(ok, data') := Build node data size (param node) in
    if ok then PurgMemBuilderBuildAll rest data' size else (false, data')
  end.

Definition PurgMemBuilderDestroy (env : BuilderEnv) (chain : builder_ptr) : bool :=
  builder_destroy_ok env.

(** ** securec's memset_s

    The bounds-checking library is outside the repository.  Its [memset_s]
    sets [count] bytes and returns EOK when [dest] is not NULL and
    [count <= destMax <= SECUREC_MEM_MAX_LEN]; otherwise it returns an error,
    after setting [destMax] bytes when [count] alone is out of range.  A store
    past the end of the mapping does not return. *)

Definition SECUREC_MEM_MAX_LEN : Z := 2147483647.
Definition EOK : Z := 0.
Definition EINVAL : Z := 22.
Definition ERANGE : Z := 34.
Definition ERANGE_AND_RESET : Z := 162.

Definition mem_fill (mem : buffer) (c : byte) (count : Z) : option buffer :=
  if count <=? Z.of_nat (length mem)
  then Some (replicate (Z.to_nat count) c ++ drop (Z.to_nat count) mem)
  else None.

Definition memset_s (dest : Z) (mem : buffer) (destMax : Z) (c : byte) (count : Z)
    : option (Z * buffer) :=
  if (destMax <=? SECUREC_MEM_MAX_LEN) && negb (dest =? 0) && (count <=? destMax)
  then mem' ← mem_fill mem c count; Some (EOK, mem')
  else if (destMax =? 0) || (SECUREC_MEM_MAX_LEN <? destMax) then Some (ERANGE, mem)
  else if dest =? 0 then Some (EINVAL, mem)
  else mem' ← mem_fill mem c destMax; Some (ERANGE_AND_RESET, mem').

(** ** pthread read-write lock

    One calling thread; what other threads hold is part of the lock's state
    and does not change during a call.  [RwRead n] is held by [n + 1]
    readers.  An acquire that has to wait for a holder does not return, and
    neither does (undefined by POSIX) an unlock of a lock nobody holds.  A
    call that returns an error leaves the lock as it was.  The return codes
    of the calls are read, in order, from the lists of the state; an empty
    list answers 0. *)

Inductive rwlock_t := RwUnlocked | RwRead (more : nat) | RwWrite.

Definition pthread_rwlock_rdlock (ret : Z) (l : rwlock_t) : option (Z * rwlock_t) :=
  if negb (ret =? 0) then Some (ret, l)
  else match l with
       | RwUnlocked => Some (0, RwRead O)
       | RwRead n => Some (0, RwRead (S n))
       | RwWrite => None
       end.

Definition pthread_rwlock_wrlock (ret : Z) (l : rwlock_t) : option (Z * rwlock_t) :=
  if negb (ret =? 0) then Some (ret, l)
  else match l with
       | RwUnlocked => Some (0, RwWrite)
       | _ => None
       end.

Definition pthread_rwlock_unlock (ret : Z) (l : rwlock_t) : option (Z * rwlock_t) :=
  if negb (ret =? 0) then Some (ret, l)
  else match l with
       | RwUnlocked => None
       | RwRead O => Some (0, RwUnlocked)
       | RwRead (S n) => Some (0, RwRead n)
       | RwWrite => Some (0, RwUnlocked)
       end.

(** ** The purgeable region *)

(** What a session call did, in order: the pins and unpins it asked of the
    table and the runs of [PurgMemBuildData] with their results. *)
Inductive Event :=
  | EvUxpteGet (addr len : Z)
  | EvUxptePut (addr len : Z)
  | EvBuildData (succ : bool).

(** The release calls [PurgMemDestroy] makes, with what they returned. *)
Inductive Release :=
  | RelRwlock (ret : Z)                 (* pthread_rwlock_destroy *)
  | RelBuilder (ok : bool)              (* PurgMemBuilderDestroy *)
  | RelData (addr size ret : Z)         (* munmap of the data *)
  | RelUxptMap (st : PMState)           (* DeinitUxPageTable *)
  | RelUxptStruct                       (* free(purgObj->uxPageTable) *)
  | RelObj.                             (* free(purgObj) *)

(** [struct PurgMem], followed by what its pointer fields refer to and by the
    environment of the calls made on it: the bytes of the mapping at
    [dataPtr], the return codes the next lock and unlock calls will produce,
    and the events so far. *)
Record PurgMem := {
  dataPtr : Z;
  dataSizeInput : Z;
  builder : builder_ptr;
  uxPageTable : upt_ptr;
  rwlock : rwlock_t;
  buildDataCount : Z;
  data : buffer;
  lock_rets : list Z;
  unlock_rets : list Z;
  trace : list Event
}.

Definition set_dataPtr (o : PurgMem) (v : Z) : PurgMem :=
  {| dataPtr := v; dataSizeInput := dataSizeInput o; builder := builder o;
     uxPageTable := uxPageTable o; rwlock := rwlock o;
     buildDataCount := buildDataCount o; data := data o;
     lock_rets := lock_rets o; unlock_rets := unlock_rets o; trace := trace o |}.

Definition set_builder (o : PurgMem) (v : builder_ptr) : PurgMem :=
  {| dataPtr := dataPtr o; dataSizeInput := dataSizeInput o; builder := v;
     uxPageTable := uxPageTable o; rwlock := rwlock o;
     buildDataCount := buildDataCount o; data := data o;
     lock_rets := lock_rets o; unlock_rets := unlock_rets o; trace := trace o |}.

Definition set_uxPageTable (o : PurgMem) (v : upt_ptr) : PurgMem :=
  {| dataPtr := dataPtr o; dataSizeInput := dataSizeInput o; builder := builder o;
     uxPageTable := v; rwlock := rwlock o;
     buildDataCount := buildDataCount o; data := data o;
     lock_rets := lock_rets o; unlock_rets := unlock_rets o; trace := trace o |}.

Definition set_rwlock (o : PurgMem) (v : rwlock_t) : PurgMem :=
  {| dataPtr := dataPtr o; dataSizeInput := dataSizeInput o; builder := builder o;
     uxPageTable := uxPageTable o; rwlock := v;
     buildDataCount := buildDataCount o; data := data o;
     lock_rets := lock_rets o; unlock_rets := unlock_rets o; trace := trace o |}.

Definition set_buildDataCount (o : PurgMem) (v : Z) : PurgMem :=
  {| dataPtr := dataPtr o; dataSizeInput := dataSizeInput o; builder := builder o;
     uxPageTable := uxPageTable o; rwlock := rwlock o;
     buildDataCount := v; data := data o;
     lock_rets := lock_rets o; unlock_rets := unlock_rets o; trace := trace o |}.

Definition set_data (o : PurgMem) (v : buffer) : PurgMem :=
  {| dataPtr := dataPtr o; dataSizeInput := dataSizeInput o; builder := builder o;
     uxPageTable := uxPageTable o; rwlock := rwlock o;
     buildDataCount := buildDataCount o; data := v;
     lock_rets := lock_rets o; unlock_rets := unlock_rets o; trace := trace o |}.

Definition set_lock_rets (o : PurgMem) (v : list Z) : PurgMem :=
  {| dataPtr := dataPtr o; dataSizeInput := dataSizeInput o; builder := builder o;
     uxPageTable := uxPageTable o; rwlock := rwlock o;
     buildDataCount := buildDataCount o; data := data o;
     lock_rets := v; unlock_rets := unlock_rets o; trace := trace o |}.

Definition set_unlock_rets (o : PurgMem) (v : list Z) : PurgMem :=
  {| dataPtr := dataPtr o; dataSizeInput := dataSizeInput o; builder := builder o;
     uxPageTable := uxPageTable o; rwlock := rwlock o;
     buildDataCount := buildDataCount o; data := data o;
     lock_rets := lock_rets o; unlock_rets := v; trace := trace o |}.

Definition emit (o : PurgMem) (e : Event) : PurgMem :=
  {| dataPtr := dataPtr o; dataSizeInput := dataSizeInput o; builder := builder o;
     uxPageTable := uxPageTable o; rwlock := rwlock o;
     buildDataCount := buildDataCount o; data := data o;
     lock_rets := lock_rets o; unlock_rets := unlock_rets o;
     trace := trace o ++ [e] |}.

Definition next_ret (rets : list Z) : Z :=
  match rets with
  | r :: _ => r
  | [] => 0
  end.

(** The system's answers to [PurgMemCreate] and [PurgMemDestroy].  A
    successful [mmap] of the data returns zero-filled pages at
    [mmap_data_ret]; [malloc_upt] is the (uninitialised) content of the
    allocated table structure. *)
Record PurgEnv := {
  malloc_obj_ok : bool;
  mmap_data_ret : option Z;
  malloc_upt : upt_ptr;
  uxpt_env : UxptEnv;
  rwlock_init_ret : Z;
  rwlock_destroy_ret : Z;
  munmap_data_ret : Z;
  builder_env : BuilderEnv
}.

Section PurgeableMem.
Context `{Platform}.

(** The kernel's side of the descriptor protocol (spec, section 3: the low
    bit "is set by the kernel when a data page is populated"): a store to
    [len > 0] bytes at [addr] populates the pages it touches and sets the
    present bit of their descriptors. *)
Definition kernel_populate (upt : upt_ptr) (addr len : Z) : upt_ptr :=
  if negb g_supportUxpt || (len <=? 0) then upt
  else
    match upt with
    | Some t =>
      match uxpte t with
      | Some ptes =>
        let first := GetIndexInUxpte (dataAddr t) addr in
        let pages := VirtPageNo (addr + len - 1) - VirtPageNo addr + 1 in
        Some (set_uxpte t
          (imap (fun i pte =>
                   if (first <=? Z.of_nat i) && (Z.of_nat i <? first + pages)
                   then Z.lor pte UXPTE_PRESENT_MASK else pte) ptes))
      | None => upt
      end
    | None => upt
    end.

Definition IsPurgMemPtrValid (purgObj : option PurgMem) : bool :=
  match purgObj with
  | None => false
  | Some o =>
    if dataPtr o =? 0 then false
    else match uxPageTable o with
         | None => false
         | Some _ =>
           match builder o with
           | [] => false
           | _ => true
           end
         end
  end.

Definition IsPurged (o : PurgMem) : option bool :=
  if buildDataCount o =? 0 then Some true
  else
    present ← UxpteIsPresent (uxPageTable o) (dataPtr o) (dataSizeInput o);
    Some (negb present).

Definition PurgMemBuildData (o : PurgMem) : option (bool * PurgMem) :=
  r ← memset_s (dataPtr o) (data o) (RoundUp (dataSizeInput o) PAGE_SIZE)
               x00 (dataSizeInput o);
  if negb (fst r =? EOK) then Some (false, emit (set_data o (snd r)) (EvBuildData false))
  else
    let o1 := set_uxPageTable (set_data o (snd r))
                (kernel_populate (uxPageTable o) (dataPtr o) (dataSizeInput o)) in
    let '(succ, data') := PurgMemBuilderBuildAll (builder o1) (data o1) (dataSizeInput o1) in
    let o2 := set_data o1 data' in
    if succ
    then Some (true, emit (set_buildDataCount o2 (u32 (buildDataCount o2 + 1)))
                          (EvBuildData true))
    else Some (false, emit o2 (EvBuildData false)).

Definition rdlock (o : PurgMem) : option (Z * PurgMem) :=
  r ← pthread_rwlock_rdlock (next_ret (lock_rets o)) (rwlock o);
  Some (fst r, set_rwlock (set_lock_rets o (tl (lock_rets o))) (snd r)).

Definition wrlock (o : PurgMem) : option (Z * PurgMem) :=
  r ← pthread_rwlock_wrlock (next_ret (lock_rets o)) (rwlock o);
  Some (fst r, set_rwlock (set_lock_rets o (tl (lock_rets o))) (snd r)).

Definition unlock (o : PurgMem) : option (Z * PurgMem) :=
  r ← pthread_rwlock_unlock (next_ret (unlock_rets o)) (rwlock o);
  Some (fst r, set_rwlock (set_unlock_rets o (tl (unlock_rets o))) (snd r)).

Definition TryBeginRead (o : PurgMem) : option (PMState * PurgMem) :=
  r ← rdlock o;
  let o1 := snd r in
  if negb (fst r =? 0) then Some (PM_LOCK_READ_FAIL, o1)
  else
    purged ← IsPurged o1;
    if negb purged then Some (PM_DATA_NO_PURGED, o1)
    else
      u ← unlock o1;
      if negb (fst u =? 0) then Some (PM_UNLOCK_READ_FAIL, snd u)
      else Some (PM_DATA_PURGED, snd u).

Definition BeginReadBuildData (o : PurgMem) : option (PMState * PurgMem) :=
  w ← wrlock o;
  let o1 := snd w in
  if negb (fst w =? 0) then Some (PM_LOCK_WRITE_FAIL, o1)
  else
    purged ← IsPurged o1;
    b ← (if (purged : bool) then PurgMemBuildData o1 else Some (false, o1));
    let rebuildRet := fst b in
    u ← unlock (snd b);
    if negb (fst u =? 0) then Some (PM_UNLOCK_WRITE_FAIL, snd u)
    else if negb rebuildRet then Some (PMB_BUILD_ALL_FAIL, snd u)
    else Some (PMB_BUILD_ALL_SUCC, snd u).

(** The [while (true)] of [PurgMemBeginRead]: the value of [ret] and the
    object when the loop is left. *)
Fixpoint PurgMemBeginRead_loop (fuel : nat) (o : PurgMem) : option (bool * PurgMem) :=
  match fuel with
  | O => None
  | S fuel' =>
    r ← TryBeginRead o;
    match fst r with
    | PM_DATA_NO_PURGED => Some (true, snd r)
    | PM_DATA_PURGED =>
      b ← BeginReadBuildData (snd r);
      if negb (PMState_eqb (fst b) PMB_BUILD_ALL_SUCC) then Some (false, snd b)
      else PurgMemBeginRead_loop fuel' (snd b)
    | _ => Some (false, snd r)
    end
  end.

Definition pin (o : PurgMem) : option PurgMem :=
  upt ← UxpteGet (uxPageTable o) (dataPtr o) (dataSizeInput o);
  Some (emit (set_uxPageTable o upt) (EvUxpteGet (dataPtr o) (dataSizeInput o))).

Definition unpin (o : PurgMem) : option PurgMem :=
  upt ← UxptePut (uxPageTable o) (dataPtr o) (dataSizeInput o);
  Some (emit (set_uxPageTable o upt) (EvUxptePut (dataPtr o) (dataSizeInput o))).

Definition PurgMemBeginRead (fuel : nat) (purgObj : option PurgMem)
    : option (bool * option PurgMem) :=
  if negb (IsPurgMemPtrValid purgObj) then Some (false, purgObj)
  else
    o ← purgObj;
    o1 ← pin o;
    r ← PurgMemBeginRead_loop fuel o1;
    if negb (fst r) then o2 ← unpin (snd r); Some (false, Some o2)
    else Some (true, Some (snd r)).

Definition PurgMemBeginWrite (purgObj : option PurgMem) : option (bool * option PurgMem) :=
  if negb (IsPurgMemPtrValid purgObj) then Some (false, purgObj)
  else
    o ← purgObj;
    o1 ← pin o;
    w ← wrlock o1;
    if negb (fst w =? 0) then o2 ← unpin (snd w); Some (false, Some o2)
    else
      purged ← IsPurged (snd w);
      if negb purged then Some (true, Some (snd w))
      else
        b ← PurgMemBuildData (snd w);
        if (fst b : bool) then Some (true, Some (snd b))
        else
          u ← unlock (snd b);
          o2 ← unpin (snd u);
          Some (false, Some o2).

Definition EndAccessPurgMem (purgObj : option PurgMem) : option (option PurgMem) :=
  if negb (IsPurgMemPtrValid purgObj) then Some purgObj
  else
    o ← purgObj;
    u ← unlock o;
    o2 ← unpin (snd u);
    Some (Some o2).

Definition PurgMemEndRead := EndAccessPurgMem.
Definition PurgMemEndWrite := EndAccessPurgMem.



Definition content (o : PurgMem) : buffer :=
  take (Z.to_nat (dataSizeInput o)) (data o).

Definition PurgMemAppendModify (env : PurgEnv) (purgObj : option PurgMem)
    (func : option PurgMemModifyFunc) (funcPara : Z) : bool * option PurgMem :=
  match func with
  | None => (true, purgObj)
  | Some f =>
    match purgObj with
    | None => (false, purgObj)
    | Some o =>
      let '(succ, data') := f (data o) (dataSizeInput o) funcPara in
      let o1 := set_data o data' in
      if negb succ then (false, Some o1)
      else
        match PurgMemBuilderCreate (builder_env env) f funcPara with
        | [] => (false, Some o1)
        | newcomer =>
          match builder o1 with
          | [] => (true, Some (set_builder o1 newcomer))
          | head =>
            let '(ok, chain) := PurgMemBuilderAppendBuilder (builder_env env) head newcomer in
            (ok, Some (set_builder o1 chain))
          end
        end
    end
  end.

(** The three release blocks of [PurgMemDestroy], each on the value of
    [err], the object and the release calls so far. *)
Definition destroy_builder (env : PurgEnv) (st : PMState * PurgMem * list Release)
    : PMState * PurgMem * list Release :=
  let '(err, o, rel) := st in
  match builder o with
  | [] => (err, o, rel)
  | chain =>
    if negb (PurgMemBuilderDestroy (builder_env env) chain)
    then (PMB_DESTORY_FAIL, o, rel ++ [RelBuilder false])
    else (err, set_builder o [], rel ++ [RelBuilder true])
  end.

Definition unmap_data (env : PurgEnv) (st : PMState * PurgMem * list Release)
    : option (PMState * PurgMem * list Release) :=
  let '(err, o, rel) := st in
  if dataPtr o =? 0 then Some (err, o, rel)
  else
    let size := RoundUp (dataSizeInput o) PAGE_SIZE in
    let rel' := rel ++ [RelData (dataPtr o) size (munmap_data_ret env)] in
    if negb (munmap_data_ret env =? 0) then Some (PM_UNMAP_PURG_FAIL, o, rel')
    else
      (* double check munmap result: the answer is only logged *)
      _ ← (if UxpteIsEnabled then IsPurged o else Some true);
      Some (err, set_data (set_dataPtr o 0) [], rel').

Definition unmap_uxpt (env : PurgEnv) (st : PMState * PurgMem * list Release)
    : PMState * PurgMem * list Release :=
  let '(err, o, rel) := st in
  match uxPageTable o with
  | None => (err, o, rel)
  | Some _ =>
    let '(deinitRet, upt') := DeinitUxPageTable (uxpt_env env) (uxPageTable o) in
    if negb (PMState_eqb deinitRet PM_OK)
    then (deinitRet, set_uxPageTable o upt', rel ++ [RelUxptMap deinitRet])
    else (err, set_uxPageTable o None, rel ++ [RelUxptMap deinitRet; RelUxptStruct])
  end.

Definition PurgMemDestroy (env : PurgEnv) (purgObj : option PurgMem)
    : option (bool * option PurgMem * list Release) :=
  match purgObj with
  | None => Some (true, None, [])
  | Some o =>
    let st0 := (PM_OK, o, [RelRwlock (rwlock_destroy_ret env)]) in
    st2 ← unmap_data env (destroy_builder env st0);
    let '(err, o3, rel) := unmap_uxpt env st2 in
    if PMState_eqb err PM_OK then Some (true, None, rel ++ [RelObj])
    else Some (false, Some o3, rel)
  end.

Definition mmap_data (env : PurgEnv) (size : Z) : option (Z * buffer) :=
  if size =? 0 then None
  else addr ← mmap_data_ret env; Some (addr, replicate (Z.to_nat size) x00).

Definition PurgMemCreate_ (env : PurgEnv) (len : Z) (builder : builder_ptr)
    : option (option PurgMem) :=
  if negb (malloc_obj_ok env) then Some None
  else
    let size := RoundUp len PAGE_SIZE in
    match mmap_data env size with
    | None => Some None                                   (* free_pug_obj *)
    | Some (addr, bytes) =>
      match malloc_upt env with
      | None => Some None                                 (* unmap_data *)
      | Some t =>
        r ← InitUxPageTable (uxpt_env env) (Some t) addr size;
        if negb (PMState_eqb (fst r) PM_OK) then Some None  (* free_uxpt *)
        else if negb (rwlock_init_ret env =? 0) then Some None  (* deinit_upt *)
        else Some (Some {| dataPtr := addr; dataSizeInput := len; builder := builder;
                           uxPageTable := snd r; rwlock := RwUnlocked;
                           buildDataCount := 0; data := bytes;
                           lock_rets := []; unlock_rets := []; trace := [] |})
      end
    end.

Definition PurgMemCreate (env : PurgEnv) (len : Z) (func : option PurgMemModifyFunc)
    (funcPara : Z) : option (option PurgMem) :=
  if len =? 0 then Some None
  else
    match func with
    | None => Some None
    | Some _ =>
      purgMemObj ← PurgMemCreate_ env len [];
      match purgMemObj with
      | None => Some None
      | Some _ =>
        let '(ok, obj') := PurgMemAppendModify env purgMemObj func funcPara in
        if ok then Some obj'
        else _ ← PurgMemDestroy env obj'; Some None
      end
    end.

End PurgeableMem.

(** ** Well-formed tables and regions *)

Section Invariants.
Context `{Platform}.

(** A table as [InitUxPageTable] leaves it: the descriptors of the uxpte
    pages that [MapUxptePages] asked for, over a data range that does not
    reach the last page of the address space. *)
Definition table_ok (t : UxPageTableStruct) : Prop :=
  0 <= dataAddr t /\ 0 < dataSize t /\
  dataAddr t + dataSize t <= 2 ^ 64 - PAGE_SIZE /\
  exists ptes, uxpte t = Some ptes /\
    Z.of_nat (length ptes) = Z.shiftr (GetUxPageSize (dataAddr t) (dataSize t)) UXPTE_SIZE_SHIFT.

(** The descriptors an operation on [addr, addr + len) goes through: those
    of the addresses of the page-rounded range. *)
Definition covered (t : UxPageTableStruct) (addr len : Z) (k : nat) : Prop :=
  exists a, RoundDown addr PAGE_SIZE <= a < RoundUp (u64 (addr + len)) PAGE_SIZE /\
            k = Z.to_nat (GetIndexInUxpte (dataAddr t) a).

(** The index of the first descriptor of the page-rounded range of
    [addr, addr + len), and the number of pages of that range. *)
Definition first_index (t : UxPageTableStruct) (addr : Z) : nat :=
  Z.to_nat (GetIndexInUxpte (dataAddr t) (RoundDown addr PAGE_SIZE)).

Definition page_count (addr len : Z) : nat :=
  Z.to_nat ((RoundUp (u64 (addr + len)) PAGE_SIZE - RoundDown addr PAGE_SIZE) / PAGE_SIZE).

(** A live region as [PurgMemCreate_] builds it. *)
Definition region_ok (o : PurgMem) : Prop :=
  0 < dataSizeInput o < 2 ^ 64 /\ 0 < dataPtr o /\
  dataPtr o mod PAGE_SIZE = 0 /\
  dataPtr o + RoundUp (dataSizeInput o) PAGE_SIZE < 2 ^ 64 - PAGE_SIZE /\
  Z.of_nat (length (data o)) = RoundUp (dataSizeInput o) PAGE_SIZE /\
  0 <= buildDataCount o < 2 ^ 32 /\
  (g_supportUxpt = true ->
   exists t, uxPageTable o = Some t /\ table_ok t /\
             dataAddr t = dataPtr o /\
             dataSize t = RoundUp (dataSizeInput o) PAGE_SIZE).

(** The reference count of a descriptor: the bits above the present bit. *)
Definition refcnt (pte : uxpte_t) : Z := Z.shiftr pte UXPTE_PRESENT_BIT.

(** The range and the reference counts of a table, present bits left out. *)
Definition refcnts (upt : upt_ptr) : option (Z * Z * option (list Z)) :=
  t ← upt; Some (dataAddr t, dataSize t, (fun ptes : list uxpte_t => refcnt <$> ptes) <$> uxpte t).

(** Every descriptor that a session of the region pins holds a value a pin
    can be added to (neither the under-reclaim value nor the last odd
    value, from which the addition wraps). *)
Definition pinnable (o : PurgMem) : Prop :=
  forall t ptes k pte,
    uxPageTable o = Some t -> uxpte t = Some ptes ->
    covered t (dataPtr o) (dataSizeInput o) k -> ptes !! k = Some pte ->
    0 <= pte < UXPTE_UNDER_RECLAIM.

(** Events that are runs of [PurgMemBuildData]. *)
Definition builds_only (evs : list Event) : Prop :=
  Forall (fun e => exists succ, e = EvBuildData succ) evs.

(** What a session keeps of the object it pinned, whatever the locks do:
    the region, the reference counts, and a trace that grew by rebuilds. *)
Definition mem_inv (o0 o : PurgMem) : Prop :=
  dataPtr o = dataPtr o0 /\ dataSizeInput o = dataSizeInput o0 /\
  builder o = builder o0 /\
  refcnts (uxPageTable o) = refcnts (uxPageTable o0) /\
  exists builds, trace o = trace o0 ++ builds /\ builds_only builds.

(** The value a quiet pin leaves in a descriptor. *)
Definition pin_word (pte : uxpte_t) : uxpte_t :=
  if (u64 (pte + 2) <? pte) || (u64 (pte + 2) <? 2) then pte
  else if u64 (ULONG_MAX - pte) <? 2 then pte
  else u64 (pte + 2).

(** What the quiet run of an updating operation leaves in one descriptor. *)
Definition word_op (op : UxpteOp) (pte : uxpte_t) : uxpte_t :=
  match op with
  | UPT_GET => pin_word pte
  | UPT_PUT => u64 (pte - 2)
  | UPT_CLEAR => 0
  | UPT_IS_PRESENT => pte
  end.

(** [g] applied to the [n] entries from index [i] on. *)
Definition update_range (g : uxpte_t -> uxpte_t) (i n : nat) (ptes : list uxpte_t)
    : list uxpte_t :=
  imap (fun k pte => if (i <=? k)%nat && (k <? i + n)%nat then g pte else pte) ptes.

(** The mapping after the [memset_s] of a rebuild: its first
    [dataSizeInput] bytes zero, the rest as it was. *)
Definition zeroed (o : PurgMem) : buffer :=
  replicate (Z.to_nat (dataSizeInput o)) x00 ++ drop (Z.to_nat (dataSizeInput o)) (data o).

(** What a lock call leaves alone. *)
Definition same_but_lock (o o' : PurgMem) : Prop :=
  dataPtr o' = dataPtr o /\ dataSizeInput o' = dataSizeInput o /\
  builder o' = builder o /\ uxPageTable o' = uxPageTable o /\
  buildDataCount o' = buildDataCount o /\ data o' = data o /\ trace o' = trace o.

(** The lock after a successful read acquire. *)
Definition rd_acquired (l : rwlock_t) : rwlock_t :=
  match l with
  | RwUnlocked => RwRead O
  | RwRead n => RwRead (S n)
  | RwWrite => RwWrite
  end.

(** A modify function that honours its [(data, size)] contract: it reads
    and writes the first [size] bytes only, where it computes [g]. *)
Definition within_size (f : PurgMemModifyFunc) (size para : Z)
    (g : buffer -> bool * buffer) : Prop :=
  (forall head, length (snd (g head)) = length head) /\
  forall buf : buffer, (Z.to_nat size <= length buf)%nat ->
    f buf size para =
      (fst (g (take (Z.to_nat size) buf)),
       snd (g (take (Z.to_nat size) buf)) ++ drop (Z.to_nat size) buf).

End Invariants.

(** ** Concrete platforms and objects for the examples *)

Definition page4k (supportUxpt : bool) : Platform :=
  {| PAGE_SHIFT := 12;
     PAGE_SHIFT_range := conj (Zle_bool_imp_le 3 12 eq_refl) (Zle_bool_imp_le 12 30 eq_refl);
     g_supportUxpt := supportUxpt |}.

(** A table over the two pages at 0x10000, every descriptor [pte]. *)
Definition table_2p (pte : uxpte_t) : UxPageTableStruct :=
  {| dataAddr := 65536; dataSize := 8192; uxpte := Some (replicate 512 pte) |}.

(** Modify functions: fill the [size] bytes with [c]; fail. *)
Definition fill (c : byte) : PurgMemModifyFunc :=
  fun buf size _ => (true, replicate (Z.to_nat size) c ++ drop (Z.to_nat size) buf).

Definition fail_func : PurgMemModifyFunc := fun buf _ _ => (false, buf).

(** A region of 4000 bytes in the page at 0x10000, nobody holding its lock,
    with the given chain, descriptors, build count and bytes. *)
Definition region_4000 (chain : builder_ptr) (pte : uxpte_t) (count : Z) (bytes : buffer)
    : PurgMem :=
  {| dataPtr := 65536; dataSizeInput := 4000; builder := chain;
     uxPageTable := Some {| dataAddr := 65536; dataSize := 4096;
                            uxpte := Some (replicate 512 pte) |};
     rwlock := RwUnlocked; buildDataCount := count; data := bytes;
     lock_rets := []; unlock_rets := []; trace := [] |}.

(** A region of 2 GiB at 0x10000 with the capability off (its table
    structure allocated, no descriptors mapped), every byte 1. *)
Definition region_2G : PurgMem :=
  {| dataPtr := 65536; dataSizeInput := 2 ^ 31;
     builder := [ {| Build := fill "Z"; param := 0 |} ];
     uxPageTable := Some {| dataAddr := 0; dataSize := 0; uxpte := None |};
     rwlock := RwUnlocked; buildDataCount := 0;
     data := replicate (Z.to_nat (2 ^ 31)) x01;
     lock_rets := []; unlock_rets := []; trace := [] |}.

Definition env_ok : PurgEnv :=
  {| malloc_obj_ok := true; mmap_data_ret := Some 65536;
     malloc_upt := Some {| dataAddr := 0; dataSize := 0; uxpte := None |};
     uxpt_env := {| mmap_uxpte_ok := true; mmap_uxpte_init := fun _ => 0;
                    munmap_uxpte_ret := 0 |};
     rwlock_init_ret := 0; rwlock_destroy_ret := 0; munmap_data_ret := 0;
     builder_env := {| builder_create_ok := true; builder_append_ok := true;
                       builder_destroy_ok := true |} |}.

Definition env_no_builder : PurgEnv :=
  {| malloc_obj_ok := true; mmap_data_ret := Some 65536;
     malloc_upt := Some {| dataAddr := 0; dataSize := 0; uxpte := None |};
     uxpt_env := {| mmap_uxpte_ok := true; mmap_uxpte_init := fun _ => 0;
                    munmap_uxpte_ret := 0 |};
     rwlock_init_ret := 0; rwlock_destroy_ret := 0; munmap_data_ret := 0;
     builder_env := {| builder_create_ok := false; builder_append_ok := true;
                       builder_destroy_ok := true |} |}.

Definition env_munmap_fails : PurgEnv :=
  {| malloc_obj_ok := true; mmap_data_ret := Some 65536;
     malloc_upt := Some {| dataAddr := 0; dataSize := 0; uxpte := None |};
     uxpt_env := {| mmap_uxpte_ok := true; mmap_uxpte_init := fun _ => 0;
                    munmap_uxpte_ret := 0 |};
     rwlock_init_ret := 0; rwlock_destroy_ret := 0; munmap_data_ret := -1;
     builder_env := {| builder_create_ok := true; builder_append_ok := true;
                       builder_destroy_ok := true |} |}.

(** ** Arithmetic of the constants *)

Lemma UXPTE_REFCNT_ONE_val : UXPTE_REFCNT_ONE = 2.
Proof. reflexivity. Qed.

Lemma UXPTE_PRESENT_MASK_val : UXPTE_PRESENT_MASK = 1.
Proof. reflexivity. Qed.

Lemma UXPTE_UNDER_RECLAIM_val : UXPTE_UNDER_RECLAIM = 2 ^ 64 - 2.
Proof. reflexivity. Qed.

Lemma u64_small z : 0 <= z < 2 ^ 64 -> u64 z = z.
Proof. intros Hz. unfold u64. apply Z.mod_small. exact Hz. Qed.

Lemma u64_range z : 0 <= u64 z < 2 ^ 64.
Proof. unfold u64. apply Z.mod_pos_bound. lia. Qed.

Lemma IsUxptePresent_odd pte : IsUxptePresent pte = Z.odd pte.
Proof.
  unfold IsUxptePresent. rewrite UXPTE_PRESENT_MASK_val.
  change 1 with (Z.ones 1). rewrite Z.land_ones by lia.
  change (2 ^ 1) with 2. rewrite Zmod_odd.
  destruct (Z.odd pte); reflexivity.
Qed.

Lemma odd_u64_sub2 pte : Z.odd (u64 (pte - 2)) = Z.odd pte.
Proof.
  unfold u64.
  rewrite <- !Z.bit0_odd.
  rewrite Z.mod_pow2_bits_low by lia.
  rewrite !Z.bit0_odd.
  replace (pte - 2) with (pte + 2 * (-1)) by lia.
  apply Z.odd_add_mul_2.
Qed.

(** ** The compare-and-swap loops *)

Lemma UxpteAdd_body_sentinel : UxpteAdd_body UXPTE_UNDER_RECLAIM UXPTE_REFCNT_ONE = AddBreak.
Proof. reflexivity. Qed.

(** With the refcount unit as increment, no pass reaches [sched_yield]: the
    under-reclaim value is caught by the wrap-around test before it. *)
Lemma UxpteAdd_body_no_yield old :
  match UxpteAdd_body old UXPTE_REFCNT_ONE with
  | AddCAS yield _ _ => yield = false
  | _ => True
  end.
Proof.
  unfold UxpteAdd_body.
  destruct ((u64 (old + UXPTE_REFCNT_ONE) <? old) || (u64 (old + UXPTE_REFCNT_ONE) <? UXPTE_REFCNT_ONE)) eqn:Hwrap;
    [exact I|].
  destruct (u64 (ULONG_MAX - old) <? UXPTE_REFCNT_ONE); [exact I|].
  destruct (IsUxpteUnderReclaim old) eqn:Hur; [|reflexivity].
  exfalso. unfold IsUxpteUnderReclaim in Hur. apply Z.eqb_eq in Hur. subst old.
  vm_compute in Hwrap. discriminate.
Qed.

Lemma UxpteAdd_yields fuel : forall kernel pte yields r,
  UxpteAdd fuel kernel pte UXPTE_REFCNT_ONE yields = Some r -> run_yields r = yields.
Proof.
  induction fuel as [|fuel IH]; intros kernel pte yields r Hrun; [discriminate|].
  simpl in Hrun.
  pose proof (UxpteAdd_body_no_yield pte) as Hny.
  destruct (UxpteAdd_body pte UXPTE_REFCNT_ONE) as [ | |yield old newVal].
  - inversion Hrun; reflexivity.
  - inversion Hrun; reflexivity.
  - subst yield.
    destruct (kernel_store kernel pte =? old).
    + inversion Hrun; reflexivity.
    + eapply IH; eassumption.
Qed.

Lemma UxpteAdd_quiet pte :
  UxpteAdd 1 [] pte UXPTE_REFCNT_ONE O = Some {| run_pte := pin_word pte; run_yields := O |}.
Proof.
  unfold pin_word. simpl. unfold UxpteAdd_body. rewrite UXPTE_REFCNT_ONE_val.
  destruct ((u64 (pte + 2) <? pte) || (u64 (pte + 2) <? 2)) eqn:Hwrap; [reflexivity|].
  destruct (u64 (ULONG_MAX - pte) <? 2); [reflexivity|].
  destruct (IsUxpteUnderReclaim pte) eqn:Hur.
  - unfold IsUxpteUnderReclaim in Hur. apply Z.eqb_eq in Hur. subst pte.
    vm_compute in Hwrap. discriminate.
  - simpl. rewrite Z.eqb_refl. reflexivity.
Qed.

Lemma pin_word_pinnable pte : 0 <= pte < UXPTE_UNDER_RECLAIM -> pin_word pte = pte + 2.
Proof.
  rewrite UXPTE_UNDER_RECLAIM_val. intros Hp. unfold pin_word, ULONG_MAX.
  rewrite !u64_small by lia.
  destruct (pte + 2 <? pte) eqn:E1; [apply Z.ltb_lt in E1; lia|].
  destruct (pte + 2 <? 2) eqn:E2; [apply Z.ltb_lt in E2; lia|].
  destruct (2 ^ 64 - 1 - pte <? 2) eqn:E3; [apply Z.ltb_lt in E3; lia|].
  reflexivity.
Qed.

Lemma UxpteSub_quiet pte decNum :
  UxpteSub 1 [] pte decNum O = Some {| run_pte := u64 (pte - decNum); run_yields := O |}.
Proof. simpl. rewrite Z.eqb_refl. reflexivity. Qed.

Lemma UxpteSub_returns kernel : forall pte decNum yields,
  exists v, UxpteSub (S (length kernel)) kernel pte decNum yields
            = Some {| run_pte := u64 (v - decNum); run_yields := yields |}.
Proof.
  induction kernel as [|k kernel IH]; intros pte decNum yields.
  - exists pte. simpl. rewrite Z.eqb_refl. reflexivity.
  - cbn [length UxpteSub].
    destruct (kernel_store (k :: kernel) pte =? pte).
    + exists pte. reflexivity.
    + cbn [tl]. apply IH.
Qed.

Lemma UxpteClear_quiet pte :
  UxpteClear_ 1 [] pte = Some {| run_pte := 0; run_yields := O |}.
Proof.
  unfold UxpteClear_. destruct (pte =? 0) eqn:E.
  - apply Z.eqb_eq in E. subst. reflexivity.
  - simpl. rewrite Z.eqb_refl. reflexivity.
Qed.

(** ** Pages and indexes *)

Section PageArith.
Context `{Platform}.

Lemma PAGE_SIZE_pow2 : PAGE_SIZE = 2 ^ PAGE_SHIFT.
Proof.
  pose proof PAGE_SHIFT_range. unfold PAGE_SIZE.
  rewrite Z.shiftl_1_l. reflexivity.
Qed.

Lemma PAGE_SIZE_range : 8 <= PAGE_SIZE <= 2 ^ 30.
Proof.
  pose proof PAGE_SHIFT_range as Hr. rewrite PAGE_SIZE_pow2. split.
  - change 8 with (2 ^ 3). apply Z.pow_le_mono_r; lia.
  - apply Z.pow_le_mono_r; lia.
Qed.

Lemma UXPTE_PER_PAGE_pow2 : UXPTE_PER_PAGE = 2 ^ (PAGE_SHIFT - 3).
Proof.
  pose proof PAGE_SHIFT_range. unfold UXPTE_PER_PAGE, UXPTE_PER_PAGE_SHIFT, UXPTE_SIZE_SHIFT.
  rewrite Z.shiftl_1_l. reflexivity.
Qed.

Lemma PAGE_SIZE_per_page : PAGE_SIZE = 8 * UXPTE_PER_PAGE.
Proof.
  pose proof PAGE_SHIFT_range. rewrite PAGE_SIZE_pow2, UXPTE_PER_PAGE_pow2.
  change 8 with (2 ^ 3). rewrite <- Z.pow_add_r by lia. f_equal. lia.
Qed.

Lemma UXPTE_PER_PAGE_pos : 0 < UXPTE_PER_PAGE.
Proof. pose proof PAGE_SIZE_range. pose proof PAGE_SIZE_per_page. lia. Qed.

Lemma VirtPageNo_div a : VirtPageNo a = a / PAGE_SIZE.
Proof.
  pose proof PAGE_SHIFT_range. unfold VirtPageNo.
  rewrite Z.shiftr_div_pow2 by lia. rewrite PAGE_SIZE_pow2. reflexivity.
Qed.

Lemma UxptePageNo_div a : UxptePageNo a = a / PAGE_SIZE / UXPTE_PER_PAGE.
Proof.
  pose proof PAGE_SHIFT_range. unfold UxptePageNo.
  rewrite Z.shiftr_div_pow2 by (unfold UXPTE_PER_PAGE_SHIFT, UXPTE_SIZE_SHIFT; lia).
  rewrite VirtPageNo_div, UXPTE_PER_PAGE_pow2. reflexivity.
Qed.

Lemma UxpteOffset_mod a : UxpteOffset a = (a / PAGE_SIZE) mod UXPTE_PER_PAGE.
Proof.
  pose proof PAGE_SHIFT_range. unfold UxpteOffset.
  rewrite VirtPageNo_div, UXPTE_PER_PAGE_pow2.
  replace (2 ^ (PAGE_SHIFT - 3) - 1) with (Z.ones (PAGE_SHIFT - 3))
    by (rewrite Z.ones_equiv; lia).
  apply Z.land_ones. lia.
Qed.

Lemma land_u64_r a b : 0 <= a < 2 ^ 64 -> Z.land a (u64 b) = Z.land a b.
Proof.
  intros Ha. unfold u64.
  rewrite <- (Z.land_ones b 64) by lia.
  rewrite (Z.land_comm b), Z.land_assoc.
  rewrite Z.land_ones by lia. rewrite Z.mod_small by lia. reflexivity.
Qed.

Lemma RoundDown_page a : 0 <= a < 2 ^ 64 -> RoundDown a PAGE_SIZE = PAGE_SIZE * (a / PAGE_SIZE).
Proof.
  intros Ha. pose proof PAGE_SHIFT_range as Hr. pose proof PAGE_SIZE_range as Hp.
  unfold RoundDown.
  destruct (PAGE_SIZE =? 0) eqn:E; [apply Z.eqb_eq in E; lia|].
  rewrite (u64_small (PAGE_SIZE - 1)) by lia.
  rewrite land_u64_r by exact Ha.
  rewrite PAGE_SIZE_pow2.
  replace (2 ^ PAGE_SHIFT - 1) with (Z.ones PAGE_SHIFT) by (rewrite Z.ones_equiv; lia).
  rewrite <- Z.ldiff_land, Z.ldiff_ones_r by lia.
  rewrite Z.shiftl_mul_pow2, Z.shiftr_div_pow2 by lia. lia.
Qed.

Lemma RoundUp_page a :
  0 <= a -> a + PAGE_SIZE < 2 ^ 64 ->
  RoundUp a PAGE_SIZE = PAGE_SIZE * ((a + PAGE_SIZE - 1) / PAGE_SIZE).
Proof.
  intros Ha Hb. pose proof PAGE_SIZE_range as Hp.
  unfold RoundUp. rewrite (u64_small (a + PAGE_SIZE)) by lia.
  destruct (a + PAGE_SIZE <? a) eqn:E1; [apply Z.ltb_lt in E1; lia|].
  destruct (a + PAGE_SIZE <? PAGE_SIZE) eqn:E2; [apply Z.ltb_lt in E2; lia|].
  cbn [orb].
  destruct (PAGE_SIZE =? 0) eqn:E; [apply Z.eqb_eq in E; lia|].
  rewrite (u64_small (a + PAGE_SIZE - 1)) by lia.
  assert (Hq : 0 <= (a + PAGE_SIZE - 1) / PAGE_SIZE * PAGE_SIZE <= a + PAGE_SIZE - 1).
  { assert (Hpos : 0 < PAGE_SIZE) by lia.
    assert (Hnn : 0 <= a + PAGE_SIZE - 1) by lia.
    pose proof (Z.mul_div_le (a + PAGE_SIZE - 1) PAGE_SIZE Hpos).
    pose proof (Z.div_pos (a + PAGE_SIZE - 1) PAGE_SIZE Hnn Hpos). nia. }
  rewrite u64_small by lia. lia.
Qed.

Lemma RoundUp_overflow a :
  0 <= a < 2 ^ 64 -> 2 ^ 64 <= a + PAGE_SIZE -> RoundUp a PAGE_SIZE = a.
Proof.
  intros Ha Hb. pose proof PAGE_SIZE_range as Hp.
  unfold RoundUp.
  assert (Hw : u64 (a + PAGE_SIZE) = a + PAGE_SIZE - 2 ^ 64).
  { unfold u64. symmetry. apply (Z.mod_unique_pos _ _ 1); lia. }
  rewrite Hw.
  destruct (a + PAGE_SIZE - 2 ^ 64 <? a) eqn:E1; [reflexivity|].
  apply Z.ltb_ge in E1. lia.
Qed.

Lemma RoundUp_ge a : 0 <= a < 2 ^ 64 -> a <= RoundUp a PAGE_SIZE.
Proof.
  intros Ha. pose proof PAGE_SIZE_range as Hp.
  destruct (Z_lt_le_dec (a + PAGE_SIZE) (2 ^ 64)) as [Hlt|Hge].
  - rewrite RoundUp_page by lia.
    assert (Hpos : 0 < PAGE_SIZE) by lia.
    assert (Hne : PAGE_SIZE <> 0) by lia.
    pose proof (Z.mod_pos_bound (a + PAGE_SIZE - 1) PAGE_SIZE Hpos).
    pose proof (Z.div_mod (a + PAGE_SIZE - 1) PAGE_SIZE Hne). lia.
  - rewrite RoundUp_overflow by lia. lia.
Qed.

Lemma RoundUp_lt a : 0 <= a < 2 ^ 64 -> RoundUp a PAGE_SIZE < a + PAGE_SIZE.
Proof.
  intros Ha. pose proof PAGE_SIZE_range as Hp.
  destruct (Z_lt_le_dec (a + PAGE_SIZE) (2 ^ 64)) as [Hlt|Hge].
  - rewrite RoundUp_page by lia.
    assert (Hpos : 0 < PAGE_SIZE) by lia.
    pose proof (Z.mul_div_le (a + PAGE_SIZE - 1) PAGE_SIZE Hpos). lia.
  - rewrite RoundUp_overflow by lia. lia.
Qed.

End PageArith.

(** ** Runs of the loop of [UxpteOps] *)

Section TableRuns.
Context `{Platform}.

Lemma update_range_length g i n ptes : length (update_range g i n ptes) = length ptes.
Proof. unfold update_range. apply length_imap. Qed.

Lemma update_range_lookup g i n (ptes : list uxpte_t) k :
  update_range g i n ptes !! k =
  (if (i <=? k)%nat && (k <? i + n)%nat then g else id) <$> ptes !! k.
Proof.
  unfold update_range. rewrite list_lookup_imap.
  destruct (ptes !! k) as [pte|]; [|reflexivity].
  simpl. destruct ((i <=? k)%nat && (k <? i + n)%nat); reflexivity.
Qed.

Lemma update_range_0 g i (ptes : list uxpte_t) : update_range g i 0 ptes = ptes.
Proof.
  apply list_eq. intros k. rewrite update_range_lookup.
  replace ((i <=? k)%nat && (k <? i + 0)%nat) with false.
  - destruct (ptes !! k); reflexivity.
  - symmetry. apply andb_false_iff.
    destruct (Nat.leb_spec i k); [right; apply Nat.ltb_ge; lia | left; reflexivity].
Qed.

Lemma update_range_S g i n (ptes : list uxpte_t) old :
  ptes !! i = Some old ->
  update_range g (S i) n (<[i := g old]> ptes) = update_range g i (S n) ptes.
Proof.
  intros Hold. apply list_eq. intros k. rewrite !update_range_lookup.
  destruct (decide (k = i)) as [->|Hne].
  - rewrite list_lookup_insert_eq by (eapply lookup_lt_Some; eassumption).
    rewrite Hold.
    assert (E1 : (S i <=? i)%nat = false) by (apply Nat.leb_gt; lia).
    assert (E2 : (i <=? i)%nat = true) by (apply Nat.leb_le; lia).
    assert (E3 : (i <? i + S n)%nat = true) by (apply Nat.ltb_lt; lia).
    rewrite E1, E2, E3. reflexivity.
  - rewrite list_lookup_insert_ne by congruence.
    replace ((S i <=? k)%nat && (k <? S i + n)%nat)
      with ((i <=? k)%nat && (k <? i + S n)%nat); [reflexivity|].
    destruct (Nat.leb_spec i k), (Nat.leb_spec (S i) k),
             (Nat.ltb_spec k (i + S n)), (Nat.ltb_spec k (S i + n)); simpl; try reflexivity; lia.
Qed.

Lemma set_uxpte_twice t a b : set_uxpte (set_uxpte t a) b = set_uxpte t b.
Proof. reflexivity. Qed.

Lemma uxpte_update_quiet t (ptes : list uxpte_t) index old loop g :
  uxpte t = Some ptes -> ptes !! Z.to_nat index = Some old ->
  loop old = Some {| run_pte := g old; run_yields := O |} ->
  uxpte_update t index loop = Some (set_uxpte t (<[Z.to_nat index := g old]> ptes)).
Proof.
  intros Ht Hold Hloop. unfold uxpte_update. rewrite Ht. simpl.
  rewrite Hold. simpl. rewrite Hloop. reflexivity.
Qed.

(** One updating pass of the loop at address [off]. *)
Lemma update_at t (ptes : list uxpte_t) off old op :
  op <> UPT_IS_PRESENT ->
  uxpte t = Some ptes ->
  ptes !! Z.to_nat (GetIndexInUxpte (dataAddr t) off) = Some old ->
  match op with
  | UPT_GET => GetUxpteAt (Some t) off
  | UPT_PUT => PutUxpteAt (Some t) off
  | _ => ClearUxpteAt (Some t) off
  end = Some (Some (set_uxpte t
          (<[Z.to_nat (GetIndexInUxpte (dataAddr t) off) := word_op op old]> ptes))).
Proof.
  intros Hop Ht Hold.
  destruct op; try congruence; cbn [GetUxpteAt PutUxpteAt ClearUxpteAt word_op].
  - erewrite uxpte_update_quiet; [reflexivity | eassumption | eassumption |].
    apply UxpteAdd_quiet.
  - erewrite uxpte_update_quiet with (g := fun p => u64 (p - 2));
      [reflexivity | eassumption | eassumption |].
    rewrite UXPTE_REFCNT_ONE_val. apply UxpteSub_quiet.
  - erewrite uxpte_update_quiet with (g := fun _ => 0);
      [reflexivity | eassumption | eassumption |].
    apply UxpteClear_quiet.
Qed.

(** A run over [n] whole pages from [off], whose descriptors are the [n]
    entries from index [i] on: the loop returns, having applied the
    operation to exactly these. *)
Lemma UxpteOps_loop_update op : op <> UPT_IS_PRESENT ->
  forall (n : nat) fuel t (ptes : list uxpte_t) off end_ (i : nat),
  uxpte t = Some ptes ->
  (n < fuel)%nat ->
  0 <= off -> end_ = off + Z.of_nat n * PAGE_SIZE -> end_ < 2 ^ 64 ->
  (forall j, (j < n)%nat ->
     Z.to_nat (GetIndexInUxpte (dataAddr t) (off + Z.of_nat j * PAGE_SIZE)) = (i + j)%nat) ->
  (i + n <= length ptes)%nat ->
  UxpteOps_loop fuel (Some t) off end_ op
  = Some (PM_OK, Some (set_uxpte t (update_range (word_op op) i n ptes))).
Proof.
  intros Hop. pose proof PAGE_SIZE_range as Hp.
  induction n as [|n IH]; intros fuel t ptes off end_ i Ht Hfuel Hoff Hend Hlt Hidx Hlen.
  - destruct fuel as [|fuel]; [lia|]. cbn [UxpteOps_loop].
    replace (off <? end_) with false by (symmetry; apply Z.ltb_ge; lia).
    rewrite update_range_0. destruct t; simpl in *; subst; reflexivity.
  - destruct fuel as [|fuel]; [lia|]. cbn [UxpteOps_loop].
    replace (off <? end_) with true by (symmetry; apply Z.ltb_lt; lia).
    assert (Hi : Z.to_nat (GetIndexInUxpte (dataAddr t) off) = i).
    { specialize (Hidx O ltac:(lia)). rewrite Z.mul_0_l, Z.add_0_r, Nat.add_0_r in Hidx.
      exact Hidx. }
    destruct (lookup_lt_is_Some_2 ptes i ltac:(lia)) as [old Hold].
    pose proof (update_at t ptes off old op Hop Ht) as Hat.
    rewrite Hi in Hat. specialize (Hat Hold).
    assert (Hnext : UxpteOps_loop fuel (Some (set_uxpte t (<[i := word_op op old]> ptes)))
                      (u64 (off + PAGE_SIZE)) end_ op
                    = Some (PM_OK, Some (set_uxpte t (update_range (word_op op) i (S n) ptes)))).
    { rewrite u64_small by lia.
      rewrite (IH fuel _ (<[i := word_op op old]> ptes) (off + PAGE_SIZE) end_ (S i));
        try reflexivity; try lia.
      - rewrite set_uxpte_twice, (update_range_S _ _ _ _ old) by exact Hold. reflexivity.
      - intros j Hj. cbn [set_uxpte dataAddr].
        specialize (Hidx (S j) ltac:(lia)).
        replace (off + PAGE_SIZE + Z.of_nat j * PAGE_SIZE)
          with (off + Z.of_nat (S j) * PAGE_SIZE) by lia.
        rewrite Hidx. lia.
      - rewrite length_insert. lia. }
    destruct op; try congruence; rewrite Hat; cbn [mbind option_bind]; exact Hnext.
Qed.

Lemma UxpteOps_loop_present :
  forall (n : nat) fuel t (ptes : list uxpte_t) off end_ (i : nat),
  uxpte t = Some ptes ->
  (n < fuel)%nat ->
  0 <= off -> end_ = off + Z.of_nat n * PAGE_SIZE -> end_ < 2 ^ 64 ->
  (forall j, (j < n)%nat ->
     Z.to_nat (GetIndexInUxpte (dataAddr t) (off + Z.of_nat j * PAGE_SIZE)) = (i + j)%nat) ->
  (i + n <= length ptes)%nat ->
  UxpteOps_loop fuel (Some t) off end_ UPT_IS_PRESENT
  = Some (if forallb IsUxptePresent (take n (drop i ptes))
          then PM_OK else PM_UXPT_NO_PRESENT, Some t).
Proof.
  pose proof PAGE_SIZE_range as Hp.
  induction n as [|n IH]; intros fuel t ptes off end_ i Ht Hfuel Hoff Hend Hlt Hidx Hlen.
  - destruct fuel as [|fuel]; [lia|]. cbn [UxpteOps_loop].
    replace (off <? end_) with false by (symmetry; apply Z.ltb_ge; lia).
    reflexivity.
  - destruct fuel as [|fuel]; [lia|]. cbn [UxpteOps_loop].
    replace (off <? end_) with true by (symmetry; apply Z.ltb_lt; lia).
    assert (Hi : Z.to_nat (GetIndexInUxpte (dataAddr t) off) = i).
    { specialize (Hidx O ltac:(lia)). rewrite Z.mul_0_l, Z.add_0_r, Nat.add_0_r in Hidx.
      exact Hidx. }
    destruct (lookup_lt_is_Some_2 ptes i ltac:(lia)) as [old Hold].
    unfold IsPresentAt, uxpte_load. cbn [mbind option_bind].
    rewrite Ht. cbn [mbind option_bind]. rewrite Hi, Hold. cbn [mbind option_bind].
    rewrite (drop_S _ _ _ Hold). cbn [take forallb].
    destruct (IsUxptePresent old); cbn [negb andb]; [|reflexivity].
    rewrite u64_small by lia.
    apply (IH fuel t ptes (off + PAGE_SIZE) end_ (S i)); try assumption; try lia.
    intros j Hj. specialize (Hidx (S j) ltac:(lia)).
    replace (off + PAGE_SIZE + Z.of_nat j * PAGE_SIZE)
      with (off + Z.of_nat (S j) * PAGE_SIZE) by lia.
    rewrite Hidx. lia.
Qed.

End TableRuns.

(** ** Indexes of a well-formed table *)

Section IndexArith.
Context `{Platform}.

Lemma GetUxPageSize_ok dA dS :
  0 <= dA -> 0 < dS -> dA + dS <= 2 ^ 64 - PAGE_SIZE ->
  GetUxPageSize dA dS
  = ((dA + dS - 1) / PAGE_SIZE / UXPTE_PER_PAGE - dA / PAGE_SIZE / UXPTE_PER_PAGE + 1) * PAGE_SIZE.
Proof.
  intros HdA HdS Htop. pose proof PAGE_SIZE_range as Hp. pose proof UXPTE_PER_PAGE_pos as Hk.
  assert (Hpos : 0 < PAGE_SIZE) by lia.
  unfold GetUxPageSize. rewrite !UxptePageNo_div.
  rewrite (u64_small (dA + dS)) by lia.
  rewrite (u64_small (dA + dS - 1)) by lia.
  set (V1 := (dA + dS - 1) / PAGE_SIZE). set (V0 := dA / PAGE_SIZE).
  set (q1 := V1 / UXPTE_PER_PAGE). set (q0 := V0 / UXPTE_PER_PAGE).
  assert (HV1 : PAGE_SIZE * V1 <= dA + dS - 1) by (apply Z.mul_div_le; lia).
  assert (HV01 : V0 <= V1) by (apply Z.div_le_mono; lia).
  assert (HV0 : 0 <= V0) by (apply Z.div_pos; lia).
  assert (Hq1 : UXPTE_PER_PAGE * q1 <= V1) by (apply Z.mul_div_le; lia).
  assert (Hq01 : q0 <= q1) by (apply Z.div_le_mono; lia).
  assert (Hq0 : 0 <= q0) by (apply Z.div_pos; lia).
  assert (Hcnt : (q1 - q0 + 1) * PAGE_SIZE <= 2 ^ 64 - 1).
  { assert (Hq1V1 : q1 <= V1) by nia.
    assert (q1 * PAGE_SIZE <= V1 * PAGE_SIZE) by (apply Z.mul_le_mono_nonneg_r; lia).
    assert (0 <= q0 * PAGE_SIZE) by (apply Z.mul_nonneg_nonneg; lia).
    lia. }
  destruct (dA + dS <? dA) eqn:E1; [apply Z.ltb_lt in E1; lia|].
  destruct (dA + dS <? dS) eqn:E2; [apply Z.ltb_lt in E2; lia|].
  destruct (dA + dS <? 1) eqn:E3; [apply Z.ltb_lt in E3; lia|].
  cbn [orb].
  destruct (q1 <? q0) eqn:E4; [apply Z.ltb_lt in E4; lia|].
  assert (Hsmall : q1 - q0 + 1 < 2 ^ 64) by nia.
  rewrite (u64_small (q1 - q0)) by lia.
  rewrite (u64_small (q1 - q0 + 1)) by lia.
  assert (Hle : q1 - q0 + 1 <= SIZE_MAX / PAGE_SIZE).
  { apply Z.div_le_lower_bound; [lia|]. unfold SIZE_MAX. lia. }
  destruct (SIZE_MAX / PAGE_SIZE <? q1 - q0 + 1) eqn:E5; [apply Z.ltb_lt in E5; lia|].
  apply u64_small. nia.
Qed.

Lemma GetIndexInUxpte_page dA off :
  0 <= dA -> dA <= off -> off < 2 ^ 64 ->
  GetIndexInUxpte dA off
  = (dA / PAGE_SIZE) mod UXPTE_PER_PAGE + (off / PAGE_SIZE - dA / PAGE_SIZE).
Proof.
  intros HdA Hle Hlt. pose proof PAGE_SIZE_range as Hp. pose proof UXPTE_PER_PAGE_pos as Hk.
  assert (Hpos : 0 < PAGE_SIZE) by lia.
  unfold GetIndexInUxpte. rewrite UxpteOffset_mod, !VirtPageNo_div.
  assert (H0 : 0 <= dA / PAGE_SIZE) by (apply Z.div_pos; lia).
  assert (H1 : dA / PAGE_SIZE <= off / PAGE_SIZE) by (apply Z.div_le_mono; lia).
  assert (H2 : off / PAGE_SIZE < 2 ^ 64).
  { apply Z.div_lt_upper_bound; [lia|]. nia. }
  pose proof (Z.mod_pos_bound (dA / PAGE_SIZE) UXPTE_PER_PAGE Hk) as Hm.
  assert (H3 : (dA / PAGE_SIZE) mod UXPTE_PER_PAGE <= dA / PAGE_SIZE).
  { apply Z.mod_le; lia. }
  rewrite (u64_small (off / PAGE_SIZE - dA / PAGE_SIZE)) by lia.
  apply u64_small. lia.
Qed.

Lemma RoundUp_aligned_below a :
  0 <= a < 2 ^ 64 -> RoundUp a PAGE_SIZE <= 2 ^ 64 - PAGE_SIZE ->
  exists e, RoundUp a PAGE_SIZE = PAGE_SIZE * e.
Proof.
  intros Ha Hb. pose proof PAGE_SIZE_range as Hp. pose proof PAGE_SHIFT_range as Hs.
  destruct (Z_lt_le_dec (a + PAGE_SIZE) (2 ^ 64)) as [Hlt|Hge].
  - eexists. apply RoundUp_page; lia.
  - rewrite RoundUp_overflow in * by lia.
    assert (a = 2 ^ 64 - PAGE_SIZE) as -> by lia.
    exists (2 ^ (64 - PAGE_SHIFT) - 1).
    rewrite PAGE_SIZE_pow2, Z.mul_sub_distr_l, <- Z.pow_add_r by lia.
    replace (PAGE_SHIFT + (64 - PAGE_SHIFT)) with 64 by lia. lia.
Qed.

(** The passes of the loop on a well-formed table, once the range test of
    [UxpteOps] has passed: [page_count] of them, over consecutive
    descriptors that the table holds, the first at [first_index]. *)
Lemma range_in_table t (ptes : list uxpte_t) addr len :
  table_ok t -> uxpte t = Some ptes ->
  0 <= addr < 2 ^ 64 ->
  let start := RoundDown addr PAGE_SIZE in
  let end_ := RoundUp (u64 (addr + len)) PAGE_SIZE in
  dataAddr t <= start -> end_ <= dataAddr t + dataSize t -> start <= end_ ->
  end_ = start + Z.of_nat (page_count addr len) * PAGE_SIZE /\
  (forall j, (j < page_count addr len)%nat ->
     Z.to_nat (GetIndexInUxpte (dataAddr t) (start + Z.of_nat j * PAGE_SIZE))
     = (first_index t addr + j)%nat) /\
  (first_index t addr + page_count addr len <= length ptes)%nat.
Proof.
  intros (HdA & HdS & Htop & ptes' & Hptes & Hlen) Ht Haddr start end_ Hlo Hhi Hse.
  rewrite Ht in Hptes. injection Hptes as <-.
  pose proof PAGE_SIZE_range as Hp. pose proof UXPTE_PER_PAGE_pos as Hk.
  assert (Hpos : 0 < PAGE_SIZE) by lia.
  assert (Hstart : start = PAGE_SIZE * (addr / PAGE_SIZE)) by (apply RoundDown_page; exact Haddr).
  destruct (RoundUp_aligned_below (u64 (addr + len)) (u64_range _) ltac:(fold end_; lia))
    as [e He].
  fold end_ in He.
  remember (addr / PAGE_SIZE) as s eqn:Hsdef.
  assert (Hpc : Z.of_nat (page_count addr len) = e - s).
  { unfold page_count. fold start end_. rewrite Hstart, He.
    replace (PAGE_SIZE * e - PAGE_SIZE * s) with ((e - s) * PAGE_SIZE) by lia.
    rewrite Z.div_mul by lia. rewrite Z2Nat.id; [reflexivity|]. nia. }
  assert (Hdiv : forall j, 0 <= j -> (start + j * PAGE_SIZE) / PAGE_SIZE = s + j).
  { intros j Hj. rewrite Hstart.
    replace (PAGE_SIZE * s + j * PAGE_SIZE) with ((s + j) * PAGE_SIZE) by lia.
    apply Z.div_mul. lia. }
  remember (dataAddr t / PAGE_SIZE) as V0 eqn:HV0def.
  assert (HV0 : 0 <= V0) by (rewrite HV0def; apply Z.div_pos; lia).
  assert (Hs0 : start / PAGE_SIZE = s).
  { pose proof (Hdiv 0 ltac:(lia)) as Hd. rewrite Z.mul_0_l, !Z.add_0_r in Hd. exact Hd. }
  assert (HV0s : V0 <= s).
  { rewrite HV0def, <- Hs0. apply Z.div_le_mono; lia. }
  pose proof (Z.mod_pos_bound V0 UXPTE_PER_PAGE Hk) as Hm.
  assert (Hfirst : Z.of_nat (first_index t addr) = V0 mod UXPTE_PER_PAGE + (s - V0)).
  { unfold first_index. fold start. rewrite GetIndexInUxpte_page by lia.
    rewrite <- HV0def, Hs0. rewrite Z2Nat.id; lia. }
  split; [|split].
  - rewrite Hpc, He, Hstart. lia.
  - intros j Hj.
    assert (Hj' : Z.of_nat j < e - s) by lia.
    assert (Hjp : 0 <= Z.of_nat j * PAGE_SIZE) by (apply Z.mul_nonneg_nonneg; lia).
    assert (Hjlt : start + Z.of_nat j * PAGE_SIZE < end_).
    { rewrite Hstart, He.
      replace (PAGE_SIZE * s + Z.of_nat j * PAGE_SIZE) with (PAGE_SIZE * (s + Z.of_nat j)) by lia.
      apply Z.mul_lt_mono_pos_l; lia. }
    rewrite GetIndexInUxpte_page by lia.
    rewrite <- HV0def, Hdiv by lia.
    apply Nat2Z.inj. rewrite Nat2Z.inj_add, Hfirst.
    rewrite Z2Nat.id; lia.
  - apply Nat2Z.inj_le. rewrite Nat2Z.inj_add, Hfirst, Hpc, Hlen.
    rewrite GetUxPageSize_ok by lia.
    rewrite Z.shiftr_div_pow2 by (unfold UXPTE_SIZE_SHIFT; lia).
    unfold UXPTE_SIZE_SHIFT. change (2 ^ 3) with 8.
    rewrite PAGE_SIZE_per_page at 3.
    rewrite Z.mul_assoc, (Z.mul_comm _ 8), <- Z.mul_assoc, Z.mul_comm, Z.div_mul by lia.
    rewrite <- HV0def.
    remember ((dataAddr t + dataSize t - 1) / PAGE_SIZE) as V1 eqn:HV1def.
    assert (He1 : e <= V1 + 1).
    { destruct (Z_le_gt_dec e 0) as [|Hepos].
      - assert (0 <= V1) by (rewrite HV1def; apply Z.div_pos; lia). lia.
      - assert (e - 1 <= V1); [|lia].
        rewrite HV1def. apply Z.div_le_lower_bound; [lia|]. nia. }
    assert (Hkne : UXPTE_PER_PAGE <> 0) by lia.
    pose proof (Z.div_mod V0 UXPTE_PER_PAGE Hkne) as Hd0.
    pose proof (Z.div_mod V1 UXPTE_PER_PAGE Hkne) as Hd1.
    pose proof (Z.mod_pos_bound V1 UXPTE_PER_PAGE Hk) as Hm1.
    clear - Hd0 Hd1 Hm1 Hm He1. nia.
Qed.

End IndexArith.

(** ** [UxpteOps] on a well-formed table *)

Section TableOps.
Context `{Platform}.

Lemma UxpteOps_out_of_range t addr len op :
  RoundDown addr PAGE_SIZE < dataAddr t \/
  u64 (dataAddr t + dataSize t) < RoundUp (u64 (addr + len)) PAGE_SIZE ->
  UxpteOps (Some t) addr len op = Some (PM_UXPT_OUT_RANGE, Some t).
Proof.
  intros Hout. unfold UxpteOps.
  destruct (RoundDown addr PAGE_SIZE <? dataAddr t) eqn:E1; [reflexivity|].
  destruct (u64 (dataAddr t + dataSize t) <? RoundUp (u64 (addr + len)) PAGE_SIZE) eqn:E2;
    [reflexivity|].
  apply Z.ltb_ge in E1, E2. lia.
Qed.

Lemma RoundDown_nonneg addr : 0 <= addr < 2 ^ 64 -> 0 <= RoundDown addr PAGE_SIZE.
Proof.
  intros Ha. pose proof PAGE_SIZE_range. rewrite RoundDown_page by exact Ha.
  assert (0 <= addr / PAGE_SIZE) by (apply Z.div_pos; lia). nia.
Qed.

Lemma page_count_empty addr len :
  RoundUp (u64 (addr + len)) PAGE_SIZE <= RoundDown addr PAGE_SIZE -> page_count addr len = O.
Proof.
  intros Hle. pose proof PAGE_SIZE_range. unfold page_count.
  assert (Hq : (RoundUp (u64 (addr + len)) PAGE_SIZE - RoundDown addr PAGE_SIZE) / PAGE_SIZE <= 0).
  { apply Z.div_le_upper_bound; lia. }
  lia.
Qed.

Lemma range_test_passes t addr len :
  table_ok t ->
  dataAddr t <= RoundDown addr PAGE_SIZE ->
  RoundUp (u64 (addr + len)) PAGE_SIZE <= dataAddr t + dataSize t ->
  (RoundDown addr PAGE_SIZE <? dataAddr t)
  || (u64 (dataAddr t + dataSize t) <? RoundUp (u64 (addr + len)) PAGE_SIZE) = false.
Proof.
  intros (HdA & HdS & Htop & _) Hlo Hhi. pose proof PAGE_SIZE_range.
  rewrite (u64_small (dataAddr t + dataSize t)) by lia.
  apply orb_false_iff. split; apply Z.ltb_ge; lia.
Qed.

Lemma UxpteOps_update t (ptes : list uxpte_t) addr len op :
  op <> UPT_IS_PRESENT ->
  table_ok t -> uxpte t = Some ptes -> 0 <= addr < 2 ^ 64 ->
  dataAddr t <= RoundDown addr PAGE_SIZE ->
  RoundUp (u64 (addr + len)) PAGE_SIZE <= dataAddr t + dataSize t ->
  UxpteOps (Some t) addr len op
  = Some (PM_OK, Some (set_uxpte t
      (update_range (word_op op) (first_index t addr) (page_count addr len) ptes))).
Proof.
  intros Hop Hok Ht Haddr Hlo Hhi. pose proof PAGE_SIZE_range as Hp.
  pose proof (RoundDown_nonneg addr Haddr) as Hs0.
  unfold UxpteOps. rewrite range_test_passes by assumption.
  destruct (Z_le_gt_dec (RoundDown addr PAGE_SIZE) (RoundUp (u64 (addr + len)) PAGE_SIZE))
    as [Hse|Hes].
  - destruct (range_in_table t ptes addr len Hok Ht Haddr Hlo Hhi Hse) as (Hend & Hidx & Hlen).
    destruct Hok as (HdA & HdS & Htop & _).
    apply (UxpteOps_loop_update op Hop (page_count addr len)); try assumption; try lia.
    unfold UxpteOps_fuel, page_count. lia.
  - rewrite page_count_empty by lia. rewrite update_range_0.
    unfold UxpteOps_fuel. rewrite Nat.add_comm. cbn [Nat.add UxpteOps_loop].
    replace (RoundDown addr PAGE_SIZE <? RoundUp (u64 (addr + len)) PAGE_SIZE) with false
      by (symmetry; apply Z.ltb_ge; lia).
    destruct t; simpl in *; subst; reflexivity.
Qed.

Lemma UxpteOps_present t (ptes : list uxpte_t) addr len :
  table_ok t -> uxpte t = Some ptes -> 0 <= addr < 2 ^ 64 ->
  dataAddr t <= RoundDown addr PAGE_SIZE ->
  RoundUp (u64 (addr + len)) PAGE_SIZE <= dataAddr t + dataSize t ->
  UxpteOps (Some t) addr len UPT_IS_PRESENT
  = Some (if forallb IsUxptePresent (take (page_count addr len) (drop (first_index t addr) ptes))
          then PM_OK else PM_UXPT_NO_PRESENT, Some t).
Proof.
  intros Hok Ht Haddr Hlo Hhi. pose proof PAGE_SIZE_range as Hp.
  pose proof (RoundDown_nonneg addr Haddr) as Hs0.
  unfold UxpteOps. rewrite range_test_passes by assumption.
  destruct (Z_le_gt_dec (RoundDown addr PAGE_SIZE) (RoundUp (u64 (addr + len)) PAGE_SIZE))
    as [Hse|Hes].
  - destruct (range_in_table t ptes addr len Hok Ht Haddr Hlo Hhi Hse) as (Hend & Hidx & Hlen).
    destruct Hok as (HdA & HdS & Htop & _).
    apply (UxpteOps_loop_present (page_count addr len)); try assumption; try lia.
    unfold UxpteOps_fuel, page_count. lia.
  - rewrite page_count_empty by lia. cbn [take forallb].
    unfold UxpteOps_fuel. rewrite Nat.add_comm. cbn [Nat.add UxpteOps_loop].
    replace (RoundDown addr PAGE_SIZE <? RoundUp (u64 (addr + len)) PAGE_SIZE) with false
      by (symmetry; apply Z.ltb_ge; lia).
    reflexivity.
Qed.

Lemma GetIndexInUxpte_same_page dA a :
  GetIndexInUxpte dA (PAGE_SIZE * (a / PAGE_SIZE)) = GetIndexInUxpte dA a.
Proof.
  pose proof PAGE_SIZE_range. unfold GetIndexInUxpte. rewrite !VirtPageNo_div.
  rewrite Z.mul_comm, Z.div_mul by lia. reflexivity.
Qed.

(** The covered descriptors are the [page_count] entries from
    [first_index] on. *)
Lemma covered_interval t (ptes : list uxpte_t) addr len k :
  table_ok t -> uxpte t = Some ptes -> 0 <= addr < 2 ^ 64 ->
  dataAddr t <= RoundDown addr PAGE_SIZE ->
  RoundUp (u64 (addr + len)) PAGE_SIZE <= dataAddr t + dataSize t ->
  covered t addr len k <->
  (first_index t addr <= k < first_index t addr + page_count addr len)%nat.
Proof.
  intros Hok Ht Haddr Hlo Hhi. pose proof PAGE_SIZE_range as Hp.
  assert (Hpos : 0 < PAGE_SIZE) by lia.
  pose proof (RoundDown_page addr Haddr) as Hstart.
  split.
  - intros (a & Ha & ->).
    destruct (range_in_table t ptes addr len Hok Ht Haddr Hlo Hhi ltac:(lia))
      as (Hend & Hidx & Hlen).
    remember (addr / PAGE_SIZE) as s eqn:Hs.
    remember (a / PAGE_SIZE) as q eqn:Hq.
    assert (Hsq : s <= q).
    { rewrite Hq. apply Z.div_le_lower_bound; lia. }
    assert (Hqn : q < s + Z.of_nat (page_count addr len)).
    { rewrite Hq. apply Z.div_lt_upper_bound; [lia|]. rewrite Hend, Hstart in Ha. lia. }
    rewrite <- GetIndexInUxpte_same_page, <- Hq.
    specialize (Hidx (Z.to_nat (q - s)) ltac:(lia)).
    replace (RoundDown addr PAGE_SIZE + Z.of_nat (Z.to_nat (q - s)) * PAGE_SIZE)
      with (PAGE_SIZE * q) in Hidx by (rewrite Hstart, Z2Nat.id by lia; ring).
    rewrite Hidx. lia.
  - intros Hk.
    destruct (Z_le_gt_dec (RoundDown addr PAGE_SIZE) (RoundUp (u64 (addr + len)) PAGE_SIZE))
      as [Hse|Hes].
    + destruct (range_in_table t ptes addr len Hok Ht Haddr Hlo Hhi Hse)
        as (Hend & Hidx & Hlen).
      exists (RoundDown addr PAGE_SIZE + Z.of_nat (k - first_index t addr) * PAGE_SIZE).
      split.
      * rewrite Hend. nia.
      * rewrite Hidx by lia. lia.
    + rewrite page_count_empty in Hk by lia. lia.
Qed.

End TableOps.

(** ** The claims about the descriptor words *)

(** C1.  The claim: while a covered descriptor holds the under-reclaim value,
    get yields and retries, and returns from that page only once the kernel
    has written a fresh value.  The code: whatever the kernel does later, a
    run of [UxpteAdd] that loads the under-reclaim value leaves the loop at
    once by the wrap-around test, without a [sched_yield] and without a pin,
    and no run with the refcount unit ever yields. *)
Theorem UxpteAdd_under_reclaim_returns_at_once :
  forall fuel kernel yields,
    UxpteAdd (S fuel) kernel UXPTE_UNDER_RECLAIM UXPTE_REFCNT_ONE yields
    = Some {| run_pte := UXPTE_UNDER_RECLAIM; run_yields := yields |}
    /\ forall pte, match UxpteAdd_body pte UXPTE_REFCNT_ONE with
                   | AddCAS yield _ _ => yield = false
                   | _ => True
                   end.
Proof.
  intros fuel kernel yields. split.
  - reflexivity.
  - apply UxpteAdd_body_no_yield.
Qed.

(** The same on a table: get over the two pages of [table_2p], their
    descriptors under reclaim, returns with the table as it was. *)
Example UxpteGet_under_reclaim_table :
  @UxpteGet (page4k true) (Some (table_2p UXPTE_UNDER_RECLAIM)) 65536 8192
  = Some (Some (table_2p UXPTE_UNDER_RECLAIM)).
Proof. vm_compute. reflexivity. Qed.

(** C9 as stated says a put can flip the present bit.  No quiet run of
    [UxpteSub] with the refcount unit does. *)
Lemma UxpteSub_flips_no_present_bit :
  ~ exists pte run,
      UxpteSub 1 [] pte UXPTE_REFCNT_ONE O = Some run /\
      IsUxptePresent (run_pte run) <> IsUxptePresent pte.
Proof.
  intros (pte & run & Hrun & Hflip).
  rewrite UxpteSub_quiet in Hrun. injection Hrun as <-.
  apply Hflip. cbn [run_pte]. rewrite !IsUxptePresent_odd, UXPTE_REFCNT_ONE_val.
  apply odd_u64_sub2.
Qed.

(** C9, amended.  Put subtracts the refcount unit modulo 2^64 from whatever
    the descriptor holds, with no guard (0 becomes the under-reclaim value);
    the present bit of the value it replaces is kept; against any schedule of
    kernel stores the loop returns, and it never yields. *)
Theorem UxpteSub_wraps_keeps_present :
  forall kernel pte,
    UxpteSub 1 [] pte UXPTE_REFCNT_ONE O
      = Some {| run_pte := u64 (pte - UXPTE_REFCNT_ONE); run_yields := O |}
    /\ UxpteSub 1 [] 0 UXPTE_REFCNT_ONE O
      = Some {| run_pte := UXPTE_UNDER_RECLAIM; run_yields := O |}
    /\ IsUxptePresent (u64 (pte - UXPTE_REFCNT_ONE)) = IsUxptePresent pte
    /\ exists v, UxpteSub (S (length kernel)) kernel pte UXPTE_REFCNT_ONE O
                 = Some {| run_pte := u64 (v - UXPTE_REFCNT_ONE); run_yields := O |}.
Proof.
  intros kernel pte. repeat split.
  - apply UxpteSub_quiet.
  - rewrite !IsUxptePresent_odd, UXPTE_REFCNT_ONE_val. apply odd_u64_sub2.
  - apply UxpteSub_returns.
Qed.

(** On a table: a put that no get preceded takes the zero descriptors of the
    two pages of [table_2p] to the under-reclaim value. *)
Example UxptePut_unmatched_table :
  @UxptePut (page4k true) (Some (table_2p 0)) 65536 8192
  = Some (Some {| dataAddr := 65536; dataSize := 8192;
                  uxpte := Some (replicate 16 0 ++ [UXPTE_UNDER_RECLAIM; UXPTE_UNDER_RECLAIM]
                                 ++ replicate 494 0) |}).
Proof. vm_compute. reflexivity. Qed.

(** ** The range test of [UxpteOps] *)

(** C7.  The claim: an operation whose range is not contained in the table
    returns PM_UXPT_OUT_RANGE.  The code computes the end of the range as
    [addr + len] in 64 bits and tests the rounded result: when the sum wraps,
    the end it tests lies below the start, the test passes and the loop has
    nothing to go through.  On the two pages at 0x10000, whatever their
    descriptors hold, every operation on the 2 bytes at 2^64 - 1 and on the
    2^64 - 4096 bytes at 0x11000 returns PM_OK with the table untouched,
    and is-present answers true, although the table ends at 0x12000. *)
Theorem UxpteOps_wrapped_end :
  forall pte op,
    let t := table_2p pte in
    dataAddr t + dataSize t = 73728 /\
    @UxpteOps (page4k true) (Some t) (2 ^ 64 - 1) 2 op = Some (PM_OK, Some t) /\
    @UxpteOps (page4k true) (Some t) 69632 (2 ^ 64 - 4096) op = Some (PM_OK, Some t) /\
    @UxpteIsPresent (page4k true) (Some t) (2 ^ 64 - 1) 2 = Some true /\
    @UxpteIsPresent (page4k true) (Some t) 69632 (2 ^ 64 - 4096) = Some true.
Proof.
  intros pte op t. split; [reflexivity|].
  split; [destruct op; reflexivity|].
  split; [destruct op; reflexivity|].
  split; reflexivity.
Qed.

(** X28.  The range test of [UxpteOps] on a (well-formed) table, made as the
    code makes it, on the rounded end of [addr + len] taken modulo 2^64:
    every operation whose range so computed is not within
    [dataAddr, dataAddr + dataSize] returns PM_UXPT_OUT_RANGE with the table
    untouched; otherwise it goes through the descriptors of the range, all
    of them in the table: get, put and clear rewrite each covered descriptor
    and no other, and is-present answers PM_OK exactly when each covered
    descriptor has the present bit. *)
Theorem UxpteOps_range `{Platform} :
  forall t addr len op,
    table_ok t -> 0 <= addr < 2 ^ 64 ->
    let start := RoundDown addr PAGE_SIZE in
    let end_ := RoundUp (u64 (addr + len)) PAGE_SIZE in
    (~ (dataAddr t <= start /\ end_ <= dataAddr t + dataSize t) ->
       UxpteOps (Some t) addr len op = Some (PM_UXPT_OUT_RANGE, Some t)) /\
    (dataAddr t <= start /\ end_ <= dataAddr t + dataSize t ->
       exists ptes st ptes',
         uxpte t = Some ptes /\
         UxpteOps (Some t) addr len op = Some (st, Some (set_uxpte t ptes')) /\
         length ptes' = length ptes /\
         (forall k, covered t addr len k -> (k < length ptes)%nat) /\
         (forall k, ~ covered t addr len k -> ptes' !! k = ptes !! k) /\
         match op with
         | UPT_IS_PRESENT =>
             ptes' = ptes /\
             (st = PM_OK \/ st = PM_UXPT_NO_PRESENT) /\
             (st = PM_OK <->
              forall k pte, covered t addr len k -> ptes !! k = Some pte ->
                            IsUxptePresent pte = true)
         | _ =>
             st = PM_OK /\
             forall k, covered t addr len k -> ptes' !! k = word_op op <$> ptes !! k
         end).
Proof.
  intros t addr len op Hok Haddr start end_.
  assert (Hsum : u64 (dataAddr t + dataSize t) = dataAddr t + dataSize t).
  { destruct Hok as (HdA & HdS & Htop & _). pose proof PAGE_SIZE_range.
    apply u64_small. lia. }
  split.
  - intros Hout. apply UxpteOps_out_of_range. fold start end_. rewrite Hsum. lia.
  - intros [Hlo Hhi].
    pose proof Hok as (_ & _ & _ & ptes & Ht & _).
    assert (Hcov : forall k, covered t addr len k <->
              (first_index t addr <= k < first_index t addr + page_count addr len)%nat)
      by (intros k; apply (covered_interval t ptes); assumption).
    assert (Hbound : page_count addr len = O \/
                     (first_index t addr + page_count addr len <= length ptes)%nat).
    { destruct (Z_le_gt_dec start end_) as [Hse|Hes].
      - right. apply (range_in_table t ptes addr len); assumption.
      - left. apply page_count_empty. fold start end_. lia. }
    assert (op = UPT_IS_PRESENT \/ op <> UPT_IS_PRESENT) as [->|Hop]
      by (destruct op; (left; reflexivity) || (right; discriminate)).
    + exists ptes.
      exists (if forallb IsUxptePresent
                   (take (page_count addr len) (drop (first_index t addr) ptes))
              then PM_OK else PM_UXPT_NO_PRESENT).
      exists ptes.
      split; [exact Ht|]. split.
      { rewrite (UxpteOps_present t ptes) by assumption.
        destruct t; simpl in *; subst; reflexivity. }
      split; [reflexivity|]. split.
      { intros k Hk. apply Hcov in Hk. lia. }
      split; [reflexivity|]. split; [reflexivity|]. split.
      { destruct (forallb _ _); [left|right]; reflexivity. }
      destruct (forallb IsUxptePresent
                  (take (page_count addr len) (drop (first_index t addr) ptes))) eqn:Hall.
      * split; [|reflexivity]. intros _ k pte Hk Hpte.
        apply Hcov in Hk.
        rewrite forallb_forall in Hall. apply Hall.
        apply list_elem_of_In, list_elem_of_lookup.
        exists (k - first_index t addr)%nat.
        rewrite lookup_take_lt by lia. rewrite lookup_drop.
        replace (first_index t addr + (k - first_index t addr))%nat with k by lia.
        exact Hpte.
      * split; [discriminate|]. intros Hall'. exfalso.
        assert (Htrue : forallb IsUxptePresent
                  (take (page_count addr len) (drop (first_index t addr) ptes)) = true);
          [|congruence].
        apply forallb_forall. intros pte Hin.
        apply list_elem_of_In, list_elem_of_lookup in Hin. destruct Hin as [j Hj].
        pose proof (lookup_lt_Some _ _ _ Hj) as Hjlt.
        rewrite length_take in Hjlt.
        rewrite lookup_take_lt in Hj by lia. rewrite lookup_drop in Hj.
        apply (Hall' (first_index t addr + j)%nat); [|exact Hj].
        apply Hcov. lia.
    + exists ptes, PM_OK,
        (update_range (word_op op) (first_index t addr) (page_count addr len) ptes).
      split; [exact Ht|]. split.
      { apply UxpteOps_update; assumption. }
      split; [apply update_range_length|]. split.
      { intros k Hk. apply Hcov in Hk. lia. }
      split.
      { intros k Hk. rewrite update_range_lookup.
        destruct (Nat.leb_spec (first_index t addr) k) as [Hle|Hgt];
          destruct (Nat.ltb_spec k (first_index t addr + page_count addr len)) as [Hlt|Hge];
          cbn [andb]; try (destruct (ptes !! k); reflexivity).
        exfalso. apply Hk. apply Hcov. lia. }
      assert (Hrw : forall k, covered t addr len k ->
                update_range (word_op op) (first_index t addr) (page_count addr len) ptes !! k
                = word_op op <$> ptes !! k).
      { intros k Hk. apply Hcov in Hk. rewrite update_range_lookup.
        replace ((first_index t addr <=? k)%nat) with true
          by (symmetry; apply Nat.leb_le; lia).
        replace ((k <? first_index t addr + page_count addr len)%nat) with true
          by (symmetry; apply Nat.ltb_lt; lia).
        reflexivity. }
      destruct op; try congruence; (split; [reflexivity | exact Hrw]).
Qed.

Lemma UxpteOps_range_witness :
  @table_ok (page4k true) (table_2p 0) /\ 0 <= 65546 < 2 ^ 64 /\
  exists ptes st ptes',
    uxpte (table_2p 0) = Some ptes /\
    @UxpteOps (page4k true) (Some (table_2p 0)) 65546 5000 UPT_GET
      = Some (st, Some (set_uxpte (table_2p 0) ptes')) /\
    st = PM_OK /\
    forall k, @covered (page4k true) (table_2p 0) 65546 5000 k ->
              ptes' !! k = word_op UPT_GET <$> ptes !! k.
Proof.
  assert (Hok : @table_ok (page4k true) (table_2p 0)).
  { unfold table_ok. split; [vm_compute; discriminate|].
    split; [reflexivity|]. split; [vm_compute; discriminate|].
    exists (replicate 512 0). split; reflexivity. }
  assert (Haddr : 0 <= 65546 < 2 ^ 64) by (split; [discriminate | reflexivity]).
  split; [exact Hok|]. split; [exact Haddr|].
  destruct (@UxpteOps_range (page4k true) (table_2p 0) 65546 5000 UPT_GET Hok Haddr)
    as [_ Hin].
  destruct Hin as (ptes & st & ptes' & Ht & Hrun & _ & _ & _ & Hst & Hcov).
  { split; vm_compute; discriminate. }
  exists ptes, st, ptes'. repeat split; assumption.
Defined.

(** ** Regions: ranges and presence *)

Section RegionRange.
Context `{Platform}.

Lemma RoundUp_aligned_add a n :
  0 <= a -> a mod PAGE_SIZE = 0 -> 0 <= n -> a + n + PAGE_SIZE < 2 ^ 64 ->
  RoundUp (a + n) PAGE_SIZE = a + RoundUp n PAGE_SIZE.
Proof.
  intros Ha Hal Hn Hlt. pose proof PAGE_SIZE_range as Hp.
  assert (Hne : PAGE_SIZE <> 0) by lia.
  rewrite !RoundUp_page by lia.
  pose proof (Z.div_mod a PAGE_SIZE Hne) as Hd. rewrite Hal, Z.add_0_r in Hd.
  remember (a / PAGE_SIZE) as q eqn:Hq.
  replace (a + n + PAGE_SIZE - 1) with (q * PAGE_SIZE + (n + PAGE_SIZE - 1)) by lia.
  rewrite Z.div_add_l by lia. lia.
Qed.

Lemma RoundDown_aligned a :
  0 <= a < 2 ^ 64 -> a mod PAGE_SIZE = 0 -> RoundDown a PAGE_SIZE = a.
Proof.
  intros Ha Hal. pose proof PAGE_SIZE_range as Hp.
  assert (Hne : PAGE_SIZE <> 0) by lia.
  rewrite RoundDown_page by exact Ha.
  pose proof (Z.div_mod a PAGE_SIZE Hne) as Hd. lia.
Qed.

(** The range a session pins is the whole table of the region. *)
Lemma region_range o t :
  region_ok o -> g_supportUxpt = true -> uxPageTable o = Some t ->
  table_ok t /\ 0 <= dataPtr o < 2 ^ 64 /\
  RoundDown (dataPtr o) PAGE_SIZE = dataAddr t /\
  RoundUp (u64 (dataPtr o + dataSizeInput o)) PAGE_SIZE = dataAddr t + dataSize t.
Proof.
  intros (Hsz & Hptr & Hal & Htop & Hlen & Hcnt & Htab) Hsupp Ht.
  destruct (Htab Hsupp) as (t' & Ht' & Hok & HdA & HdS).
  rewrite Ht in Ht'. injection Ht' as <-.
  pose proof PAGE_SIZE_range as Hp.
  pose proof (RoundUp_ge (dataSizeInput o) ltac:(lia)) as Hge.
  split; [exact Hok|]. split; [lia|]. split.
  - rewrite RoundDown_aligned by lia. congruence.
  - rewrite u64_small by lia.
    rewrite RoundUp_aligned_add by lia. congruence.
Qed.

Lemma forallb_present_range (ptes : list uxpte_t) i n :
  forallb IsUxptePresent (take n (drop i ptes)) = true <->
  forall k pte, (i <= k < i + n)%nat -> ptes !! k = Some pte -> IsUxptePresent pte = true.
Proof.
  rewrite forallb_forall. split.
  - intros Hall k pte Hk Hpte. apply Hall.
    apply list_elem_of_In, list_elem_of_lookup. exists (k - i)%nat.
    rewrite lookup_take_lt by lia. rewrite lookup_drop.
    replace (i + (k - i))%nat with k by lia. exact Hpte.
  - intros Hall pte Hin.
    apply list_elem_of_In, list_elem_of_lookup in Hin. destruct Hin as [j Hj].
    pose proof (lookup_lt_Some _ _ _ Hj) as Hjlt. rewrite length_take in Hjlt.
    rewrite lookup_take_lt in Hj by lia. rewrite lookup_drop in Hj.
    apply (Hall (i + j)%nat); [lia | exact Hj].
Qed.

Lemma forallb_false_lookup (f : uxpte_t -> bool) (l : list uxpte_t) :
  forallb f l = false -> exists j x, l !! j = Some x /\ f x = false.
Proof.
  induction l as [|x l IH]; cbn [forallb]; [discriminate|].
  destruct (f x) eqn:Hfx; cbn [andb].
  - intros Hl. destruct (IH Hl) as (j & y & Hj & Hy). exists (S j), y. split; assumption.
  - intros _. exists O, x. split; [reflexivity | exact Hfx].
Qed.

Lemma absent_in_range (ptes : list uxpte_t) i n :
  forallb IsUxptePresent (take n (drop i ptes)) = false ->
  exists k pte, (i <= k < i + n)%nat /\ ptes !! k = Some pte /\ IsUxptePresent pte = false.
Proof.
  intros Hnot. destruct (forallb_false_lookup _ _ Hnot) as (j & pte & Hj & Hp).
  pose proof (lookup_lt_Some _ _ _ Hj) as Hjlt. rewrite length_take in Hjlt.
  rewrite lookup_take_lt in Hj by lia. rewrite lookup_drop in Hj.
  exists (i + j)%nat, pte. repeat split; try assumption; lia.
Qed.

(** What [UxpteIsPresent] answers on a live region. *)
Lemma UxpteIsPresent_region o t (ptes : list uxpte_t) :
  region_ok o -> g_supportUxpt = true -> uxPageTable o = Some t -> uxpte t = Some ptes ->
  UxpteIsPresent (uxPageTable o) (dataPtr o) (dataSizeInput o)
  = Some (forallb IsUxptePresent
            (take (page_count (dataPtr o) (dataSizeInput o))
                  (drop (first_index t (dataPtr o)) ptes))).
Proof.
  intros Hok Hsupp Ht Hptes.
  destruct (region_range o t Hok Hsupp Ht) as (Htok & Haddr & Hstart & Hend).
  unfold UxpteIsPresent. rewrite Hsupp, Ht. cbn [negb].
  rewrite (UxpteOps_present t ptes) by (try assumption; lia).
  cbn [mbind option_bind fst].
  destruct (forallb _ _); reflexivity.
Qed.

Lemma UxpteIsPresent_off upt addr len :
  g_supportUxpt = false -> UxpteIsPresent upt addr len = Some true.
Proof. intros Hoff. unfold UxpteIsPresent. rewrite Hoff. reflexivity. Qed.

End RegionRange.

(** C4.  [IsPurged] answers true whenever the build count is zero, whatever
    the table holds; with a positive count it is the negation of what
    [UxpteIsPresent] answers, and on a live region that is: true exactly
    when some covered descriptor lacks the present bit (never, when the
    capability is off and there are no descriptors to consult). *)
Theorem IsPurged_spec `{Platform} :
  forall o,
    (buildDataCount o = 0 -> IsPurged o = Some true) /\
    (buildDataCount o <> 0 ->
       IsPurged o = negb <$> UxpteIsPresent (uxPageTable o) (dataPtr o) (dataSizeInput o)) /\
    (buildDataCount o <> 0 -> region_ok o ->
       exists purged, IsPurged o = Some purged /\
         if g_supportUxpt
         then purged = true <->
              exists t ptes k pte,
                uxPageTable o = Some t /\ uxpte t = Some ptes /\
                covered t (dataPtr o) (dataSizeInput o) k /\
                ptes !! k = Some pte /\ IsUxptePresent pte = false
         else purged = false).
Proof.
  intros o. split; [|split].
  - intros Hzero. unfold IsPurged. rewrite Hzero. reflexivity.
  - intros Hpos. unfold IsPurged.
    destruct (buildDataCount o =? 0) eqn:E; [apply Z.eqb_eq in E; contradiction|].
    destruct (UxpteIsPresent _ _ _); reflexivity.
  - intros Hpos Hok. unfold IsPurged.
    destruct (buildDataCount o =? 0) eqn:E; [apply Z.eqb_eq in E; contradiction|].
    destruct g_supportUxpt eqn:Hsupp.
    + pose proof Hok as (_ & _ & _ & _ & _ & _ & Htab).
      destruct (Htab Hsupp) as (t & Ht & Htok & HdA & HdS).
      pose proof Htok as (_ & _ & _ & ptes & Hptes & _).
      destruct (region_range o t Hok Hsupp Ht) as (_ & Haddr & Hstart & Hend).
      rewrite (UxpteIsPresent_region o t ptes) by assumption.
      cbn [mbind option_bind]. eexists. split; [reflexivity|].
      assert (Hcov : forall k, covered t (dataPtr o) (dataSizeInput o) k <->
                (first_index t (dataPtr o) <= k
                 < first_index t (dataPtr o) + page_count (dataPtr o) (dataSizeInput o))%nat)
        by (intros k; apply (covered_interval t ptes); try assumption; lia).
      rewrite negb_true_iff. split.
      * intros Hnot.
        destruct (absent_in_range ptes (first_index t (dataPtr o))
                    (page_count (dataPtr o) (dataSizeInput o)) Hnot) as (k & pte & Hk & Hpte & Hp).
        exists t, ptes, k, pte. rewrite Hcov. repeat split; assumption || lia.
      * intros (t' & ptes' & k & pte & Ht' & Hptes' & Hk & Hpte & Hp).
        rewrite Ht in Ht'. injection Ht' as <-.
        rewrite Hptes in Hptes'. injection Hptes' as <-.
        apply not_true_is_false. intros Hall.
        rewrite forallb_present_range in Hall.
        apply Hcov in Hk. rewrite (Hall k pte Hk Hpte) in Hp. discriminate.
    + rewrite UxpteIsPresent_off by exact Hsupp. exists false. split; reflexivity.
Qed.

Lemma IsPurged_spec_witness :
  let o := region_4000 [ {| Build := fill "Z"; param := 0 |} ] 0 1 (replicate 4096 x00) in
  buildDataCount o <> 0 /\ @region_ok (page4k true) o /\
  exists purged, @IsPurged (page4k true) o = Some purged /\
    (purged = true <->
     exists t ptes k pte,
       uxPageTable o = Some t /\ uxpte t = Some ptes /\
       @covered (page4k true) t (dataPtr o) (dataSizeInput o) k /\
       ptes !! k = Some pte /\ IsUxptePresent pte = false).
Proof.
  intros o.
  assert (Hcount : buildDataCount o <> 0) by discriminate.
  assert (Hok : @region_ok (page4k true) o).
  { unfold region_ok. split; [split; reflexivity|]. split; [reflexivity|].
    split; [reflexivity|]. split; [reflexivity|]. split; [reflexivity|].
    split; [split; [discriminate | reflexivity]|].
    intros _. eexists. split; [reflexivity|]. split; [|split; reflexivity].
    unfold table_ok. split; [discriminate|]. split; [reflexivity|].
    split; [discriminate|]. eexists. split; reflexivity. }
  split; [exact Hcount|]. split; [exact Hok|].
  destruct (@IsPurged_spec (page4k true) o) as (_ & _ & Hlive).
  exact (Hlive Hcount Hok).
Defined.

(** ** Appending a modifier *)

(** C8.  When the function succeeds on the buffer and then the builder node
    cannot be created, or cannot be appended to the chain, [PurgMemAppendModify]
    returns false with the bytes the function wrote in place and the chain as
    it was. *)
Theorem PurgMemAppendModify_no_rollback :
  forall env o f para data',
    f (data o) (dataSizeInput o) para = (true, data') ->
    builder_create_ok (builder_env env) = false \/
    (builder o <> [] /\ builder_append_ok (builder_env env) = false) ->
    exists o', PurgMemAppendModify env (Some o) (Some f) para = (false, Some o') /\
               data o' = data' /\ builder o' = builder o.
Proof.
  intros env o f para data' Hf Hfail.
  exists (set_data o data'). split; [|split; reflexivity].
  unfold PurgMemAppendModify. rewrite Hf. cbn [negb].
  unfold PurgMemBuilderCreate, PurgMemBuilderAppendBuilder.
  destruct Hfail as [Hcreate | [Hchain Happend]].
  - rewrite Hcreate. reflexivity.
  - rewrite Happend. destruct (builder_create_ok (builder_env env)); [|reflexivity].
    destruct o as [ptr size chain upt lock count bytes lrets urets tr].
    cbn [set_data builder] in *. destruct chain as [|node rest]; [contradiction|].
    reflexivity.
Qed.



Lemma PurgMemAppendModify_no_rollback_witness :
  let o := region_4000 [ {| Build := fill "Z"; param := 0 |} ] 0 1 (replicate 4096 x00) in
  fill "A" (data o) (dataSizeInput o) 0
    = (true, replicate 4000 "A"%byte ++ replicate 96 x00) /\
  exists o', PurgMemAppendModify env_no_builder (Some o) (Some (fill "A")) 0 = (false, Some o') /\
             data o' = replicate 4000 "A"%byte ++ replicate 96 x00 /\
             builder o' = builder o.
Proof.
  intros o.
  assert (Hf : fill "A" (data o) (dataSizeInput o) 0
               = (true, replicate 4000 "A"%byte ++ replicate 96 x00))
    by (vm_compute; reflexivity).
  split; [exact Hf|].
  apply (PurgMemAppendModify_no_rollback env_no_builder o (fill "A") 0 _ Hf).
  left. reflexivity.
Defined.

(** ** Destroying a region *)

Section Destroy.
Context `{Platform}.



End Destroy.

Section DestroyLemmas.
Context `{Platform}.

Lemma destroy_builder_cases env err o rel :
  (builder o = [] /\ destroy_builder env (err, o, rel) = (err, o, rel)) \/
  (builder o <> [] /\
   destroy_builder env (err, o, rel) = (PMB_DESTORY_FAIL, o, rel ++ [RelBuilder false])) \/
  (builder o <> [] /\
   destroy_builder env (err, o, rel) = (err, set_builder o [], rel ++ [RelBuilder true])).
Proof.
  unfold destroy_builder. destruct (builder o) as [|node rest] eqn:Hb.
  - left. split; reflexivity.
  - destruct (PurgMemBuilderDestroy (builder_env env) (node :: rest)); cbn [negb].
    + right. right. split; [discriminate | reflexivity].
    + right. left. split; [discriminate | reflexivity].
Qed.

Lemma unmap_data_cases env err o rel st :
  unmap_data env (err, o, rel) = Some st ->
  (dataPtr o = 0 /\ st = (err, o, rel)) \/
  (exists size r, dataPtr o <> 0 /\ r <> 0 /\
     st = (PM_UNMAP_PURG_FAIL, o, rel ++ [RelData (dataPtr o) size r])) \/
  (exists size, dataPtr o <> 0 /\
     st = (err, set_data (set_dataPtr o 0) [], rel ++ [RelData (dataPtr o) size 0])).
Proof.
  unfold unmap_data. destruct (dataPtr o =? 0) eqn:Hp.
  - intros [= <-]. left. apply Z.eqb_eq in Hp. split; [exact Hp | reflexivity].
  - apply Z.eqb_neq in Hp. destruct (munmap_data_ret env =? 0) eqn:Hm; cbn [negb].
    + apply Z.eqb_eq in Hm. rewrite Hm.
      destruct (if UxpteIsEnabled then IsPurged o else Some true); [|discriminate].
      cbn [mbind option_bind]. intros [= <-]. right. right.
      eexists. split; [exact Hp | reflexivity].
    + apply Z.eqb_neq in Hm. intros [= <-]. right. left.
      eexists. eexists. split; [exact Hp|]. split; [exact Hm | reflexivity].
Qed.

Lemma unmap_uxpt_cases env err o rel :
  (uxPageTable o = None /\ unmap_uxpt env (err, o, rel) = (err, o, rel)) \/
  (exists st t, uxPageTable o <> None /\ st <> PM_OK /\
     unmap_uxpt env (err, o, rel)
     = (st, set_uxPageTable o (Some t), rel ++ [RelUxptMap st])) \/
  (uxPageTable o <> None /\
   unmap_uxpt env (err, o, rel)
   = (err, set_uxPageTable o None, rel ++ [RelUxptMap PM_OK; RelUxptStruct])).
Proof.
  unfold unmap_uxpt. destruct (uxPageTable o) as [t|] eqn:Ht.
  - unfold DeinitUxPageTable.
    destruct (negb g_supportUxpt); cbn [PMState_eqb negb].
    + right. right. split; [discriminate | reflexivity].
    + destruct (uxpte t) as [ptes|]; cbn [PMState_eqb negb].
      * destruct (negb (UnmapUxptePages (uxpt_env env) ptes
                          (GetUxPageSize (dataAddr t) (dataSize t)) =? 0));
          cbn [PMState_eqb negb].
        -- right. left. exists PM_UNMAP_UXPT_FAIL, t.
           split; [discriminate|]. split; [discriminate | reflexivity].
        -- right. right. split; [discriminate | reflexivity].
      * right. right. split; [discriminate | reflexivity].
  - left. split; reflexivity.
Qed.

End DestroyLemmas.

Section DestroyClaims.
Context `{Platform}.

Ltac destroy_cases env o Hrun :=
  unfold PurgMemDestroy in Hrun;
  let E1 := fresh "E1" in let E2 := fresh "E2" in let E3 := fresh "E3" in
  let Hb := fresh "Hb" in let Hd := fresh "Hd" in let Hu := fresh "Hu" in
  destruct (destroy_builder_cases env PM_OK o [RelRwlock (rwlock_destroy_ret env)])
    as [[Hb E1]|[[Hb E1]|[Hb E1]]];
  rewrite E1 in Hrun; clear E1;
  match type of Hrun with
  | context [unmap_data env ?st] =>
      destruct (unmap_data env st) as [[[err2 o2] rel2]|] eqn:E2;
      [|discriminate];
      apply unmap_data_cases in E2;
      destruct E2 as [[Hd E2]|[(size & r & Hd & Hr & E2)|(size & Hd & E2)]];
      injection E2 as -> -> ->
  end;
  cbn [mbind option_bind] in Hrun;
  match type of Hrun with
  | context [unmap_uxpt env (?e, ?ob, ?rl)] =>
      destruct (unmap_uxpt_cases env e ob rl)
        as [[Hu E3]|[(st & t & Hu & Hst & E3)|[Hu E3]]];
      rewrite E3 in Hrun; clear E3
  end;
  cbn [PMState_eqb] in Hrun;
  try (match goal with
       | Hne : ?s <> PM_OK |- _ => destruct s; try congruence
       end; cbn [PMState_eqb] in Hrun);
  inversion Hrun; subst; clear Hrun;
  cbn [app builder dataPtr uxPageTable set_builder set_dataPtr set_data set_uxPageTable] in *.

(** A field that is already NULL is not released again. *)
Lemma PurgMemDestroy_skips_null env o ret o' rel :
  PurgMemDestroy env (Some o) = Some (ret, o', rel) ->
  (builder o = [] -> forall ok, ~ In (RelBuilder ok) rel) /\
  (dataPtr o = 0 -> forall a s r, ~ In (RelData a s r) rel) /\
  (uxPageTable o = None ->
     (forall st, ~ In (RelUxptMap st) rel) /\ ~ In RelUxptStruct rel).
Proof.
  intros Hrun.
  destroy_cases env o Hrun;
    (split; [|split]); intros Hnull; try contradiction;
    repeat split; intros; cbn [In]; intuition discriminate.
Qed.

(** After a call that returned false: the object is still there, and the
    field of every release that succeeded is NULL. *)
Lemma PurgMemDestroy_nulls env o o3 rel :
  PurgMemDestroy env (Some o) = Some (false, Some o3, rel) ->
  (In (RelBuilder true) rel -> builder o3 = []) /\
  ((exists a s, In (RelData a s 0) rel) -> dataPtr o3 = 0) /\
  (In RelUxptStruct rel -> uxPageTable o3 = None).
Proof.
  intros Hrun.
  destroy_cases env o Hrun;
    (split; [|split]); try reflexivity;
    try (intros (a' & s' & Hin)); try (intros Hin);
    cbn [In] in Hin; intuition (try discriminate; try congruence).
Qed.

Lemma PurgMemDestroy_result env o ret o' rel :
  PurgMemDestroy env (Some o) = Some (ret, o', rel) ->
  (ret = true <-> o' = None) /\
  (ret = true <-> In RelObj rel) /\
  (ret = false <->
     In (RelBuilder false) rel \/
     (exists a s r, r <> 0 /\ In (RelData a s r) rel) \/
     (exists st, st <> PM_OK /\ In (RelUxptMap st) rel)).
Proof.
  intros Hrun.
  destroy_cases env o Hrun;
    (split; [|split]); (split; [intros Hret | intros Hev]);
    try reflexivity; try discriminate; try (cbn [In]; tauto);
    try (cbn [In] in Hev; exfalso;
         repeat match goal with
                | Hx : _ \/ _ |- _ => destruct Hx
                | Hx : exists _, _ |- _ => destruct Hx
                | Hx : _ /\ _ |- _ => destruct Hx
                | Hx : False |- _ => contradiction
                | Hx : _ = _ |- _ => discriminate Hx
                | Hx : RelData _ _ _ = RelData _ _ _ |- _ => injection Hx as -> -> ->
                | Hx : RelUxptMap _ = RelUxptMap _ |- _ => injection Hx as ->
                end; congruence).
  all: try (left; cbn [In]; tauto).
  all: try (right; left; exists (dataPtr o), size, r; split; [exact Hr | cbn [In]; tauto]).
  all: try (right; right; eexists; split; [|cbn [In]; eauto 8]; discriminate).
Qed.

End DestroyClaims.

Lemma PurgMemDestroy_returns `{Platform} env o :
  is_Some (IsPurged o) -> is_Some (PurgMemDestroy env (Some o)).
Proof.
  intros [purged Hp]. unfold PurgMemDestroy.
  assert (Hdata : forall err o1 rel, IsPurged o1 = Some purged ->
            is_Some (unmap_data env (err, o1, rel))).
  { intros err o1 rel Hp1. unfold unmap_data.
    destruct (dataPtr o1 =? 0); [eexists; reflexivity|].
    destruct (negb (munmap_data_ret env =? 0)); [eexists; reflexivity|].
    rewrite Hp1. destruct UxpteIsEnabled; eexists; reflexivity. }
  destruct (destroy_builder_cases env PM_OK o [RelRwlock (rwlock_destroy_ret env)])
    as [[_ ->]|[[_ ->]|[_ ->]]];
    match goal with
    | |- context [unmap_data env (?e, ?ob, ?rl)] =>
        destruct (Hdata e ob rl Hp) as [[[err2 o2] rel2] ->]
    end;
    cbn [mbind option_bind];
    destruct (unmap_uxpt env (err2, o2, rel2)) as [[err3 o3] rel3];
    destruct (PMState_eqb err3 PM_OK); eexists; reflexivity.
Qed.

(** The rwlock has no pointer field to guard it: every call on an object
    starts with [pthread_rwlock_destroy], whatever earlier calls did. *)
Lemma PurgMemDestroy_rwlock `{Platform} env o ret o' rel :
  PurgMemDestroy env (Some o) = Some (ret, o', rel) ->
  exists rest, rel = RelRwlock (rwlock_destroy_ret env) :: rest.
Proof.
  unfold PurgMemDestroy. intros Hrun.
  destruct (destroy_builder_cases env PM_OK o [RelRwlock (rwlock_destroy_ret env)])
    as [[_ Hb]|[[_ Hb]|[_ Hb]]]; rewrite Hb in Hrun; clear Hb;
    match type of Hrun with
    | context [unmap_data env ?st] =>
        destruct (unmap_data env st) as [st2|] eqn:Hdata; [|discriminate]
    end;
    cbn [mbind option_bind] in Hrun;
    apply unmap_data_cases in Hdata;
    destruct Hdata as [[_ ->]|[(size & r & _ & _ & ->)|(size & _ & ->)]];
    match type of Hrun with
    | context [unmap_uxpt env (?e, ?ob, ?rl)] =>
        destruct (unmap_uxpt_cases env e ob rl)
          as [[_ Hu]|[(st & t & _ & _ & Hu)|[_ Hu]]]; rewrite Hu in Hrun; clear Hu
    end;
    match type of Hrun with
    | context [PMState_eqb ?e PM_OK] => destruct (PMState_eqb e PM_OK)
    end;
    inversion Hrun; subst; cbn [app]; eexists; reflexivity.
Qed.

(** C10.  The claim: a repeated destroy does not release again what an
    earlier call released.  The builder chain, the data mapping and the
    table are guarded by their pointer fields; the lock is not.  Whenever a
    call that destroyed the lock returns false, a second call on the object
    it left starts with [pthread_rwlock_destroy] on that lock again. *)
Theorem PurgMemDestroy_lock_destroyed_again `{Platform} :
  forall env env2 o o3 rel ret2 o4 rel2,
    rwlock_destroy_ret env = 0 ->
    PurgMemDestroy env (Some o) = Some (false, Some o3, rel) ->
    PurgMemDestroy env2 (Some o3) = Some (ret2, o4, rel2) ->
    (exists rest, rel = RelRwlock 0 :: rest) /\
    (exists rest2, rel2 = RelRwlock (rwlock_destroy_ret env2) :: rest2).
Proof.
  intros env env2 o o3 rel ret2 o4 rel2 Hlock Hrun Hrun2.
  destruct (PurgMemDestroy_rwlock env o _ _ _ Hrun) as [rest Hrel].
  destruct (PurgMemDestroy_rwlock env2 o3 _ _ _ Hrun2) as [rest2 Hrel2].
  rewrite Hlock in Hrel.
  split; [exists rest; exact Hrel | exists rest2; exact Hrel2].
Qed.

(** A region whose data [munmap] fails, destroyed twice: both calls destroy
    the lock. *)
Lemma PurgMemDestroy_lock_destroyed_again_witness :
  let o := region_4000 [ {| Build := fill "Z"; param := 0 |} ] 1 1 (replicate 4096 x00) in
  exists o3 rel rel2,
    @PurgMemDestroy (page4k true) env_munmap_fails (Some o) = Some (false, Some o3, rel) /\
    @PurgMemDestroy (page4k true) env_munmap_fails (Some o3) = Some (false, Some o3, rel2) /\
    rel = [RelRwlock 0; RelBuilder true; RelData 65536 4096 (-1); RelUxptMap PM_OK;
           RelUxptStruct] /\
    rel2 = [RelRwlock 0; RelData 65536 4096 (-1)].
Proof.
  intros o.
  destruct (@PurgMemDestroy (page4k true) env_munmap_fails (Some o))
    as [[[ret r] rel]|] eqn:Hrun; [|vm_compute in Hrun; discriminate].
  assert (Hr : ret = false /\ exists o3, r = Some o3).
  { vm_compute in Hrun. injection Hrun as <- <- _.
    split; [reflexivity | eexists; reflexivity]. }
  destruct Hr as [-> [o3 ->]].
  destruct (@PurgMemDestroy (page4k true) env_munmap_fails (Some o3))
    as [[[ret2 o4] rel2]|] eqn:Hrun2.
  2:{ vm_compute in Hrun. injection Hrun as <- _. vm_compute in Hrun2. discriminate. }
  destruct (@PurgMemDestroy_lock_destroyed_again (page4k true) env_munmap_fails
              env_munmap_fails o o3 rel ret2 o4 rel2 eq_refl Hrun Hrun2)
    as [[rest Hrel] [rest2 Hrel2]].
  vm_compute in Hrun. injection Hrun as <- <-.
  vm_compute in Hrun2. injection Hrun2 as <- <- <-.
  eexists. eexists. eexists.
  split; [reflexivity|]. split; [reflexivity|]. split; reflexivity.
Defined.

(** X29.  [PurgMemDestroy(NULL)] returns true.  On an object, the call
    returns true exactly when it freed the structure, and false exactly when
    one of the releases it attempted (builder chain, data mapping, uxpt
    mapping) failed; after a false return the structure is still there with
    the pointer field of every one of these releases that succeeded set to
    NULL, so that a later call does not make that release again.  The later
    call does start with [pthread_rwlock_destroy] again: the lock has no
    pointer field, and the result of its destroy is only logged. *)
Theorem PurgMemDestroy_partial `{Platform} :
  forall env o ret o' rel,
    PurgMemDestroy env (Some o) = Some (ret, o', rel) ->
    PurgMemDestroy env None = Some (true, None, []) /\
    (ret = true <-> o' = None) /\
    (ret = true <-> In RelObj rel) /\
    (ret = false <->
       In (RelBuilder false) rel \/
       (exists a s r, r <> 0 /\ In (RelData a s r) rel) \/
       (exists st, st <> PM_OK /\ In (RelUxptMap st) rel)) /\
    forall o3, o' = Some o3 ->
      (In (RelBuilder true) rel -> builder o3 = []) /\
      ((exists a s, In (RelData a s 0) rel) -> dataPtr o3 = 0) /\
      (In RelUxptStruct rel -> uxPageTable o3 = None) /\
      forall env2 ret2 o4 rel2,
        PurgMemDestroy env2 (Some o3) = Some (ret2, o4, rel2) ->
        (In (RelBuilder true) rel -> forall ok, ~ In (RelBuilder ok) rel2) /\
        ((exists a s, In (RelData a s 0) rel) -> forall a s r, ~ In (RelData a s r) rel2) /\
        (In RelUxptStruct rel ->
           (forall st, ~ In (RelUxptMap st) rel2) /\ ~ In RelUxptStruct rel2) /\
        exists rest2, rel2 = RelRwlock (rwlock_destroy_ret env2) :: rest2.
Proof.
  intros env o ret o' rel Hrun.
  destruct (PurgMemDestroy_result env o ret o' rel Hrun) as (Hfree & Hobj & Hfail).
  split; [reflexivity|]. split; [exact Hfree|]. split; [exact Hobj|]. split; [exact Hfail|].
  intros o3 ->.
  assert (Hret : ret = false).
  { destruct ret; [|reflexivity]. destruct Hfree as [Hf _]. discriminate (Hf eq_refl). }
  subst ret.
  destruct (PurgMemDestroy_nulls env o o3 rel Hrun) as (Hb & Hd & Hu).
  split; [exact Hb|]. split; [exact Hd|]. split; [exact Hu|].
  intros env2 ret2 o4 rel2 Hrun2.
  destruct (PurgMemDestroy_skips_null env2 o3 ret2 o4 rel2 Hrun2) as (Sb & Sd & Su).
  split; [|split; [|split]].
  - intros Hin. apply Sb, Hb, Hin.
  - intros Hin. apply Sd, Hd, Hin.
  - intros Hin. apply Su, Hu, Hin.
  - exact (PurgMemDestroy_rwlock env2 o3 ret2 o4 rel2 Hrun2).
Qed.


Lemma PurgMemDestroy_partial_witness :
  let o := region_4000 [ {| Build := fill "Z"; param := 0 |} ] 1 1 (replicate 4096 x00) in
  exists o3 rel,
    @PurgMemDestroy (page4k true) env_munmap_fails (Some o) = Some (false, Some o3, rel) /\
    rel = [RelRwlock 0; RelBuilder true; RelData 65536 4096 (-1); RelUxptMap PM_OK;
           RelUxptStruct] /\
    builder o3 = [] /\ dataPtr o3 = 65536 /\ uxPageTable o3 = None /\
    forall env2 ret2 o4 rel2,
      @PurgMemDestroy (page4k true) env2 (Some o3) = Some (ret2, o4, rel2) ->
      (forall ok, ~ In (RelBuilder ok) rel2) /\
      (forall st, ~ In (RelUxptMap st) rel2) /\ ~ In RelUxptStruct rel2.
Proof.
  intros o.
  destruct (@PurgMemDestroy (page4k true) env_munmap_fails (Some o))
    as [[[ret o'] rel]|] eqn:Hrun; [|vm_compute in Hrun; discriminate].
  pose proof (@PurgMemDestroy_partial (page4k true) env_munmap_fails o ret o' rel Hrun)
    as (_ & _ & _ & _ & Hafter).
  vm_compute in Hrun. injection Hrun as <- <- <-.
  eexists. eexists. split; [reflexivity|]. split; [reflexivity|].
  split; [reflexivity|]. split; [reflexivity|]. split; [reflexivity|].
  intros env2 ret2 o4 rel2 Hrun2.
  destruct (Hafter _ eq_refl) as (_ & _ & _ & Hagain).
  destruct (Hagain env2 ret2 o4 rel2 Hrun2) as (Sb & _ & Su & _).
  split; [apply Sb; cbn [In]; tauto|].
  apply Su. cbn [In]. tauto.
Defined.

(** ** Rebuilding *)

Section Rebuild.
Context `{Platform}.

Lemma refcnt_populated pte : refcnt (Z.lor pte UXPTE_PRESENT_MASK) = refcnt pte.
Proof.
  unfold refcnt. rewrite Z.shiftr_lor. rewrite (Z.shiftr_div_pow2 UXPTE_PRESENT_MASK) by (vm_compute; discriminate).
  change (UXPTE_PRESENT_MASK / 2 ^ UXPTE_PRESENT_BIT) with 0. apply Z.lor_0_r.
Qed.

Lemma kernel_populate_refcnts upt addr len :
  refcnts (kernel_populate upt addr len) = refcnts upt.
Proof.
  unfold kernel_populate.
  destruct (negb g_supportUxpt || (len <=? 0)); [reflexivity|].
  destruct upt as [t|]; [|reflexivity].
  destruct (uxpte t) as [ptes|] eqn:Ht; [|reflexivity].
  unfold refcnts. cbn [mbind option_bind set_uxpte dataAddr dataSize uxpte fmap option_fmap option_map].
  rewrite Ht. cbn [fmap option_fmap option_map]. do 3 f_equal.
  apply list_eq. intros k. rewrite !list_lookup_fmap, list_lookup_imap.
  unfold uxpte_t in *.
  destruct (ptes !! k) as [pte|]; [|reflexivity]. cbn [fmap option_fmap option_map mbind option_bind].
  destruct ((_ <=? _) && (_ <? _)); [|reflexivity].
  rewrite refcnt_populated. reflexivity.
Qed.

Lemma memset_s_region o :
  region_ok o ->
  let destMax := RoundUp (dataSizeInput o) PAGE_SIZE in
  memset_s (dataPtr o) (data o) destMax x00 (dataSizeInput o)
  = if destMax <=? SECUREC_MEM_MAX_LEN then Some (EOK, zeroed o) else Some (ERANGE, data o).
Proof.
  intros (Hsz & Hptr & Hal & Htop & Hlen & Hcnt & Htab) destMax.
  pose proof (RoundUp_ge (dataSizeInput o) ltac:(lia)) as Hge. fold destMax in Hge, Hlen.
  unfold memset_s.
  replace (dataPtr o =? 0) with false by (symmetry; apply Z.eqb_neq; lia).
  replace (dataSizeInput o <=? destMax) with true by (symmetry; apply Z.leb_le; lia).
  destruct (destMax <=? SECUREC_MEM_MAX_LEN) eqn:Hmax; cbn [negb andb].
  - unfold mem_fill.
    replace (dataSizeInput o <=? Z.of_nat (length (data o))) with true
      by (symmetry; apply Z.leb_le; lia).
    reflexivity.
  - apply Z.leb_gt in Hmax.
    replace (SECUREC_MEM_MAX_LEN <? destMax) with true by (symmetry; apply Z.ltb_lt; lia).
    rewrite orb_true_r. reflexivity.
Qed.

(** Every field after a run of [PurgMemBuildData] on a live region. *)
Lemma PurgMemBuildData_fields o :
  region_ok o ->
  exists succ o', PurgMemBuildData o = Some (succ, o') /\
    dataPtr o' = dataPtr o /\ dataSizeInput o' = dataSizeInput o /\
    builder o' = builder o /\ rwlock o' = rwlock o /\
    lock_rets o' = lock_rets o /\ unlock_rets o' = unlock_rets o /\
    trace o' = trace o ++ [EvBuildData succ] /\
    buildDataCount o' = (if succ then u32 (buildDataCount o + 1) else buildDataCount o) /\
    refcnts (uxPageTable o') = refcnts (uxPageTable o) /\
    (succ = true ->
       PurgMemBuilderBuildAll (builder o) (zeroed o) (dataSizeInput o) = (true, data o') /\
       uxPageTable o' = kernel_populate (uxPageTable o) (dataPtr o) (dataSizeInput o)) /\
    (succ = true <->
       RoundUp (dataSizeInput o) PAGE_SIZE <= SECUREC_MEM_MAX_LEN /\
       fst (PurgMemBuilderBuildAll (builder o) (zeroed o) (dataSizeInput o)) = true).
Proof.
  intros Hok. unfold PurgMemBuildData. rewrite (memset_s_region o Hok).
  destruct (RoundUp (dataSizeInput o) PAGE_SIZE <=? SECUREC_MEM_MAX_LEN) eqn:Hmax;
    cbn [mbind option_bind fst snd].
  - change (negb (EOK =? EOK)) with false. cbv iota.
    cbn [set_uxPageTable set_data builder data dataSizeInput].
    destruct (PurgMemBuilderBuildAll (builder o) (zeroed o) (dataSizeInput o))
      as [succ data'] eqn:Hbuild.
    apply Z.leb_le in Hmax.
    destruct succ; eexists; eexists; (split; [reflexivity|]);
      cbn [emit set_data set_buildDataCount set_uxPageTable dataPtr dataSizeInput builder
           rwlock lock_rets unlock_rets trace buildDataCount uxPageTable data fst];
      repeat split; try reflexivity; try apply kernel_populate_refcnts; try discriminate;
      try assumption; intros [_ Habs]; discriminate.
  - change (negb (ERANGE =? EOK)) with true. cbv iota.
    eexists. eexists. split; [reflexivity|].
    cbn [emit set_data dataPtr dataSizeInput builder rwlock lock_rets unlock_rets trace
         buildDataCount uxPageTable data].
    apply Z.leb_gt in Hmax.
    repeat split; try reflexivity; try discriminate. intros [Hle _]. exfalso. lia.
Qed.

(** The bytes after a run of [PurgMemBuildData] on a live region: what the
    chain made of the zeroed mapping when [memset_s] accepts the range, the
    bytes as they were when it refuses it. *)
Lemma PurgMemBuildData_data o succ o' :
  region_ok o ->
  PurgMemBuildData o = Some (succ, o') ->
  (RoundUp (dataSizeInput o) PAGE_SIZE <= SECUREC_MEM_MAX_LEN ->
     PurgMemBuilderBuildAll (builder o) (zeroed o) (dataSizeInput o) = (succ, data o')) /\
  (SECUREC_MEM_MAX_LEN < RoundUp (dataSizeInput o) PAGE_SIZE ->
     succ = false /\ data o' = data o).
Proof.
  intros Hok. unfold PurgMemBuildData. rewrite (memset_s_region o Hok).
  destruct (RoundUp (dataSizeInput o) PAGE_SIZE <=? SECUREC_MEM_MAX_LEN) eqn:Hmax;
    cbn [mbind option_bind fst snd].
  - apply Z.leb_le in Hmax.
    change (negb (EOK =? EOK)) with false. cbv iota.
    cbn [set_uxPageTable set_data builder data dataSizeInput].
    destruct (PurgMemBuilderBuildAll (builder o) (zeroed o) (dataSizeInput o))
      as [ok data'] eqn:Hbuild.
    destruct ok; intros [= <- <-]; cbn [emit set_data set_buildDataCount data];
      (split; [reflexivity | lia]).
  - apply Z.leb_gt in Hmax.
    change (negb (ERANGE =? EOK)) with true. cbv iota.
    intros [= <- <-]. cbn [emit set_data data].
    split; [lia | split; reflexivity].
Qed.

End Rebuild.

(** A region of 2 GiB (capability off) is a live region. *)
Lemma region_2G_ok : @region_ok (page4k false) region_2G.
Proof.
  assert (Hr : RoundUp (2 ^ 31) (@PAGE_SIZE (page4k false)) = 2 ^ 31) by reflexivity.
  unfold region_ok.
  cbn [region_2G dataPtr dataSizeInput data buildDataCount uxPageTable g_supportUxpt page4k].
  rewrite Hr, length_replicate.
  split; [split; reflexivity|]. split; [reflexivity|].
  split; [reflexivity|]. split; [reflexivity|].
  split; [apply Z2Nat.id; discriminate|]. split; [split; [discriminate | reflexivity]|].
  discriminate.
Qed.

(** C2 as stated has every rebuild zero the whole mapped range, run the
    chain and leave the chain applied to an all-zero buffer.  First, the 96
    bytes after the 4000 of the region hold 1 before the rebuild; the
    rebuild succeeds, byte 4000 still holds 1, and the mapping differs from
    what the chain makes of 4096 zero bytes.  Second, the rebuild of a
    region of 2 GiB, every byte 1: [memset_s] refuses a range above
    SECUREC_MEM_MAX_LEN, and the rebuild fails with no byte zeroed and the
    chain, which would fill the region, not run. *)
Lemma PurgMemBuildData_not_all_zeroed :
  let o := region_4000 [ {| Build := fill "Z"; param := 0 |} ] 1 0
                       (replicate 4000 x00 ++ replicate 96 x01) in
  (exists o', @PurgMemBuildData (page4k true) o = Some (true, o') /\
     data o' !! 4000%nat = Some x01 /\
     data o' <> snd (PurgMemBuilderBuildAll (builder o) (replicate 4096 x00) (dataSizeInput o))) /\
  (exists o', @PurgMemBuildData (page4k false) region_2G = Some (false, o') /\
     data o' = data region_2G /\ data o' !! 0%nat = Some x01).
Proof.
  intros o. split.
  - eexists. split; [vm_compute; reflexivity|]. split; [reflexivity|].
    intros Heq. apply (f_equal (fun l => l !! 4000%nat)) in Heq.
    vm_compute in Heq. discriminate.
  - destruct (@PurgMemBuildData_fields (page4k false) region_2G region_2G_ok)
      as (succ & o' & Hrun & _).
    destruct (@PurgMemBuildData_data (page4k false) region_2G succ o' region_2G_ok Hrun)
      as [_ Hbig].
    destruct Hbig as [-> Hdata]; [reflexivity|].
    exists o'. split; [exact Hrun|]. split; [exact Hdata|].
    rewrite Hdata. unfold region_2G. cbn [data].
    apply lookup_replicate_2. lia.
Qed.

(** C2, amended.  A rebuild of a live region returns.  When the rounded size
    of the region is within SECUREC_MEM_MAX_LEN it zeroes the first
    [dataSizeInput] bytes of the mapping, leaves the rest of the last page as
    it was, and runs the chain on that buffer: the rebuild succeeds exactly
    when the chain does, and the mapping after it, successful or not, is
    what the chain made of that buffer (of an all-zero buffer when the bytes
    past [dataSizeInput] were zero).  When the rounded size is larger the
    rebuild fails with the bytes as they were.  The build count is one more,
    modulo 2^32, after a successful rebuild and what it was after a failed
    one. *)
Theorem PurgMemBuildData_rebuild `{Platform} :
  forall o,
    region_ok o ->
    let n := Z.to_nat (dataSizeInput o) in
    exists succ o', PurgMemBuildData o = Some (succ, o') /\
      trace o' = trace o ++ [EvBuildData succ] /\
      take n (zeroed o) = replicate n x00 /\
      drop n (zeroed o) = drop n (data o) /\
      (drop n (data o) = replicate (length (data o) - n) x00 ->
       zeroed o = replicate (length (data o)) x00) /\
      (RoundUp (dataSizeInput o) PAGE_SIZE <= SECUREC_MEM_MAX_LEN ->
         PurgMemBuilderBuildAll (builder o) (zeroed o) (dataSizeInput o) = (succ, data o')) /\
      (SECUREC_MEM_MAX_LEN < RoundUp (dataSizeInput o) PAGE_SIZE ->
         succ = false /\ data o' = data o) /\
      (succ = true <->
         RoundUp (dataSizeInput o) PAGE_SIZE <= SECUREC_MEM_MAX_LEN /\
         fst (PurgMemBuilderBuildAll (builder o) (zeroed o) (dataSizeInput o)) = true) /\
      buildDataCount o' = (if succ then u32 (buildDataCount o + 1) else buildDataCount o) /\
      (succ = true -> buildDataCount o < 2 ^ 32 - 1 ->
       buildDataCount o' = buildDataCount o + 1).
Proof.
  intros o Hok n.
  destruct (PurgMemBuildData_fields o Hok)
    as (succ & o' & Hrun & _ & _ & _ & _ & _ & _ & Htr & Hcnt & _ & _ & Hiff).
  destruct (PurgMemBuildData_data o succ o' Hok Hrun) as [Hin Hout].
  exists succ, o'. split; [exact Hrun|]. split; [exact Htr|].
  pose proof Hok as (Hsz & _ & _ & _ & Hlen & Hc & _).
  pose proof (RoundUp_ge (dataSizeInput o) ltac:(lia)) as Hge.
  assert (Hn : (n <= length (data o))%nat) by (unfold n; lia).
  unfold zeroed. fold n.
  split; [rewrite take_app_length' by (symmetry; apply length_replicate); reflexivity|].
  split; [rewrite drop_app_length' by (symmetry; apply length_replicate); reflexivity|].
  split; [intros ->; rewrite <- replicate_add; f_equal; lia|].
  split; [exact Hin|]. split; [exact Hout|]. split; [exact Hiff|]. split; [exact Hcnt|].
  intros -> Hlt. rewrite Hcnt. unfold u32. apply Z.mod_small. lia.
Qed.

Lemma PurgMemBuildData_rebuild_witness :
  let o := region_4000 [ {| Build := fill "Z"; param := 0 |} ] 1 0
                       (replicate 4000 x00 ++ replicate 96 x01) in
  @region_ok (page4k true) o /\
  exists o', @PurgMemBuildData (page4k true) o = Some (true, o') /\
    data o' = replicate 4000 "Z"%byte ++ replicate 96 x01 /\
    buildDataCount o' = 1.
Proof.
  intros o.
  assert (Hok : @region_ok (page4k true) o).
  { unfold region_ok. split; [split; reflexivity|]. split; [reflexivity|].
    split; [reflexivity|]. split; [reflexivity|]. split; [reflexivity|].
    split; [split; [discriminate | reflexivity]|].
    intros _. eexists. split; [reflexivity|]. split; [|split; reflexivity].
    unfold table_ok. split; [discriminate|]. split; [reflexivity|].
    split; [discriminate|]. eexists. split; reflexivity. }
  split; [exact Hok|].
  destruct (@PurgMemBuildData_rebuild (page4k true) o Hok)
    as (succ & o' & Hrun & _ & _ & _ & _ & Hin & _ & _ & Hcnt & _).
  assert (Hchain : @PurgMemBuilderBuildAll (builder o) (@zeroed o) (dataSizeInput o)
                   = (true, replicate 4000 "Z"%byte ++ replicate 96 x01))
    by (vm_compute; reflexivity).
  rewrite Hchain in Hin.
  assert (Hle : RoundUp (dataSizeInput o) (@PAGE_SIZE (page4k true)) <= SECUREC_MEM_MAX_LEN)
    by (vm_compute; discriminate).
  specialize (Hin Hle). injection Hin as Hs Hd. subst succ.
  exists o'. split; [exact Hrun|]. split; [symmetry; exact Hd | exact Hcnt].
Defined.

(** ** The steps of a session *)

Section SessionSteps.
Context `{Platform}.

Lemma same_but_lock_refl o : same_but_lock o o.
Proof. repeat split. Qed.

Lemma same_but_lock_trans o1 o2 o3 :
  same_but_lock o1 o2 -> same_but_lock o2 o3 -> same_but_lock o1 o3.
Proof. unfold same_but_lock. intuition congruence. Qed.

Lemma IsPurged_frame o o' : same_but_lock o o' -> IsPurged o' = IsPurged o.
Proof.
  intros (Hp & Hs & _ & Hu & Hc & _ & _). unfold IsPurged. rewrite Hp, Hs, Hu, Hc. reflexivity.
Qed.

Ltac lock_fields :=
  unfold same_but_lock;
  cbn [set_rwlock set_lock_rets set_unlock_rets rwlock lock_rets unlock_rets dataPtr
       dataSizeInput builder uxPageTable buildDataCount data trace];
  repeat split; try reflexivity; try congruence;
  try (let Hx := fresh in
       intros Hx; try contradiction; try discriminate; try congruence;
       repeat split; try reflexivity; try discriminate; try congruence).

Lemma rdlock_fields o ret o' :
  rdlock o = Some (ret, o') ->
  same_but_lock o o' /\ ret = next_ret (lock_rets o) /\
  lock_rets o' = tl (lock_rets o) /\ unlock_rets o' = unlock_rets o /\
  (ret <> 0 -> rwlock o' = rwlock o) /\
  (ret = 0 -> rwlock o <> RwWrite /\ rwlock o' = rd_acquired (rwlock o)).
Proof.
  unfold rdlock, pthread_rwlock_rdlock.
  destruct (next_ret (lock_rets o) =? 0) eqn:E; cbn [negb].
  - apply Z.eqb_eq in E. rewrite E.
    destruct (rwlock o) eqn:Hl; cbn [mbind option_bind fst snd]; intros [= <- <-];
      lock_fields; try (rewrite Hl; try discriminate; reflexivity).
  - apply Z.eqb_neq in E.
    cbn [mbind option_bind fst snd]. intros [= <- <-]. lock_fields.
Qed.

Lemma wrlock_fields o ret o' :
  wrlock o = Some (ret, o') ->
  same_but_lock o o' /\ ret = next_ret (lock_rets o) /\
  lock_rets o' = tl (lock_rets o) /\ unlock_rets o' = unlock_rets o /\
  (ret <> 0 -> rwlock o' = rwlock o) /\
  (ret = 0 -> rwlock o = RwUnlocked /\ rwlock o' = RwWrite).
Proof.
  unfold wrlock, pthread_rwlock_wrlock.
  destruct (next_ret (lock_rets o) =? 0) eqn:E; cbn [negb].
  - apply Z.eqb_eq in E. rewrite E.
    destruct (rwlock o) eqn:Hl; cbn [mbind option_bind fst snd]; intros [= <- <-];
      lock_fields.
  - apply Z.eqb_neq in E.
    cbn [mbind option_bind fst snd]. intros [= <- <-]. lock_fields.
Qed.

Lemma unlock_fields o ret o' :
  unlock o = Some (ret, o') ->
  same_but_lock o o' /\ ret = next_ret (unlock_rets o) /\
  lock_rets o' = lock_rets o /\ unlock_rets o' = tl (unlock_rets o) /\
  (ret <> 0 -> rwlock o' = rwlock o) /\
  (ret = 0 -> (rwlock o <> RwWrite /\ rd_acquired (rwlock o') = rwlock o) \/
              (rwlock o = RwWrite /\ rwlock o' = RwUnlocked)).
Proof.
  unfold unlock, pthread_rwlock_unlock.
  destruct (next_ret (unlock_rets o) =? 0) eqn:E; cbn [negb].
  - apply Z.eqb_eq in E. rewrite E.
    destruct (rwlock o) as [|[|n]|] eqn:Hl; cbn [mbind option_bind fst snd];
      intros [= <- <-];
      unfold same_but_lock;
      cbn [set_rwlock set_unlock_rets rwlock lock_rets unlock_rets dataPtr
           dataSizeInput builder uxPageTable buildDataCount data trace];
      repeat split; try reflexivity; try (intros Hne; contradiction);
      intros _; rewrite ?Hl;
      ((left; split; [discriminate | reflexivity]) || (right; split; reflexivity)).
  - apply Z.eqb_neq in E.
    cbn [mbind option_bind fst snd]. intros [= <- <-]. lock_fields.
Qed.

Lemma rd_acquired_inj l l' : l <> RwWrite -> rd_acquired l' = rd_acquired l -> l' = l.
Proof.
  destruct l, l'; cbn; intros Hne Heq; try congruence; try discriminate.
Qed.

(** What a run of [PurgMemBuildData] changes, whatever it finds. *)
Lemma PurgMemBuildData_frame o succ o' :
  PurgMemBuildData o = Some (succ, o') ->
  dataPtr o' = dataPtr o /\ dataSizeInput o' = dataSizeInput o /\
  builder o' = builder o /\ rwlock o' = rwlock o /\
  lock_rets o' = lock_rets o /\ unlock_rets o' = unlock_rets o /\
  trace o' = trace o ++ [EvBuildData succ] /\
  buildDataCount o' = (if succ then u32 (buildDataCount o + 1) else buildDataCount o) /\
  refcnts (uxPageTable o') = refcnts (uxPageTable o).
Proof.
  unfold PurgMemBuildData.
  destruct (memset_s _ _ _ _ _) as [[rc mem']|]; [|discriminate].
  cbn [mbind option_bind fst snd].
  destruct (negb (rc =? EOK)).
  - intros [= <- <-].
    cbn [emit set_data dataPtr dataSizeInput builder rwlock lock_rets unlock_rets trace
         buildDataCount uxPageTable].
    repeat split; reflexivity.
  - cbn [set_uxPageTable set_data builder data dataSizeInput].
    destruct (PurgMemBuilderBuildAll _ _ _) as [ok data'].
    destruct ok; intros [= <- <-];
      cbn [emit set_data set_buildDataCount set_uxPageTable dataPtr dataSizeInput builder
           rwlock lock_rets unlock_rets trace buildDataCount uxPageTable];
      repeat split; try reflexivity; apply kernel_populate_refcnts.
Qed.

End SessionSteps.

Section ReadSteps.
Context `{Platform}.

Lemma TryBeginRead_cases o st o' :
  TryBeginRead o = Some (st, o') ->
  same_but_lock o o' /\ lock_rets o' = tl (lock_rets o) /\
  ((st = PM_LOCK_READ_FAIL /\ next_ret (lock_rets o) <> 0 /\
    rwlock o' = rwlock o /\ unlock_rets o' = unlock_rets o) \/
   (st = PM_DATA_NO_PURGED /\ next_ret (lock_rets o) = 0 /\ IsPurged o = Some false /\
    rwlock o <> RwWrite /\ rwlock o' = rd_acquired (rwlock o) /\
    unlock_rets o' = unlock_rets o) \/
   (st = PM_UNLOCK_READ_FAIL /\ next_ret (lock_rets o) = 0 /\ IsPurged o = Some true /\
    next_ret (unlock_rets o) <> 0 /\ unlock_rets o' = tl (unlock_rets o)) \/
   (st = PM_DATA_PURGED /\ next_ret (lock_rets o) = 0 /\ IsPurged o = Some true /\
    next_ret (unlock_rets o) = 0 /\ rwlock o' = rwlock o /\
    unlock_rets o' = tl (unlock_rets o))).
Proof.
  unfold TryBeginRead.
  destruct (rdlock o) as [[ret o1]|] eqn:Hrd; [|discriminate].
  cbn [mbind option_bind fst snd].
  destruct (rdlock_fields o ret o1 Hrd) as (Hs1 & Hret & Hl1 & Hu1 & Hfail & Hacq).
  destruct (ret =? 0) eqn:E; cbn [negb].
  - apply Z.eqb_eq in E. destruct (Hacq E) as [Hnw Hlock].
    rewrite (IsPurged_frame o o1 Hs1).
    destruct (IsPurged o) as [purged|] eqn:Hp; [|discriminate].
    cbn [mbind option_bind]. destruct purged; cbn [negb].
    + destruct (unlock o1) as [[uret o2]|] eqn:Hun; [|discriminate].
      cbn [mbind option_bind fst snd].
      destruct (unlock_fields o1 uret o2 Hun) as (Hs2 & Huret & Hl2 & Hu2 & Hufail & Hrel).
      assert (Hs : same_but_lock o o2) by (eapply same_but_lock_trans; eassumption).
      destruct (uret =? 0) eqn:E2; cbn [negb]; intros [= <- <-].
      * apply Z.eqb_eq in E2. split; [exact Hs|]. split; [congruence|].
        right. right. right. split; [reflexivity|]. split; [congruence|].
        split; [reflexivity|]. split; [congruence|]. split; [|congruence].
        destruct (Hrel E2) as [[_ Hinj]|[Hw _]].
        -- apply rd_acquired_inj; [exact Hnw | congruence].
        -- exfalso. rewrite Hlock in Hw. destruct (rwlock o); cbn in Hw; congruence.
      * apply Z.eqb_neq in E2. split; [exact Hs|]. split; [congruence|].
        right. right. left. split; [reflexivity|]. split; [congruence|].
        split; [reflexivity|]. split; congruence.
    + intros [= <- <-]. split; [exact Hs1|]. split; [exact Hl1|].
      right. left. split; [reflexivity|]. split; [congruence|].
      split; [reflexivity|]. split; [exact Hnw|]. split; assumption.
  - apply Z.eqb_neq in E. intros [= <- <-]. split; [exact Hs1|]. split; [exact Hl1|].
    left. split; [reflexivity|]. split; [congruence|]. split; [apply Hfail, E | exact Hu1].
Qed.

Lemma BeginReadBuildData_cases o st o' :
  BeginReadBuildData o = Some (st, o') ->
  lock_rets o' = tl (lock_rets o) /\
  ((st = PM_LOCK_WRITE_FAIL /\ next_ret (lock_rets o) <> 0 /\ same_but_lock o o' /\
    rwlock o' = rwlock o /\ unlock_rets o' = unlock_rets o) \/
   (next_ret (lock_rets o) = 0 /\ rwlock o = RwUnlocked /\
    exists o1 rebuildRet o2,
      same_but_lock o o1 /\ rwlock o1 = RwWrite /\ unlock_rets o1 = unlock_rets o /\
      ((IsPurged o = Some true /\ PurgMemBuildData o1 = Some (rebuildRet, o2)) \/
       (IsPurged o = Some false /\ rebuildRet = false /\ o2 = o1)) /\
      same_but_lock o2 o' /\ unlock_rets o' = tl (unlock_rets o) /\
      ((st = PM_UNLOCK_WRITE_FAIL /\ next_ret (unlock_rets o) <> 0 /\ rwlock o' = RwWrite) \/
       (next_ret (unlock_rets o) = 0 /\ rwlock o' = RwUnlocked /\
        st = if rebuildRet then PMB_BUILD_ALL_SUCC else PMB_BUILD_ALL_FAIL)))).
Proof.
  unfold BeginReadBuildData.
  destruct (wrlock o) as [[ret o1]|] eqn:Hwr; [|discriminate].
  cbn [mbind option_bind fst snd].
  destruct (wrlock_fields o ret o1 Hwr) as (Hs1 & Hret & Hl1 & Hu1 & Hfail & Hacq).
  destruct (ret =? 0) eqn:E; cbn [negb].
  - apply Z.eqb_eq in E. destruct (Hacq E) as [Hfree Hlock].
    rewrite (IsPurged_frame o o1 Hs1).
    destruct (IsPurged o) as [purged|] eqn:Hp; [|discriminate].
    cbn [mbind option_bind].
    destruct (if purged then PurgMemBuildData o1 else Some (false, o1))
      as [[rebuildRet o2]|] eqn:Hb; [|discriminate].
    cbn [mbind option_bind fst snd].
    assert (Hkeep : rwlock o2 = RwWrite /\ unlock_rets o2 = unlock_rets o /\
                    lock_rets o2 = lock_rets o1).
    { destruct purged.
      - destruct (PurgMemBuildData_frame o1 rebuildRet o2 Hb)
          as (_ & _ & _ & Hl & Hlr & Hur & _). repeat split; congruence.
      - injection Hb as <- <-. repeat split; congruence. }
    destruct Hkeep as (Hl2 & Hu2 & Hlr2).
    destruct (unlock o2) as [[uret o3]|] eqn:Hun; [|discriminate].
    cbn [mbind option_bind fst snd].
    destruct (unlock_fields o2 uret o3 Hun) as (Hs3 & Huret & Hl3 & Hu3 & Hufail & Hrel).
    assert (Hmid' : (Some purged = Some true /\ PurgMemBuildData o1 = Some (rebuildRet, o2))
                    \/ (Some purged = Some false /\ rebuildRet = false /\ o2 = o1)).
    { destruct purged.
      - left. split; [reflexivity | exact Hb].
      - right. injection Hb as <- <-. repeat split. }
    assert (Hcommon : forall s,
      (s = PM_UNLOCK_WRITE_FAIL /\ next_ret (unlock_rets o) <> 0 /\ rwlock o3 = RwWrite) \/
      (next_ret (unlock_rets o) = 0 /\ rwlock o3 = RwUnlocked /\
       s = if rebuildRet then PMB_BUILD_ALL_SUCC else PMB_BUILD_ALL_FAIL) ->
      lock_rets o3 = tl (lock_rets o) /\
      ((s = PM_LOCK_WRITE_FAIL /\ next_ret (lock_rets o) <> 0 /\ same_but_lock o o3 /\
        rwlock o3 = rwlock o /\ unlock_rets o3 = unlock_rets o) \/
       (next_ret (lock_rets o) = 0 /\ rwlock o = RwUnlocked /\
        exists o1 rebuildRet o2,
          same_but_lock o o1 /\ rwlock o1 = RwWrite /\ unlock_rets o1 = unlock_rets o /\
          ((Some purged = Some true /\ PurgMemBuildData o1 = Some (rebuildRet, o2)) \/
           (Some purged = Some false /\ rebuildRet = false /\ o2 = o1)) /\
          same_but_lock o2 o3 /\ unlock_rets o3 = tl (unlock_rets o) /\
          ((s = PM_UNLOCK_WRITE_FAIL /\ next_ret (unlock_rets o) <> 0 /\ rwlock o3 = RwWrite) \/
           (next_ret (unlock_rets o) = 0 /\ rwlock o3 = RwUnlocked /\
            s = if rebuildRet then PMB_BUILD_ALL_SUCC else PMB_BUILD_ALL_FAIL))))).
    { intros s Hs. split; [congruence|]. right.
      split; [congruence|]. split; [exact Hfree|].
      exists o1, rebuildRet, o2.
      split; [exact Hs1|]. split; [exact Hlock|]. split; [exact Hu1|].
      split; [exact Hmid'|]. split; [exact Hs3|]. split; [congruence|]. exact Hs. }
    destruct (uret =? 0) eqn:E2; cbn [negb].
    + apply Z.eqb_eq in E2.
      assert (Hunl : rwlock o3 = RwUnlocked).
      { destruct (Hrel E2) as [[Hnw _]|[_ Hr]]; [congruence | exact Hr]. }
      destruct rebuildRet; cbn [negb]; intros [= <- <-]; apply Hcommon; right;
        (split; [congruence|]); split; [exact Hunl | reflexivity | exact Hunl | reflexivity].
    + apply Z.eqb_neq in E2. intros [= <- <-]. apply Hcommon. left.
      split; [reflexivity|]. split; [congruence|]. rewrite (Hufail E2). exact Hl2.
  - apply Z.eqb_neq in E. intros [= <- <-]. split; [exact Hl1|].
    left. split; [reflexivity|]. split; [congruence|]. split; [exact Hs1|].
    split; [apply Hfail, E | exact Hu1].
Qed.

End ReadSteps.

(** ** A failed begin *)

Section FailedBegin.
Context `{Platform}.

Lemma mem_inv_refl o : mem_inv o o.
Proof.
  repeat split. exists []. split; [symmetry; apply app_nil_r | constructor].
Qed.

Lemma mem_inv_frame o0 o o' : mem_inv o0 o -> same_but_lock o o' -> mem_inv o0 o'.
Proof.
  intros (Hp & Hs & Hb & Hr & builds & Ht & Hbo) (Hp' & Hs' & Hb' & Hu' & _ & _ & Ht').
  repeat split; try congruence.
  exists builds. split; [congruence | exact Hbo].
Qed.

Lemma mem_inv_build o0 o succ o' :
  mem_inv o0 o -> PurgMemBuildData o = Some (succ, o') -> mem_inv o0 o'.
Proof.
  intros (Hp & Hs & Hb & Hr & builds & Ht & Hbo) Hrun.
  destruct (PurgMemBuildData_frame o succ o' Hrun)
    as (Hp' & Hs' & Hb' & _ & _ & _ & Ht' & _ & Hr').
  repeat split; try congruence.
  exists (builds ++ [EvBuildData succ]). split.
  - rewrite Ht', Ht, app_assoc. reflexivity.
  - apply Forall_app. split; [exact Hbo|]. constructor; [eexists; reflexivity | constructor].
Qed.

Lemma next_ret_zero rets : Forall (eq 0) rets -> next_ret rets = 0 /\ Forall (eq 0) (tl rets).
Proof.
  intros Hz. destruct rets as [|r rets]; cbn.
  - split; [reflexivity | constructor].
  - inversion Hz; subst. split; [reflexivity | assumption].
Qed.

(** A read loop that is left with [ret = false], its unlock calls having
    succeeded, leaves the lock as it found it. *)
Lemma PurgMemBeginRead_loop_failed fuel : forall o0 o o',
  mem_inv o0 o -> rwlock o = rwlock o0 -> Forall (eq 0) (unlock_rets o) ->
  PurgMemBeginRead_loop fuel o = Some (false, o') ->
  mem_inv o0 o' /\ rwlock o' = rwlock o0.
Proof.
  induction fuel as [|fuel IH]; intros o0 o o' Hinv Hlock Hz Hrun; [discriminate|].
  cbn [PurgMemBeginRead_loop] in Hrun.
  destruct (TryBeginRead o) as [[st o1]|] eqn:Htry; [|discriminate].
  cbn [mbind option_bind fst snd] in Hrun.
  destruct (next_ret_zero _ Hz) as [Hz0 Hztl].
  destruct (TryBeginRead_cases o st o1 Htry)
    as (Hs1 & _ & [(-> & _ & Hl1 & _)|[(-> & _)|[(-> & _ & _ & Hnz & _)|
        (-> & _ & _ & _ & Hl1 & Hu1)]]]).
  - injection Hrun as <-. split; [eapply mem_inv_frame; eassumption | congruence].
  - discriminate.
  - contradiction.
  - destruct (BeginReadBuildData o1) as [[st2 o2]|] eqn:Hbuild; [|discriminate].
    cbn [mbind option_bind fst snd] in Hrun.
    assert (Hinv1 : mem_inv o0 o1) by (eapply mem_inv_frame; eassumption).
    assert (Hz1 : Forall (eq 0) (unlock_rets o1)) by (rewrite Hu1; exact Hztl).
    destruct (next_ret_zero _ Hz1) as [Hz10 Hz1tl].
    destruct (BeginReadBuildData_cases o1 st2 o2 Hbuild)
      as (_ & [(-> & _ & Hs2 & Hl2 & _)|
               (_ & Hfree & oa & rebuildRet & ob & Hsa & _ & _ & Hmid & Hsb & Hu2 &
                [(-> & Hnz & _)|(_ & Hl2 & ->)])]).
    + cbn [PMState_eqb negb] in Hrun. injection Hrun as <-.
      split; [eapply mem_inv_frame; eassumption | congruence].
    + contradiction.
    + assert (Hinv2 : mem_inv o0 o2).
      { eapply mem_inv_frame; [|exact Hsb].
        destruct Hmid as [[_ Hb]|(_ & _ & ->)].
        - eapply mem_inv_build; [|exact Hb]. eapply mem_inv_frame; eassumption.
        - eapply mem_inv_frame; eassumption. }
      assert (Hl2' : rwlock o2 = rwlock o0) by congruence.
      destruct rebuildRet; cbn [PMState_eqb negb] in Hrun.
      * apply (IH o0 o2 o'); try assumption. rewrite Hu2. exact Hz1tl.
      * injection Hrun as <-. split; assumption.
Qed.

(** Whatever the lock calls answer, a read loop that is left keeps the
    region and the reference counts, and adds nothing but rebuilds to the
    trace. *)
Lemma PurgMemBeginRead_loop_mem_inv fuel : forall o0 o ret o',
  mem_inv o0 o ->
  PurgMemBeginRead_loop fuel o = Some (ret, o') ->
  mem_inv o0 o'.
Proof.
  induction fuel as [|fuel IH]; intros o0 o ret o' Hinv Hrun; [discriminate|].
  cbn [PurgMemBeginRead_loop] in Hrun.
  destruct (TryBeginRead o) as [[st o1]|] eqn:Htry; [|discriminate].
  cbn [mbind option_bind fst snd] in Hrun.
  destruct (TryBeginRead_cases o st o1 Htry) as (Hs1 & _ & Hcases).
  assert (Hinv1 : mem_inv o0 o1) by (eapply mem_inv_frame; eassumption).
  destruct Hcases as [(-> & _)|[(-> & _)|[(-> & _)|(-> & _)]]];
    try (injection Hrun as _ <-; exact Hinv1).
  destruct (BeginReadBuildData o1) as [[st2 o2]|] eqn:Hbuild; [|discriminate].
  cbn [mbind option_bind fst snd] in Hrun.
  assert (Hinv2 : mem_inv o0 o2).
  { destruct (BeginReadBuildData_cases o1 st2 o2 Hbuild)
      as (_ & [(_ & _ & Hs2 & _)|
               (_ & _ & oa & rebuildRet & ob & Hsa & _ & _ & Hmid & Hsb & _)]).
    - eapply mem_inv_frame; eassumption.
    - eapply mem_inv_frame; [|exact Hsb].
      destruct Hmid as [[_ Hb]|(_ & _ & ->)].
      + eapply mem_inv_build; [|exact Hb]. eapply mem_inv_frame; eassumption.
      + eapply mem_inv_frame; eassumption. }
  destruct (negb (PMState_eqb st2 PMB_BUILD_ALL_SUCC)).
  - injection Hrun as _ <-. exact Hinv2.
  - eapply IH; eassumption.
Qed.

End FailedBegin.

Section PinUnpin.
Context `{Platform}.

Lemma pin_fields o o1 :
  pin o = Some o1 ->
  UxpteGet (uxPageTable o) (dataPtr o) (dataSizeInput o) = Some (uxPageTable o1) /\
  dataPtr o1 = dataPtr o /\ dataSizeInput o1 = dataSizeInput o /\
  builder o1 = builder o /\ rwlock o1 = rwlock o /\
  lock_rets o1 = lock_rets o /\ unlock_rets o1 = unlock_rets o /\
  buildDataCount o1 = buildDataCount o /\ data o1 = data o /\
  trace o1 = trace o ++ [EvUxpteGet (dataPtr o) (dataSizeInput o)].
Proof.
  unfold pin. destruct (UxpteGet _ _ _) as [upt|]; [|discriminate].
  cbn [mbind option_bind]. intros [= <-]. repeat split.
Qed.

Lemma unpin_fields o o1 :
  unpin o = Some o1 ->
  UxptePut (uxPageTable o) (dataPtr o) (dataSizeInput o) = Some (uxPageTable o1) /\
  dataPtr o1 = dataPtr o /\ dataSizeInput o1 = dataSizeInput o /\
  builder o1 = builder o /\ rwlock o1 = rwlock o /\
  lock_rets o1 = lock_rets o /\ unlock_rets o1 = unlock_rets o /\
  buildDataCount o1 = buildDataCount o /\ data o1 = data o /\
  trace o1 = trace o ++ [EvUxptePut (dataPtr o) (dataSizeInput o)].
Proof.
  unfold unpin. destruct (UxptePut _ _ _) as [upt|]; [|discriminate].
  cbn [mbind option_bind]. intros [= <-]. repeat split.
Qed.

Lemma refcnt_unpin pte pte' :
  0 <= pte < UXPTE_UNDER_RECLAIM ->
  refcnt pte' = refcnt (pte + 2) ->
  refcnt (u64 (pte' - 2)) = refcnt pte.
Proof.
  rewrite UXPTE_UNDER_RECLAIM_val. unfold refcnt, UXPTE_PRESENT_BIT.
  rewrite !Z.shiftr_div_pow2 by lia. change (2 ^ 1) with 2.
  intros Hp Heq.
  assert (Hr : 2 <= pte' < 2 ^ 64) by (Z.div_mod_to_equations; lia).
  rewrite u64_small by lia. Z.div_mod_to_equations. lia.
Qed.

(** Pin, any change of present bits, unpin: the reference counts are back. *)
Lemma get_put_refcnts o u1 u2 u3 :
  region_ok o -> pinnable o ->
  UxpteGet (uxPageTable o) (dataPtr o) (dataSizeInput o) = Some u1 ->
  refcnts u2 = refcnts u1 ->
  UxptePut u2 (dataPtr o) (dataSizeInput o) = Some u3 ->
  refcnts u3 = refcnts (uxPageTable o).
Proof.
  intros Hok Hpin Hget Hdrift Hput.
  unfold UxpteGet in Hget. unfold UxptePut in Hput.
  destruct g_supportUxpt eqn:Hsupp; cbn [negb] in Hget, Hput.
  2:{ injection Hget as <-. injection Hput as <-. exact Hdrift. }
  pose proof Hok as (_ & _ & _ & _ & _ & _ & Htab).
  destruct (Htab Hsupp) as (t & Ht & Htok & HdA & HdS).
  pose proof Htok as (HA & HS & Htop & ptes & Hptes & Hlen).
  destruct (region_range o t Hok Hsupp Ht) as (_ & Haddr & Hstart & Hend).
  rewrite Ht in Hget.
  rewrite (UxpteOps_update t ptes) in Hget by (try assumption; try discriminate; lia).
  cbn [mbind option_bind snd] in Hget. injection Hget as <-.
  unfold refcnts in Hdrift.
  destruct u2 as [t2|]; cbn [mbind option_bind set_uxpte dataAddr dataSize uxpte] in Hdrift;
    [|discriminate].
  injection Hdrift as HA2 HS2 Hp2.
  destruct (uxpte t2) as [ptes2|] eqn:Hptes2; cbn [fmap option_fmap option_map] in Hp2;
    [|discriminate].
  injection Hp2 as Hp2.
  assert (Hlen2 : length ptes2 = length ptes).
  { apply (f_equal length) in Hp2. rewrite !length_fmap, update_range_length in Hp2.
    exact Hp2. }
  assert (Htok2 : table_ok t2).
  { unfold table_ok. rewrite HA2, HS2. repeat split; try assumption.
    exists ptes2. split; [exact Hptes2 | congruence]. }
  rewrite (UxpteOps_update t2 ptes2) in Hput
    by (try assumption; try discriminate; rewrite ?HA2, ?HS2; lia).
  cbn [mbind option_bind snd] in Hput. injection Hput as <-.
  unfold refcnts. rewrite Ht.
  cbn [mbind option_bind set_uxpte dataAddr dataSize uxpte fmap option_fmap option_map].
  rewrite Hptes. cbn [fmap option_fmap option_map]. rewrite HA2, HS2. do 3 f_equal.
  assert (Hfi : first_index t2 (dataPtr o) = first_index t (dataPtr o))
    by (unfold first_index; rewrite HA2; reflexivity).
  rewrite Hfi.
  apply list_eq. intros k.
  apply (f_equal (fun l => l !! k)) in Hp2.
  rewrite !list_lookup_fmap in Hp2. rewrite !list_lookup_fmap.
  rewrite update_range_lookup in Hp2. rewrite update_range_lookup.
  unfold uxpte_t in *.
  destruct (ptes !! k) as [pte|] eqn:Hk; destruct (ptes2 !! k) as [pte2|] eqn:Hk2;
    cbn [fmap option_fmap option_map] in Hp2 |- *; try discriminate; [|reflexivity].
  injection Hp2 as Hp2. f_equal.
  destruct ((first_index t (dataPtr o) <=? k)%nat
            && (k <? first_index t (dataPtr o) + page_count (dataPtr o) (dataSizeInput o))%nat)
    eqn:Hin; [|exact Hp2].
  cbn [word_op] in Hp2 |- *.
  assert (Hcov : covered t (dataPtr o) (dataSizeInput o) k).
  { apply (covered_interval t ptes); try assumption; try lia.
    apply andb_true_iff in Hin. destruct Hin as [Hle Hlt].
    apply Nat.leb_le in Hle. apply Nat.ltb_lt in Hlt. lia. }
  pose proof (Hpin t ptes k pte Ht Hptes Hcov Hk) as Hrange.
  rewrite pin_word_pinnable in Hp2 by exact Hrange.
  apply refcnt_unpin; assumption.
Qed.

End PinUnpin.

(** C3 as stated has the reference count of every covered descriptor back
    where it was after a failed begin, and no lock held.  With the
    descriptor of the page at the last odd value, the get skips the page and
    the put of the failure path still subtracts; the same happens from the
    under-reclaim value.  And when the unlock of the failure path fails, the
    begin calls return false holding the lock they took: the write lock
    after the failed rebuild of a write begin, the read lock of a read begin
    that found the region purged.  (The region has one builder, which
    fails.) *)
Lemma failed_begin_not_undone :
  let chain := [ {| Build := fail_func; param := 0 |} ] in
  let o := region_4000 chain (2 ^ 64 - 1) 0 (replicate 4096 x00) in
  let o_reclaim := region_4000 chain UXPTE_UNDER_RECLAIM 0 (replicate 4096 x00) in
  let o_unlock := set_unlock_rets (region_4000 chain 1 0 (replicate 4096 x00)) [1] in
  (exists o',
     @PurgMemBeginRead (page4k true) 2 (Some o) = Some (false, Some o') /\
     (t ← uxPageTable o; ptes ← uxpte t; ptes !! 16%nat) = Some (2 ^ 64 - 1) /\
     (t ← uxPageTable o'; ptes ← uxpte t; ptes !! 16%nat) = Some (2 ^ 64 - 3) /\
     refcnts (uxPageTable o') <> refcnts (uxPageTable o)) /\
  (exists o',
     @PurgMemBeginWrite (page4k true) (Some o_reclaim) = Some (false, Some o') /\
     (t ← uxPageTable o'; ptes ← uxpte t; ptes !! 16%nat) = Some (2 ^ 64 - 3) /\
     refcnts (uxPageTable o') <> refcnts (uxPageTable o_reclaim)) /\
  (exists o',
     @PurgMemBeginWrite (page4k true) (Some o_unlock) = Some (false, Some o') /\
     rwlock o_unlock = RwUnlocked /\ rwlock o' = RwWrite) /\
  (exists o',
     @PurgMemBeginRead (page4k true) 2 (Some o_unlock) = Some (false, Some o') /\
     rwlock o_unlock = RwUnlocked /\ rwlock o' = RwRead 0).
Proof.
  intros chain o o_reclaim o_unlock. split; [|split; [|split]].
  - eexists. split; [vm_compute; reflexivity|].
    split; [reflexivity|]. split; [reflexivity|].
    vm_compute. discriminate.
  - eexists. split; [vm_compute; reflexivity|].
    split; [reflexivity|]. vm_compute. discriminate.
  - eexists. split; [vm_compute; reflexivity|]. split; reflexivity.
  - eexists. split; [vm_compute; reflexivity|]. split; reflexivity.
Qed.

(** C3, amended.  A begin that returns false on a live region has made
    exactly one get and, last, one put, both on (data, sizeInput), with
    nothing but rebuilds in between, whatever the descriptors hold and
    whatever the lock calls answer; where the get could pin every covered
    descriptor the reference counts are all back where they were, and where
    the unlock calls of the failure path succeed the lock is as the call
    found it. *)
Theorem failed_begin_unpins `{Platform} :
  forall fuel o r,
    region_ok o -> IsPurgMemPtrValid (Some o) = true ->
    PurgMemBeginRead fuel (Some o) = Some (false, r) \/
    PurgMemBeginWrite (Some o) = Some (false, r) ->
    exists o' builds,
      r = Some o' /\
      trace o' = trace o ++ [EvUxpteGet (dataPtr o) (dataSizeInput o)] ++ builds
                         ++ [EvUxptePut (dataPtr o) (dataSizeInput o)] /\
      builds_only builds /\
      (pinnable o -> refcnts (uxPageTable o') = refcnts (uxPageTable o)) /\
      (Forall (eq 0) (unlock_rets o) -> rwlock o' = rwlock o).
Proof.
  intros fuel o r Hok Hvalid [Hrun|Hrun].
  - unfold PurgMemBeginRead in Hrun. rewrite Hvalid in Hrun.
    cbn [negb mbind option_bind] in Hrun.
    destruct (pin o) as [o1|] eqn:Hp1; [|discriminate]. cbn [mbind option_bind] in Hrun.
    destruct (PurgMemBeginRead_loop fuel o1) as [[ret o2]|] eqn:Hloop; [|discriminate].
    cbn [mbind option_bind fst snd] in Hrun.
    destruct ret; cbn [negb] in Hrun; [discriminate|].
    destruct (unpin o2) as [o3|] eqn:Hp3; [|discriminate].
    cbn [mbind option_bind] in Hrun. injection Hrun as <-.
    destruct (pin_fields o o1 Hp1) as (Hget & Hd1 & Hs1 & _ & Hl1 & _ & Hu1 & _ & _ & Ht1).
    destruct (PurgMemBeginRead_loop_mem_inv fuel o1 o1 false o2 (mem_inv_refl o1) Hloop)
      as (Hd2 & Hs2 & _ & Hr2 & builds & Ht2 & Hbo).
    destruct (unpin_fields o2 o3 Hp3) as (Hput & _ & _ & _ & Hl3 & _ & _ & _ & _ & Ht3).
    exists o3, builds. split; [reflexivity|]. split.
    { rewrite Ht3, Ht2, Ht1, Hd2, Hs2, Hd1, Hs1. rewrite <- !app_assoc. reflexivity. }
    split; [exact Hbo|]. split.
    + intros Hpin. rewrite Hd2, Hs2, Hd1, Hs1 in Hput.
      exact (get_put_refcnts o _ _ _ Hok Hpin Hget Hr2 Hput).
    + intros Hz.
      destruct (PurgMemBeginRead_loop_failed fuel o1 o1 o2 (mem_inv_refl o1) eq_refl
                  ltac:(rewrite Hu1; exact Hz) Hloop) as (_ & Hl2).
      congruence.
  - unfold PurgMemBeginWrite in Hrun. rewrite Hvalid in Hrun.
    cbn [negb mbind option_bind] in Hrun.
    destruct (pin o) as [o1|] eqn:Hp1; [|discriminate]. cbn [mbind option_bind] in Hrun.
    destruct (pin_fields o o1 Hp1) as (Hget & Hd1 & Hs1 & _ & Hl1 & _ & Hu1 & _ & _ & Ht1).
    destruct (wrlock o1) as [[ret o2]|] eqn:Hwr; [|discriminate].
    cbn [mbind option_bind fst snd] in Hrun.
    destruct (wrlock_fields o1 ret o2 Hwr)
      as ((Hd2 & Hs2 & _ & Hx2 & _ & _ & Ht2) & _ & _ & Hu2 & Hfail & Hacq).
    destruct (ret =? 0) eqn:E; cbn [negb] in Hrun.
    + apply Z.eqb_eq in E. destruct (Hacq E) as [Hfree Hlock].
      destruct (IsPurged o2) as [purged|]; [|discriminate].
      cbn [mbind option_bind] in Hrun.
      destruct purged; cbn [negb] in Hrun; [|discriminate].
      destruct (PurgMemBuildData o2) as [[succ o3]|] eqn:Hb; [|discriminate].
      cbn [mbind option_bind fst snd] in Hrun.
      destruct succ; [discriminate|].
      destruct (PurgMemBuildData_frame o2 false o3 Hb)
        as (Hd3 & Hs3 & _ & Hl3 & _ & Hu3 & Ht3 & _ & Hr3).
      destruct (unlock o3) as [[uret o4]|] eqn:Hun; [|discriminate].
      cbn [mbind option_bind fst snd] in Hrun.
      destruct (unlock_fields o3 uret o4 Hun)
        as ((Hd4 & Hs4 & _ & Hx4 & _ & _ & Ht4) & Huret & _ & _ & _ & Hrel).
      destruct (unpin o4) as [o5|] eqn:Hp5; [|discriminate].
      cbn [mbind option_bind] in Hrun. injection Hrun as <-.
      destruct (unpin_fields o4 o5 Hp5) as (Hput & _ & _ & _ & Hl5 & _ & _ & _ & _ & Ht5).
      exists o5, [EvBuildData false]. split; [reflexivity|]. split.
      { rewrite Ht5, Ht4, Ht3, Ht2, Ht1, Hd4, Hs4, Hd3, Hs3, Hd2, Hs2, Hd1, Hs1.
        rewrite <- !app_assoc. reflexivity. }
      split; [constructor; [eexists; reflexivity | constructor]|]. split.
      * intros Hpin. rewrite Hd4, Hs4, Hd3, Hs3, Hd2, Hs2, Hd1, Hs1 in Hput.
        apply (get_put_refcnts o _ (uxPageTable o4) _ Hok Hpin Hget); [|exact Hput].
        rewrite Hx4, Hr3, Hx2. reflexivity.
      * intros Hz.
        assert (Hz3 : Forall (eq 0) (unlock_rets o3)) by (rewrite Hu3, Hu2, Hu1; exact Hz).
        destruct (next_ret_zero _ Hz3) as [Hz30 _].
        destruct (Hrel ltac:(congruence)) as [[Hnw _]|[_ Hr]]; congruence.
    + apply Z.eqb_neq in E.
      destruct (unpin o2) as [o3|] eqn:Hp3; [|discriminate].
      cbn [mbind option_bind] in Hrun. injection Hrun as <-.
      destruct (unpin_fields o2 o3 Hp3) as (Hput & _ & _ & _ & Hl3 & _ & _ & _ & _ & Ht3).
      exists o3, []. split; [reflexivity|]. split.
      { rewrite Ht3, Ht2, Ht1, Hd2, Hs2, Hd1, Hs1. rewrite <- !app_assoc. reflexivity. }
      split; [constructor|]. split.
      * intros Hpin. rewrite Hd2, Hs2, Hd1, Hs1 in Hput.
        apply (get_put_refcnts o _ (uxPageTable o2) _ Hok Hpin Hget); [|exact Hput].
        rewrite Hx2. reflexivity.
      * intros _. rewrite Hl3, (Hfail E). exact Hl1.
Qed.

(** ** The first read of a region *)

Section FirstRead.
Context `{Platform}.

Lemma region_ok_frame o o' : region_ok o -> same_but_lock o o' -> region_ok o'.
Proof.
  intros (Hsz & Hptr & Hal & Htop & Hlen & Hcnt & Htab) (Hp & Hs & _ & Hu & Hc & Hd & _).
  unfold region_ok. rewrite Hp, Hs, Hu, Hc, Hd. repeat split; try assumption; lia.
Qed.

Lemma table_ok_set_uxpte t (ptes ptes' : list uxpte_t) :
  table_ok t -> uxpte t = Some ptes -> length ptes' = length ptes ->
  table_ok (set_uxpte t ptes').
Proof.
  intros (HA & HS & Htop & ptes0 & Hp0 & Hlen) Hp Hl.
  rewrite Hp in Hp0. injection Hp0 as <-.
  unfold table_ok. cbn [set_uxpte dataAddr dataSize uxpte]. repeat split; try assumption.
  exists ptes'. split; [reflexivity | congruence].
Qed.

Lemma region_ok_pin o o1 : region_ok o -> pin o = Some o1 -> region_ok o1.
Proof.
  intros Hok Hp.
  destruct (pin_fields o o1 Hp) as (Hget & Hd & Hs & _ & _ & _ & _ & Hc & Hdata & _).
  pose proof Hok as (Hsz & Hptr & Hal & Htop & Hlen & Hcnt & Htab).
  unfold region_ok. rewrite Hd, Hs, Hc, Hdata. repeat split; try assumption; try lia.
  intros Hsupp. destruct (Htab Hsupp) as (t & Ht & Htok & HdA & HdS).
  pose proof Htok as (_ & _ & _ & ptes & Hptes & _).
  destruct (region_range o t Hok Hsupp Ht) as (_ & Haddr & Hstart & Hend).
  unfold UxpteGet in Hget. rewrite Hsupp, Ht in Hget. cbn [negb] in Hget.
  rewrite (UxpteOps_update t ptes) in Hget by (try assumption; try discriminate; lia).
  cbn [mbind option_bind snd] in Hget. injection Hget as Hget.
  eexists. split; [symmetry; exact Hget|]. split; [|split; assumption].
  eapply table_ok_set_uxpte; [exact Htok | exact Hptes | apply update_range_length].
Qed.

Lemma present_lor pte : IsUxptePresent (Z.lor pte UXPTE_PRESENT_MASK) = true.
Proof.
  rewrite IsUxptePresent_odd, UXPTE_PRESENT_MASK_val.
  rewrite <- Z.bit0_odd, Z.lor_spec, !Z.bit0_odd. apply orb_true_r.
Qed.

(** Once the rebuild has stored to the pages of the region, the table
    reports them present. *)
Lemma present_after_populate o :
  region_ok o ->
  UxpteIsPresent (kernel_populate (uxPageTable o) (dataPtr o) (dataSizeInput o))
                 (dataPtr o) (dataSizeInput o) = Some true.
Proof.
  intros Hok. destruct g_supportUxpt eqn:Hsupp; [|apply UxpteIsPresent_off; exact Hsupp].
  pose proof Hok as (Hsz & Hptr & Hal & Htop & Hlen & Hcnt & Htab).
  destruct (Htab Hsupp) as (t & Ht & Htok & HdA & HdS).
  pose proof Htok as (HA & HS & Htop' & ptes & Hptes & Hplen).
  destruct (region_range o t Hok Hsupp Ht) as (_ & Haddr & Hstart & Hend).
  pose proof PAGE_SIZE_range as Hp.
  unfold kernel_populate. rewrite Hsupp, Ht, Hptes. cbn [negb orb].
  replace (dataSizeInput o <=? 0) with false by (symmetry; apply Z.leb_gt; lia).
  match goal with |- context [imap ?f ptes] => set (ptes' := imap f ptes) end.
  assert (Hl' : length ptes' = length ptes) by apply length_imap.
  pose proof (table_ok_set_uxpte t ptes ptes' Htok Hptes Hl') as Htok'.
  unfold UxpteIsPresent. rewrite Hsupp. cbn [negb].
  rewrite (UxpteOps_present (set_uxpte t ptes') ptes')
    by (try assumption; try reflexivity; cbn [set_uxpte dataAddr dataSize]; lia).
  cbn [mbind option_bind fst].
  assert (Hall : forallb IsUxptePresent
            (take (page_count (dataPtr o) (dataSizeInput o))
                  (drop (first_index (set_uxpte t ptes') (dataPtr o)) ptes')) = true).
  { change (first_index (set_uxpte t ptes') (dataPtr o)) with (first_index t (dataPtr o)).
    apply forallb_present_range. intros k pte' Hk Hpte'.
    unfold ptes' in Hpte'. rewrite list_lookup_imap in Hpte'.
    unfold uxpte_t in *.
    destruct (ptes !! k) as [pte|] eqn:Hpk;
      cbn [fmap option_fmap option_map] in Hpte'; [|discriminate].
    injection Hpte' as <-.
    assert (Hfirst : Z.of_nat (first_index t (dataPtr o))
                     = GetIndexInUxpte (dataAddr t) (dataPtr o)).
    { unfold first_index. rewrite Hstart, <- HdA. apply Z2Nat.id.
      unfold GetIndexInUxpte. apply u64_range. }
    assert (Hpages : Z.of_nat (page_count (dataPtr o) (dataSizeInput o))
                     = VirtPageNo (dataPtr o + dataSizeInput o - 1) - VirtPageNo (dataPtr o) + 1).
    { unfold page_count. rewrite Hstart, Hend, !VirtPageNo_div.
      replace (dataAddr t + dataSize t - dataAddr t) with (dataSize t) by lia.
      assert (Hge : dataSizeInput o <= RoundUp (dataSizeInput o) PAGE_SIZE)
        by (apply RoundUp_ge; lia).
      rewrite HdS, RoundUp_page by lia.
      assert (Hne : PAGE_SIZE <> 0) by lia.
      rewrite Z.mul_comm, Z.div_mul by exact Hne.
      pose proof (Z.div_mod (dataPtr o) PAGE_SIZE Hne) as Hdm. rewrite Hal, Z.add_0_r in Hdm.
      remember (dataPtr o / PAGE_SIZE) as q eqn:Hq.
      replace (dataPtr o + dataSizeInput o - 1) with (q * PAGE_SIZE + (dataSizeInput o - 1))
        by lia.
      rewrite Z.div_add_l by exact Hne.
      replace (dataSizeInput o + PAGE_SIZE - 1) with (1 * PAGE_SIZE + (dataSizeInput o - 1))
        by lia.
      rewrite Z.div_add_l by exact Hne.
      assert (0 <= (dataSizeInput o - 1) / PAGE_SIZE) by (apply Z.div_pos; lia).
      rewrite Z2Nat.id; lia. }
    rewrite <- Hfirst, <- Hpages.
    replace (Z.of_nat (first_index t (dataPtr o)) <=? Z.of_nat k) with true
      by (symmetry; apply Z.leb_le; lia).
    replace (Z.of_nat k <? Z.of_nat (first_index t (dataPtr o))
                           + Z.of_nat (page_count (dataPtr o) (dataSizeInput o))) with true
      by (symmetry; apply Z.ltb_lt; lia).
    apply present_lor. }
  match goal with
  | |- context [forallb ?f ?l] => replace (forallb f l) with true by (symmetry; exact Hall)
  end.
  reflexivity.
Qed.

End FirstRead.

Section UnbuiltLoop.
Context `{Platform}.

Lemma IsPurged_unbuilt o : buildDataCount o = 0 -> IsPurged o = Some true.
Proof. intros Hz. unfold IsPurged. rewrite Hz. reflexivity. Qed.

Lemma zeroed_frame o o' : same_but_lock o o' -> zeroed o' = zeroed o.
Proof. intros (_ & Hs & _ & _ & _ & Hd & _). unfold zeroed. rewrite Hs, Hd. reflexivity. Qed.

(** The read loop entered on a live region that was never built: at most
    one rebuild is run, and the loop is left with [ret = true] only after
    that rebuild has succeeded. *)
Lemma PurgMemBeginRead_loop_unbuilt fuel o ret o' :
  region_ok o -> buildDataCount o = 0 ->
  PurgMemBeginRead_loop fuel o = Some (ret, o') ->
  dataPtr o' = dataPtr o /\ dataSizeInput o' = dataSizeInput o /\ builder o' = builder o /\
  ((ret = false /\
    (trace o' = trace o \/ exists succ, trace o' = trace o ++ [EvBuildData succ])) \/
   (ret = true /\ trace o' = trace o ++ [EvBuildData true] /\ buildDataCount o' = 1 /\
    PurgMemBuilderBuildAll (builder o) (zeroed o) (dataSizeInput o) = (true, data o'))).
Proof.
  intros Hok Hzero Hrun.
  destruct fuel as [|fuel]; [discriminate|].
  cbn [PurgMemBeginRead_loop] in Hrun.
  destruct (TryBeginRead o) as [[st o1]|] eqn:Htry; [|discriminate].
  cbn [mbind option_bind fst snd] in Hrun.
  pose proof (IsPurged_unbuilt o Hzero) as Hpurged.
  destruct (TryBeginRead_cases o st o1 Htry)
    as (Hs1 & _ & [(-> & _)|[(-> & _ & Hnp & _)|[(-> & _)|(-> & _)]]]);
    pose proof Hs1 as (Hd1 & Hz1 & Hb1 & Hu1 & Hc1 & Hdata1 & Ht1).
  - injection Hrun as <- <-. repeat split; try assumption. left. split; [reflexivity|].
    left. exact Ht1.
  - congruence.
  - injection Hrun as <- <-. repeat split; try assumption. left. split; [reflexivity|].
    left. exact Ht1.
  - destruct (BeginReadBuildData o1) as [[st2 o2]|] eqn:Hbuild; [|discriminate].
    cbn [mbind option_bind fst snd] in Hrun.
    destruct (BeginReadBuildData_cases o1 st2 o2 Hbuild)
      as (_ & [(-> & _ & Hs2 & _)|
               (_ & _ & oa & rebuildRet & ob & Hsa & _ & _ & Hmid & Hsb & _ & Hend)]).
    + cbn [PMState_eqb negb] in Hrun. injection Hrun as <- <-.
      pose proof Hs2 as (Hd2 & Hz2 & Hb2 & _ & _ & _ & Ht2).
      repeat split; try congruence. left. split; [reflexivity|]. left. congruence.
    + rewrite (IsPurged_frame o o1 Hs1), Hpurged in Hmid.
      destruct Hmid as [[_ Hb]|[Habs _]]; [|discriminate].
      assert (Hsoa : same_but_lock o oa) by (eapply same_but_lock_trans; eassumption).
      pose proof (region_ok_frame o oa Hok Hsoa) as Hoka.
      destruct (PurgMemBuildData_fields oa Hoka)
        as (succ & ob' & Hrun' & Hdb & Hzb & Hbb & _ & _ & _ & Htb & Hcb & _ & Hsucc & _).
      rewrite Hb in Hrun'. injection Hrun' as <- <-.
      pose proof Hsoa as (Hda & Hza & Hba & Hua & Hca & Hdataa & Hta).
      pose proof Hsb as (Hd2 & Hz2 & Hb2 & Hu2 & Hc2 & Hdata2 & Ht2).
      assert (Hframe : dataPtr o2 = dataPtr o /\ dataSizeInput o2 = dataSizeInput o /\
                       builder o2 = builder o) by (repeat split; congruence).
      assert (Htrace : trace o2 = trace o ++ [EvBuildData rebuildRet]) by congruence.
      destruct Hend as [(-> & _)|(_ & _ & ->)].
      * cbn [PMState_eqb negb] in Hrun. injection Hrun as <- <-.
        destruct Hframe as (? & ? & ?). repeat split; try assumption.
        left. split; [reflexivity|]. right. eexists. exact Htrace.
      * destruct rebuildRet; cbn [PMState_eqb negb] in Hrun.
        2:{ injection Hrun as <- <-.
            destruct Hframe as (? & ? & ?). repeat split; try assumption.
            left. split; [reflexivity|]. right. eexists. exact Htrace. }
        destruct (Hsucc eq_refl) as [Hbuilt Hpop].
        assert (Hcount2 : buildDataCount o2 = 1).
        { rewrite Hc2, Hcb, Hca, Hzero. reflexivity. }
        assert (Hnp2 : IsPurged o2 = Some false).
        { unfold IsPurged. rewrite Hcount2. cbn [Z.eqb].
          rewrite Hu2, Hpop, Hd2, Hz2, Hdb, Hzb.
          rewrite (present_after_populate oa Hoka). reflexivity. }
        destruct fuel as [|fuel]; [discriminate|].
        cbn [PurgMemBeginRead_loop] in Hrun.
        destruct (TryBeginRead o2) as [[st3 o3]|] eqn:Htry3; [|discriminate].
        cbn [mbind option_bind fst snd] in Hrun.
        destruct (TryBeginRead_cases o2 st3 o3 Htry3)
          as (Hs3 & _ & [(-> & _)|[(-> & _)|[(-> & _ & Hp3 & _)|(-> & _ & Hp3 & _)]]]);
          pose proof Hs3 as (Hd3 & Hz3 & Hb3 & Hu3 & Hc3 & Hdata3 & Ht3);
          try congruence; injection Hrun as <- <-;
          destruct Hframe as (? & ? & ?); (repeat split; try congruence).
        -- left. split; [reflexivity|]. right. exists true. rewrite Ht3. exact Htrace.
        -- right. split; [reflexivity|]. split; [rewrite Ht3; exact Htrace|].
           split; [congruence|].
           rewrite Hdata3, Hdata2. rewrite <- Hbuilt.
           rewrite (zeroed_frame o oa Hsoa), Hba, Hza. reflexivity.
Qed.

End UnbuiltLoop.

(** ** Reads with the capability off *)

Section CapabilityOff.
Context `{Platform}.
Hypothesis Hoff : g_supportUxpt = false.









End CapabilityOff.

(** What a read of a never-built live region does, in either mode of the
    capability. *)
Lemma PurgMemBeginRead_unbuilt `{Platform} fuel o ret r :
  region_ok o -> IsPurgMemPtrValid (Some o) = true -> buildDataCount o = 0 ->
  PurgMemBeginRead fuel (Some o) = Some (ret, r) ->
  exists o' builds,
    r = Some o' /\
    dataSizeInput o' = dataSizeInput o /\
    trace o' = trace o ++ [EvUxpteGet (dataPtr o) (dataSizeInput o)] ++ builds
                       ++ (if ret then [] else [EvUxptePut (dataPtr o) (dataSizeInput o)]) /\
    (builds = [] \/ exists succ, builds = [EvBuildData succ]) /\
    (ret = true ->
       builds = [EvBuildData true] /\ buildDataCount o' = 1 /\
       PurgMemBuilderBuildAll (builder o) (zeroed o) (dataSizeInput o) = (true, data o')).
Proof.
  intros Hok Hvalid Hzero Hrun.
  unfold PurgMemBeginRead in Hrun. rewrite Hvalid in Hrun.
  cbn [negb mbind option_bind] in Hrun.
  destruct (pin o) as [o1|] eqn:Hp1; [|discriminate]. cbn [mbind option_bind] in Hrun.
  destruct (pin_fields o o1 Hp1) as (_ & Hd1 & Hs1 & Hb1 & _ & _ & _ & Hc1 & Hdata1 & Ht1).
  pose proof (region_ok_pin o o1 Hok Hp1) as Hok1.
  destruct (PurgMemBeginRead_loop fuel o1) as [[ret' o2]|] eqn:Hloop; [|discriminate].
  cbn [mbind option_bind fst snd] in Hrun.
  destruct (PurgMemBeginRead_loop_unbuilt fuel o1 ret' o2 Hok1 ltac:(congruence) Hloop)
    as (Hd2 & Hs2 & _ & Hcases).
  assert (Hzeroed : zeroed o1 = zeroed o) by (unfold zeroed; rewrite Hs1, Hdata1; reflexivity).
  destruct Hcases as [(-> & Htr)|(-> & Htr & Hcnt & Hbuilt)]; cbn [negb] in Hrun.
  - destruct (unpin o2) as [o3|] eqn:Hp3; [|discriminate].
    cbn [mbind option_bind] in Hrun. injection Hrun as <- <-.
    destruct (unpin_fields o2 o3 Hp3) as (_ & _ & Hs3 & _ & _ & _ & _ & _ & _ & Ht3).
    destruct Htr as [Htr|[succ Htr]].
    + exists o3, []. split; [reflexivity|]. split; [congruence|]. split.
      { rewrite Ht3, Htr, Ht1, Hd2, Hs2, Hd1, Hs1. rewrite <- !app_assoc. reflexivity. }
      split; [left; reflexivity | discriminate].
    + exists o3, [EvBuildData succ]. split; [reflexivity|]. split; [congruence|]. split.
      { rewrite Ht3, Htr, Ht1, Hd2, Hs2, Hd1, Hs1. rewrite <- !app_assoc. reflexivity. }
      split; [right; eexists; reflexivity | discriminate].
  - injection Hrun as <- <-.
    exists o2, [EvBuildData true]. split; [reflexivity|]. split; [congruence|]. split.
    { rewrite Htr, Ht1. rewrite <- !app_assoc. reflexivity. }
    split; [right; eexists; reflexivity|].
    intros _. split; [reflexivity|]. split; [exact Hcnt|].
    rewrite <- Hbuilt, Hb1, Hzeroed, Hs1. reflexivity.
Qed.



(** ** Creating a region *)

Section Create.
Context `{Platform}.

Lemma RoundUp_twice a n :
  0 <= a -> a mod PAGE_SIZE = 0 -> 0 <= n < 2 ^ 64 ->
  a + RoundUp n PAGE_SIZE < 2 ^ 64 - PAGE_SIZE ->
  RoundUp (a + RoundUp n PAGE_SIZE) PAGE_SIZE = a + RoundUp n PAGE_SIZE.
Proof.
  intros Ha Hal Hn Htop. pose proof PAGE_SIZE_range as Hp.
  assert (Hne : PAGE_SIZE <> 0) by lia.
  pose proof (RoundUp_ge n Hn) as Hge.
  assert (Hn2 : n + PAGE_SIZE < 2 ^ 64) by lia.
  pose proof (RoundUp_page n ltac:(lia) Hn2) as Hru.
  remember ((n + PAGE_SIZE - 1) / PAGE_SIZE) as c eqn:Hc.
  rewrite Hru in *.
  rewrite RoundUp_page by lia.
  pose proof (Z.div_mod a PAGE_SIZE Hne) as Hd. rewrite Hal, Z.add_0_r in Hd.
  remember (a / PAGE_SIZE) as q eqn:Hq.
  replace (a + PAGE_SIZE * c + PAGE_SIZE - 1) with ((q + c) * PAGE_SIZE + (PAGE_SIZE - 1))
    by lia.
  rewrite Z.div_add_l by exact Hne.
  rewrite Z.div_small by lia. lia.
Qed.

(** The table [InitUxPageTable] builds over a fresh mapping. *)
Lemma InitUxPageTable_ok env t0 a n st upt :
  0 < a -> a mod PAGE_SIZE = 0 -> 0 < n < 2 ^ 64 ->
  a + RoundUp n PAGE_SIZE < 2 ^ 64 - PAGE_SIZE ->
  InitUxPageTable env (Some t0) a (RoundUp n PAGE_SIZE) = Some (st, upt) ->
  st = PM_OK ->
  upt <> None /\
  (g_supportUxpt = true ->
   exists t, upt = Some t /\ table_ok t /\ dataAddr t = a /\
             dataSize t = RoundUp n PAGE_SIZE).
Proof.
  intros Ha Hal Hn Htop Hinit ->. pose proof PAGE_SIZE_range as Hp.
  pose proof (RoundUp_ge n ltac:(lia)) as Hge.
  unfold InitUxPageTable in Hinit.
  destruct g_supportUxpt eqn:Hsupp; cbn [negb] in Hinit.
  2:{ injection Hinit as <-. split; [discriminate | intros Hx; discriminate]. }
  cbn [uxpte] in Hinit.
  destruct (MapUxptePages env a (RoundUp n PAGE_SIZE)) as [ptes|] eqn:Hmap; [|discriminate].
  set (t := {| dataAddr := a; dataSize := RoundUp n PAGE_SIZE; uxpte := Some ptes |}) in *.
  assert (Htok : table_ok t).
  { unfold table_ok. cbn [t dataAddr dataSize uxpte]. split; [lia|]. split; [lia|].
    split; [lia|]. exists ptes. split; [reflexivity|].
    unfold MapUxptePages in Hmap.
    destruct (mmap_uxpte_ok env && negb (GetUxPageSize a (RoundUp n PAGE_SIZE) =? 0));
      [|discriminate].
    injection Hmap as <-. rewrite length_map, length_seq. apply Z2Nat.id.
    apply Z.shiftr_nonneg. rewrite GetUxPageSize_ok by lia.
    pose proof UXPTE_PER_PAGE_pos as Hk.
    assert (0 <= a / PAGE_SIZE / UXPTE_PER_PAGE
            <= (a + RoundUp n PAGE_SIZE - 1) / PAGE_SIZE / UXPTE_PER_PAGE).
    { split.
      - apply Z.div_pos; [apply Z.div_pos; lia | lia].
      - apply Z.div_le_mono; [lia|]. apply Z.div_le_mono; lia. }
    nia. }
  assert (Hclear : UxpteClear (Some t) a (RoundUp n PAGE_SIZE)
                   = Some (Some (set_uxpte t
                       (update_range (word_op UPT_CLEAR) (first_index t a)
                          (page_count a (RoundUp n PAGE_SIZE)) ptes)))).
  { unfold UxpteClear. rewrite Hsupp. cbn [negb].
    rewrite (UxpteOps_update t ptes); try assumption; try discriminate; try reflexivity;
      cbn [t dataAddr dataSize]; try lia.
    - rewrite RoundDown_aligned by lia. lia.
    - rewrite u64_small by lia. rewrite RoundUp_twice by lia. lia. }
  rewrite Hclear in Hinit. cbn [mbind option_bind] in Hinit. injection Hinit as <-.
  split; [discriminate|]. intros _. eexists. split; [reflexivity|].
  split; [|split; reflexivity].
  eapply table_ok_set_uxpte; [exact Htok | reflexivity | apply update_range_length].
Qed.

(** What [PurgMemCreate] returns when it returns a region. *)
Lemma PurgMemCreate_region env n f p o :
  0 < n < 2 ^ 64 ->
  (forall a, mmap_data_ret env = Some a ->
     0 < a /\ a mod PAGE_SIZE = 0 /\ a + RoundUp n PAGE_SIZE < 2 ^ 64 - PAGE_SIZE) ->
  length (snd (f (replicate (Z.to_nat (RoundUp n PAGE_SIZE)) x00) n p))
    = Z.to_nat (RoundUp n PAGE_SIZE) ->
  PurgMemCreate env n (Some f) p = Some (Some o) ->
  region_ok o /\ IsPurgMemPtrValid (Some o) = true /\
  buildDataCount o = 0 /\ dataSizeInput o = n /\
  builder o = [ {| Build := f; param := p |} ] /\
  f (replicate (Z.to_nat (RoundUp n PAGE_SIZE)) x00) n p = (true, data o).
Proof.
  intros Hn Hmmap Hflen Hcreate. pose proof PAGE_SIZE_range as Hp.
  pose proof (RoundUp_ge n ltac:(lia)) as Hge.
  unfold PurgMemCreate in Hcreate.
  replace (n =? 0) with false in Hcreate by (symmetry; apply Z.eqb_neq; lia).
  destruct (PurgMemCreate_ env n []) as [[o0|]|] eqn:Hc0; cbn [mbind option_bind] in Hcreate;
    try discriminate.
  unfold PurgMemCreate_ in Hc0.
  destruct (negb (malloc_obj_ok env)); [discriminate|].
  unfold mmap_data in Hc0.
  destruct (RoundUp n PAGE_SIZE =? 0); [discriminate|].
  destruct (mmap_data_ret env) as [a|] eqn:Ha; cbn [mbind option_bind] in Hc0; [|discriminate].
  destruct (Hmmap a eq_refl) as (Hapos & Hal & Htop).
  destruct (malloc_upt env) as [t0|]; [|discriminate].
  destruct (InitUxPageTable (uxpt_env env) (Some t0) a (RoundUp n PAGE_SIZE))
    as [[st upt]|] eqn:Hinit; cbn [mbind option_bind fst snd] in Hc0; [|discriminate].
  destruct st; cbn [PMState_eqb negb] in Hc0; try discriminate.
  destruct (negb (rwlock_init_ret env =? 0)); [discriminate|].
  injection Hc0 as <-.
  destruct (InitUxPageTable_ok _ t0 a n PM_OK upt Hapos Hal Hn Htop Hinit eq_refl)
    as [Hnn Htab].
  unfold PurgMemAppendModify in Hcreate. cbn [data dataSizeInput] in Hcreate.
  pose proof Hflen as Hlen'.
  destruct (f (replicate (Z.to_nat (RoundUp n PAGE_SIZE)) x00) n p) as [succ data'] eqn:Hf.
  cbn [snd] in Hlen'. cbv beta iota zeta in Hcreate.
  destruct succ; cbn [negb] in Hcreate; cbv beta iota zeta in Hcreate.
  2:{ destruct (PurgMemDestroy env _); discriminate. }
  unfold PurgMemBuilderCreate in Hcreate.
  destruct (builder_create_ok (builder_env env)); cbv beta iota zeta in Hcreate.
  2:{ destruct (PurgMemDestroy env _); discriminate. }
  cbn [set_data builder] in Hcreate. cbv beta iota zeta in Hcreate.
  injection Hcreate as <-.
  cbn [set_builder set_data dataPtr dataSizeInput builder uxPageTable buildDataCount data].
  split; [|split; [|repeat split]].
  - unfold region_ok.
    cbn [set_builder set_data dataPtr dataSizeInput builder uxPageTable buildDataCount data].
    split; [lia|]. split; [lia|]. split; [exact Hal|]. split; [exact Htop|].
    split; [rewrite Hlen'; lia|]. split; [lia|].
    intros Hsupp. destruct (Htab Hsupp) as (t & -> & Htok & HdA & HdS).
    exists t. split; [reflexivity|]. split; [exact Htok|]. split; assumption.
  - unfold IsPurgMemPtrValid.
    cbn [set_builder set_data dataPtr dataSizeInput builder uxPageTable].
    replace (a =? 0) with false by (symmetry; apply Z.eqb_neq; lia).
    destruct upt; [reflexivity | contradiction].
Qed.

End Create.

Lemma zeroed_take o :
  (Z.to_nat (dataSizeInput o) <= length (data o))%nat ->
  take (Z.to_nat (dataSizeInput o)) (zeroed o) = replicate (Z.to_nat (dataSizeInput o)) x00 /\
  (Z.to_nat (dataSizeInput o) <= length (zeroed o))%nat.
Proof.
  intros Hle. unfold zeroed. split.
  - rewrite take_app_length' by (symmetry; apply length_replicate). reflexivity.
  - rewrite length_app, length_replicate. lia.
Qed.

(** C5.  [PurgMemCreate(n, f, p)] returns a region that counts no build;
    the first read session that succeeds on it has rebuilt it once: its
    content, the first n bytes of the mapping, is what f makes of n zero
    bytes, and the build count is 1.  Here f honours its (data, size)
    contract, computing [g] on the n bytes it is given, and the mapping is at
    a page-aligned address below the last page of the address space. *)
Theorem create_then_read `{Platform} :
  forall env n f p g o lrets urets fuel o',
    0 < n < 2 ^ 64 ->
    (forall a, mmap_data_ret env = Some a ->
       0 < a /\ a mod PAGE_SIZE = 0 /\ a + RoundUp n PAGE_SIZE < 2 ^ 64 - PAGE_SIZE) ->
    within_size f n p g ->
    PurgMemCreate env n (Some f) p = Some (Some o) ->
    PurgMemBeginRead fuel (Some (set_unlock_rets (set_lock_rets o lrets) urets))
      = Some (true, Some o') ->
    buildDataCount o = 0 /\
    content o' = snd (g (replicate (Z.to_nat n) x00)) /\
    fst (g (replicate (Z.to_nat n) x00)) = true /\
    buildDataCount o' = 1.
Proof.
  intros env n f p g o lrets urets fuel o' Hn Hmmap [Hglen Hf] Hcreate Hread.
  pose proof PAGE_SIZE_range as Hp.
  pose proof (RoundUp_ge n ltac:(lia)) as Hge.
  assert (Hflen : length (snd (f (replicate (Z.to_nat (RoundUp n PAGE_SIZE)) x00) n p))
                  = Z.to_nat (RoundUp n PAGE_SIZE)).
  { rewrite Hf by (rewrite length_replicate; lia). cbn [snd].
    rewrite length_app, Hglen, length_take, length_drop, length_replicate. lia. }
  destruct (PurgMemCreate_region env n f p o Hn Hmmap Hflen Hcreate)
    as (Hok & Hvalid & Hzero & Hsize & Hchain & _).
  set (o_r := set_unlock_rets (set_lock_rets o lrets) urets) in *.
  assert (Hframe : same_but_lock o o_r) by (repeat split).
  pose proof (region_ok_frame o o_r Hok Hframe) as Hok_r.
  assert (Hvalid_r : IsPurgMemPtrValid (Some o_r) = true) by exact Hvalid.
  destruct (PurgMemBeginRead_unbuilt fuel o_r true (Some o') Hok_r Hvalid_r Hzero Hread)
    as (o'' & builds & Heq & Hsize' & _ & _ & Htrue).
  injection Heq as <-.
  destruct (Htrue eq_refl) as (_ & Hcount & Hbuilt).
  split; [exact Hzero|].
  pose proof Hok_r as (_ & _ & _ & _ & Hlen & _).
  change (dataSizeInput o_r) with (dataSizeInput o) in Hlen. rewrite Hsize in Hlen.
  assert (Hle : (Z.to_nat (dataSizeInput o_r) <= length (data o_r))%nat).
  { change (dataSizeInput o_r) with (dataSizeInput o). rewrite Hsize. lia. }
  destruct (zeroed_take o_r Hle) as [Htake Hzlen].
  change (builder o_r) with (builder o) in Hbuilt. rewrite Hchain in Hbuilt.
  change (dataSizeInput o_r) with (dataSizeInput o) in *. rewrite Hsize in *.
  cbn [PurgMemBuilderBuildAll Build param] in Hbuilt.
  rewrite (Hf (zeroed o_r) Hzlen), Htake in Hbuilt.
  destruct (fst (g (replicate (Z.to_nat n) x00))) eqn:Hg; [|discriminate].
  injection Hbuilt as Hdata.
  split; [|split; [reflexivity | exact Hcount]].
  unfold content. rewrite Hsize', <- Hdata.
  rewrite take_app_length'; [reflexivity|].
  rewrite Hglen, length_replicate. reflexivity.
Qed.

Lemma create_then_read_witness :
  exists o o',
    0 < 4000 < 2 ^ 64 /\
    within_size (fill "Z") 4000 0 (fun head => (true, replicate (length head) "Z"%byte)) /\
    @PurgMemCreate (page4k true) env_ok 4000 (Some (fill "Z")) 0 = Some (Some o) /\
    @PurgMemBeginRead (page4k true) 2 (Some (set_unlock_rets (set_lock_rets o []) []))
      = Some (true, Some o') /\
    content o' = replicate 4000 "Z"%byte /\
    buildDataCount o' = 1.
Proof.
  destruct (@PurgMemCreate (page4k true) env_ok 4000 (Some (fill "Z")) 0)
    as [[o|]|] eqn:Hcreate; try (vm_compute in Hcreate; discriminate).
  destruct (@PurgMemBeginRead (page4k true) 2 (Some (set_unlock_rets (set_lock_rets o []) [])))
    as [[ret r]|] eqn:Hread.
  2:{ vm_compute in Hcreate. injection Hcreate as <-. vm_compute in Hread. discriminate. }
  assert (Hret : ret = true /\ exists o', r = Some o').
  { vm_compute in Hcreate. injection Hcreate as <-. vm_compute in Hread.
    injection Hread as <- <-. split; [reflexivity | eexists; reflexivity]. }
  destruct Hret as [-> [o' ->]].
  assert (Hn : 0 < 4000 < 2 ^ 64) by (split; reflexivity).
  assert (Hw : within_size (fill "Z") 4000 0
                 (fun head => (true, replicate (length head) "Z"%byte))).
  { split.
    - intros head. cbn [snd]. apply length_replicate.
    - intros buf Hle. unfold fill. cbn [fst snd]. rewrite length_take.
      replace (Z.to_nat 4000 `min` length buf)%nat with (Z.to_nat 4000) by lia.
      reflexivity. }
  assert (Hmmap : forall a, mmap_data_ret env_ok = Some a ->
            0 < a /\ a mod @PAGE_SIZE (page4k true) = 0 /\
            a + RoundUp 4000 (@PAGE_SIZE (page4k true)) < 2 ^ 64 - @PAGE_SIZE (page4k true)).
  { intros a [= <-]. repeat split. }
  exists o, o'. split; [exact Hn|]. split; [exact Hw|]. split; [reflexivity|].
  split; [exact Hread|].
  destruct (@create_then_read (page4k true) env_ok 4000 (fill "Z") 0 _ o [] [] 2%nat o'
              Hn Hmmap Hw Hcreate Hread) as (_ & Hcontent & _ & Hcount).
  split; [|exact Hcount].
  rewrite Hcontent. cbn [snd]. rewrite length_replicate. reflexivity.
Defined.

Lemma failed_begin_unpins_witness :
  let o := region_4000 [ {| Build := fail_func; param := 0 |} ] 1 0 (replicate 4096 x00) in
  @region_ok (page4k true) o /\ IsPurgMemPtrValid (Some o) = true /\
  exists o' builds,
    @PurgMemBeginRead (page4k true) 2 (Some o) = Some (false, Some o') /\
    trace o' = trace o ++ [EvUxpteGet (dataPtr o) (dataSizeInput o)] ++ builds
                       ++ [EvUxptePut (dataPtr o) (dataSizeInput o)] /\
    builds_only builds /\
    refcnts (uxPageTable o') = refcnts (uxPageTable o) /\
    rwlock o' = rwlock o.
Proof.
  intros o.
  assert (Hok : @region_ok (page4k true) o).
  { unfold region_ok. split; [split; reflexivity|]. split; [reflexivity|].
    split; [reflexivity|]. split; [reflexivity|]. split; [reflexivity|].
    split; [split; [discriminate | reflexivity]|].
    intros _. eexists. split; [reflexivity|]. split; [|split; reflexivity].
    unfold table_ok. split; [discriminate|]. split; [reflexivity|].
    split; [discriminate|]. eexists. split; reflexivity. }
  assert (Hvalid : IsPurgMemPtrValid (Some o) = true) by reflexivity.
  assert (Hpin : @pinnable (page4k true) o).
  { intros t ptes k pte Ht Hptes _ Hk.
    assert (Ht' : t = {| dataAddr := 65536; dataSize := 4096;
                         uxpte := Some (replicate 512 1) |})
      by (unfold o, region_4000 in Ht; cbn [uxPageTable] in Ht;
          apply (inj Some) in Ht; symmetry; exact Ht).
    subst t. cbn [uxpte] in Hptes.
    assert (Hp : ptes = replicate 512 1)
      by (apply (inj Some) in Hptes; symmetry; exact Hptes).
    subst ptes. apply lookup_replicate in Hk. destruct Hk as [-> _].
    split; [discriminate | reflexivity]. }
  assert (Hz : Forall (eq 0) (unlock_rets o)) by constructor.
  split; [exact Hok|]. split; [exact Hvalid|].
  destruct (@PurgMemBeginRead (page4k true) 2 (Some o)) as [[ret r]|] eqn:Hrun;
    [|vm_compute in Hrun; discriminate].
  assert (Hret : ret = false) by (vm_compute in Hrun; congruence).
  subst ret.
  destruct (@failed_begin_unpins (page4k true) 2%nat o r Hok Hvalid (or_introl Hrun))
    as (o' & builds & -> & Htr & Hbo & Hrc & Hl).
  exists o', builds. split; [reflexivity|]. split; [exact Htr|]. split; [exact Hbo|].
  split; [exact (Hrc Hpin) | exact (Hl Hz)].
Defined.

(** * Further properties of the code *)

(** ** Rounding *)

(** X1.  [RoundUp] (of both files) on 64-bit operands: the value comes back
    unrounded when [align] is 0 or when [val + align] wraps; otherwise the
    result is the least multiple of [align] that is not below [val]. *)
Theorem RoundUp_spec :
  forall val align,
    0 <= val < 2 ^ 64 -> 0 <= align < 2 ^ 64 ->
    (align = 0 \/ 2 ^ 64 <= val + align -> RoundUp val align = val) /\
    (0 < align -> val + align < 2 ^ 64 ->
       RoundUp val align = align * ((val + align - 1) / align) /\
       val <= RoundUp val align < val + align /\
       RoundUp val align mod align = 0 /\
       (forall m, val <= m -> m mod align = 0 -> RoundUp val align <= m)).
Proof.
  intros val align Hv Ha. split.
  - intros [->|Hov]; unfold RoundUp.
    + rewrite Z.add_0_r, u64_small by lia.
      destruct (val <? val) eqn:E1; [reflexivity|].
      destruct (val <? 0); reflexivity.
    + assert (Hw : u64 (val + align) = val + align - 2 ^ 64).
      { unfold u64. symmetry. apply (Z.mod_unique_pos _ _ 1); lia. }
      rewrite Hw.
      destruct (val + align - 2 ^ 64 <? val) eqn:E1; [reflexivity|].
      apply Z.ltb_ge in E1. lia.
  - intros Hpos Hsum.
    assert (Hne : align <> 0) by lia.
    pose proof (Z.div_mod (val + align - 1) align Hne) as Hdm.
    pose proof (Z.mod_pos_bound (val + align - 1) align Hpos) as Hmb.
    assert (Heq : RoundUp val align = align * ((val + align - 1) / align)).
    { unfold RoundUp. rewrite (u64_small (val + align)) by lia.
      destruct (val + align <? val) eqn:E1; [apply Z.ltb_lt in E1; lia|].
      destruct (val + align <? align) eqn:E2; [apply Z.ltb_lt in E2; lia|].
      cbn [orb].
      destruct (align =? 0) eqn:E; [apply Z.eqb_eq in E; lia|].
      rewrite (u64_small (val + align - 1)) by lia.
      rewrite u64_small by lia. lia. }
    split; [exact Heq|]. rewrite Heq.
    split; [lia|]. split.
    + rewrite Z.mul_comm. apply Z.mod_mul. exact Hne.
    + intros m Hm Hmod.
      pose proof (Z.div_mod m align Hne) as Hdm'. rewrite Hmod in Hdm'.
      assert (Hq : (val + align - 1) / align <= m / align).
      { destruct (Z_lt_le_dec (m / align) ((val + align - 1) / align)) as [Hlt|Hge];
          [|exact Hge].
        exfalso. nia. }
      nia.
Qed.

Lemma RoundUp_spec_witness :
  RoundUp 4000 4096 = 4096 /\ RoundUp (2 ^ 64 - 5) 4096 = 2 ^ 64 - 5.
Proof.
  assert (Hv : 0 <= 4000 < 2 ^ 64) by (split; [discriminate | reflexivity]).
  assert (Hv' : 0 <= 2 ^ 64 - 5 < 2 ^ 64) by (split; [discriminate | reflexivity]).
  assert (Ha : 0 <= 4096 < 2 ^ 64) by (split; [discriminate | reflexivity]).
  destruct (RoundUp_spec 4000 4096 Hv Ha) as [_ Hround].
  destruct (RoundUp_spec (2 ^ 64 - 5) 4096 Hv' Ha) as [Hwrap _].
  split.
  - destruct Hround as [-> _]; reflexivity.
  - apply Hwrap. right. discriminate.
Defined.

(** X2.  [RoundDown] returns [val] when [align] is 0, and for a power of two
    it clears the low bits: the result is the greatest multiple of [align]
    that is not above [val].  The mask does not round to an [align] that is
    not a power of two. *)
Theorem RoundDown_spec :
  forall val k,
    0 <= val < 2 ^ 64 -> 0 <= k < 64 ->
    RoundDown val 0 = val /\
    RoundDown val (2 ^ k) = 2 ^ k * (val / 2 ^ k) /\
    val - 2 ^ k < RoundDown val (2 ^ k) <= val /\
    RoundDown val (2 ^ k) mod 2 ^ k = 0 /\
    RoundDown (RoundDown val (2 ^ k)) (2 ^ k) = RoundDown val (2 ^ k) /\
    RoundDown 7 3 = 5.
Proof.
  intros val k Hv Hk.
  assert (Hpow : 0 < 2 ^ k < 2 ^ 64).
  { split; [apply Z.pow_pos_nonneg; lia | apply Z.pow_lt_mono_r; lia]. }
  assert (Hgen : forall v, 0 <= v < 2 ^ 64 -> RoundDown v (2 ^ k) = 2 ^ k * (v / 2 ^ k)).
  { intros v Hvv. unfold RoundDown.
    destruct (2 ^ k =? 0) eqn:E; [apply Z.eqb_eq in E; lia|].
    rewrite (u64_small (2 ^ k - 1)) by lia.
    rewrite land_u64_r by exact Hvv.
    replace (2 ^ k - 1) with (Z.ones k) by (rewrite Z.ones_equiv; lia).
    rewrite <- Z.ldiff_land, Z.ldiff_ones_r by lia.
    rewrite Z.shiftl_mul_pow2, Z.shiftr_div_pow2 by lia. lia. }
  assert (Hne : 2 ^ k <> 0) by lia.
  pose proof (Z.div_mod val (2 ^ k) Hne) as Hdm.
  pose proof (Z.mod_pos_bound val (2 ^ k) ltac:(lia)) as Hmb.
  split; [reflexivity|].
  split; [apply Hgen; exact Hv|].
  rewrite (Hgen val Hv).
  split; [lia|]. split.
  - rewrite Z.mul_comm. apply Z.mod_mul. exact Hne.
  - split; [|reflexivity].
    assert (Hq : 0 <= 2 ^ k * (val / 2 ^ k)).
    { apply Z.mul_nonneg_nonneg; [lia | apply Z.div_pos; lia]. }
    rewrite Hgen by lia. f_equal.
    rewrite Z.mul_comm. apply Z.div_mul. exact Hne.
Qed.

Lemma RoundDown_spec_witness : RoundDown 65546 (2 ^ 12) = 65536.
Proof.
  assert (Hv : 0 <= 65546 < 2 ^ 64) by (split; [discriminate | reflexivity]).
  assert (Hk : 0 <= 12 < 64) by (split; [discriminate | reflexivity]).
  destruct (RoundDown_spec 65546 12 Hv Hk) as (_ & -> & _). reflexivity.
Defined.

(** ** The layout of an address *)

(** X3.  The three fields the table reads off a virtual address: the page
    number is the uxpte page number and the offset in that uxpte page, the
    offset is below UXPTE_PER_PAGE, and one page of 8-byte descriptors
    describes UXPTE_PER_PAGE data pages. *)
Theorem address_fields `{Platform} :
  forall vaddr,
    VirtPageNo vaddr = UxptePageNo vaddr * UXPTE_PER_PAGE + UxpteOffset vaddr /\
    0 <= UxpteOffset vaddr < UXPTE_PER_PAGE /\
    vaddr = VirtPageNo vaddr * PAGE_SIZE + vaddr mod PAGE_SIZE /\
    0 <= vaddr mod PAGE_SIZE < PAGE_SIZE /\
    UXPTE_PER_PAGE * 2 ^ UXPTE_SIZE_SHIFT = PAGE_SIZE.
Proof.
  intros vaddr.
  pose proof PAGE_SIZE_range as Hp. pose proof UXPTE_PER_PAGE_pos as Hu.
  rewrite UxptePageNo_div, UxpteOffset_mod, VirtPageNo_div.
  assert (Hpne : PAGE_SIZE <> 0) by lia.
  assert (Hune : UXPTE_PER_PAGE <> 0) by lia.
  pose proof (Z.div_mod (vaddr / PAGE_SIZE) UXPTE_PER_PAGE Hune) as Hdm.
  pose proof (Z.div_mod vaddr PAGE_SIZE Hpne) as Hdm'.
  split; [lia|].
  split; [apply Z.mod_pos_bound; exact Hu|].
  split; [lia|].
  split; [apply Z.mod_pos_bound; lia|].
  rewrite PAGE_SIZE_per_page. unfold UXPTE_SIZE_SHIFT. change (2 ^ 3) with 8. lia.
Qed.

(** ** The size of the descriptor mapping *)

Section DescriptorMapping.
Context `{Platform}.

Lemma uxpte_pages dA dS :
  0 <= dA -> 0 < dS ->
  0 <= dA / PAGE_SIZE / UXPTE_PER_PAGE <= (dA + dS - 1) / PAGE_SIZE / UXPTE_PER_PAGE.
Proof.
  intros HdA HdS. pose proof PAGE_SIZE_range as Hp. pose proof UXPTE_PER_PAGE_pos as Hu.
  split.
  - apply Z.div_pos; [apply Z.div_pos; lia | exact Hu].
  - apply Z.div_le_mono; [exact Hu|]. apply Z.div_le_mono; lia.
Qed.

Lemma index_below_slots dA dS a :
  0 <= dA -> 0 < dS -> dA + dS <= 2 ^ 64 - PAGE_SIZE -> dA <= a < dA + dS ->
  0 <= GetIndexInUxpte dA a < Z.shiftr (GetUxPageSize dA dS) UXPTE_SIZE_SHIFT.
Proof.
  intros HdA HdS Hend Ha.
  pose proof PAGE_SIZE_range as Hp. pose proof UXPTE_PER_PAGE_pos as Hu.
  rewrite GetUxPageSize_ok by assumption.
  rewrite GetIndexInUxpte_page by lia.
  unfold UXPTE_SIZE_SHIFT. rewrite Z.shiftr_div_pow2 by lia. change (2 ^ 3) with 8.
  pose proof (uxpte_pages dA dS HdA HdS) as Hpages.
  remember (dA / PAGE_SIZE) as p0 eqn:Hp0.
  remember ((dA + dS - 1) / PAGE_SIZE) as pe eqn:Hpe.
  remember (a / PAGE_SIZE) as pa eqn:Hpa.
  assert (Hp0a : p0 <= pa) by (subst; apply Z.div_le_mono; lia).
  assert (Hpae : pa <= pe) by (subst; apply Z.div_le_mono; lia).
  assert (Hune : UXPTE_PER_PAGE <> 0) by lia.
  pose proof (Z.div_mod p0 UXPTE_PER_PAGE Hune) as Hdm0.
  pose proof (Z.mod_pos_bound p0 UXPTE_PER_PAGE Hu) as Hmb0.
  pose proof (Z.div_mod pe UXPTE_PER_PAGE Hune) as Hdme.
  pose proof (Z.mod_pos_bound pe UXPTE_PER_PAGE Hu) as Hmbe.
  remember (p0 / UXPTE_PER_PAGE) as S0 eqn:HS0.
  remember (pe / UXPTE_PER_PAGE) as E0 eqn:HE0.
  replace ((E0 - S0 + 1) * PAGE_SIZE / 8) with ((E0 - S0 + 1) * UXPTE_PER_PAGE).
  2:{ rewrite PAGE_SIZE_per_page.
      replace ((E0 - S0 + 1) * (8 * UXPTE_PER_PAGE)) with ((E0 - S0 + 1) * UXPTE_PER_PAGE * 8) by lia.
      rewrite Z.div_mul by lia. reflexivity. }
  split; [lia|]. clear - Hp0a Hpae Hdm0 Hmb0 Hdme Hmbe Hu. nia.
Qed.

End DescriptorMapping.

(** X4.  [GetUxPageSize] answers 0 when the end of the range wraps or the
    range is empty at address 0.  For a range that ends below the last page
    of the address space it answers a positive multiple of PAGE_SIZE: one
    page for every uxpte page from that of the first byte to that of the
    last. *)
Theorem GetUxPageSize_spec `{Platform} :
  forall dA dS,
    0 <= dA < 2 ^ 64 -> 0 <= dS < 2 ^ 64 ->
    (2 ^ 64 <= dA + dS \/ dA + dS = 0 -> GetUxPageSize dA dS = 0) /\
    (0 < dS -> dA + dS <= 2 ^ 64 - PAGE_SIZE ->
       GetUxPageSize dA dS
         = (UxptePageNo (dA + dS - 1) - UxptePageNo dA + 1) * PAGE_SIZE /\
       PAGE_SIZE <= GetUxPageSize dA dS /\
       GetUxPageSize dA dS mod PAGE_SIZE = 0).
Proof.
  intros dA dS HdA HdS. pose proof PAGE_SIZE_range as Hp. split.
  - intros [Hov|Hz]; unfold GetUxPageSize.
    + assert (Hw : u64 (dA + dS) = dA + dS - 2 ^ 64).
      { unfold u64. symmetry. apply (Z.mod_unique_pos _ _ 1); lia. }
      rewrite Hw.
      destruct (dA + dS - 2 ^ 64 <? dA) eqn:E1; [reflexivity|].
      apply Z.ltb_ge in E1. lia.
    + rewrite Hz. change (u64 0) with 0.
      destruct (0 <? dA), (0 <? dS); reflexivity.
  - intros Hpos Hend.
    rewrite GetUxPageSize_ok by lia. rewrite !UxptePageNo_div.
    pose proof (uxpte_pages dA dS ltac:(lia) Hpos) as Hpages.
    split; [reflexivity|]. split.
    + nia.
    + apply Z.mod_mul. lia.
Qed.

Lemma GetUxPageSize_spec_witness :
  @GetUxPageSize (page4k true) 65536 8192 = 4096 /\
  @GetUxPageSize (page4k true) (2 ^ 64 - 4096) 4096 = 0.
Proof.
  assert (HdA : 0 <= 65536 < 2 ^ 64) by (split; [discriminate | reflexivity]).
  assert (HdS : 0 <= 8192 < 2 ^ 64) by (split; [discriminate | reflexivity]).
  assert (HdA' : 0 <= 2 ^ 64 - 4096 < 2 ^ 64) by (split; [discriminate | reflexivity]).
  assert (HdS' : 0 <= 4096 < 2 ^ 64) by (split; [discriminate | reflexivity]).
  destruct (@GetUxPageSize_spec (page4k true) 65536 8192 HdA HdS) as [_ Hsize].
  destruct (@GetUxPageSize_spec (page4k true) (2 ^ 64 - 4096) 4096 HdA' HdS') as [Hzero _].
  split.
  - assert (Hend : 65536 + 8192 <= 2 ^ 64 - @PAGE_SIZE (page4k true))
      by (vm_compute; discriminate).
    destruct (Hsize eq_refl Hend) as (-> & _); reflexivity.
  - apply Hzero. left. discriminate.
Defined.

(** X5.  [GetIndexInUxpte] numbers the pages of a data range from the
    offset of its first page: addresses of one page share an index, the next
    page has the next index, and every address of the range has its index
    inside the descriptors that [GetUxPageSize] sizes for the range (8 bytes
    each). *)
Theorem GetIndexInUxpte_spec `{Platform} :
  forall dA dS a,
    0 <= dA -> 0 < dS -> dA + dS <= 2 ^ 64 - PAGE_SIZE -> dA <= a < dA + dS ->
    GetIndexInUxpte dA dA = UxpteOffset dA /\
    GetIndexInUxpte dA a = UxpteOffset dA + (VirtPageNo a - VirtPageNo dA) /\
    GetIndexInUxpte dA (RoundDown a PAGE_SIZE) = GetIndexInUxpte dA a /\
    GetIndexInUxpte dA (a + PAGE_SIZE) = GetIndexInUxpte dA a + 1 /\
    0 <= GetIndexInUxpte dA a < Z.shiftr (GetUxPageSize dA dS) UXPTE_SIZE_SHIFT.
Proof.
  intros dA dS a HdA HdS Hend Ha. pose proof PAGE_SIZE_range as Hp.
  split; [|split; [|split; [|split]]].
  - rewrite GetIndexInUxpte_page, UxpteOffset_mod by lia. lia.
  - rewrite GetIndexInUxpte_page, UxpteOffset_mod, !VirtPageNo_div by lia. reflexivity.
  - rewrite RoundDown_page by lia. apply GetIndexInUxpte_same_page.
  - rewrite !GetIndexInUxpte_page by lia.
    replace (a + PAGE_SIZE) with (a + 1 * PAGE_SIZE) by lia.
    rewrite Z.div_add by lia. lia.
  - apply index_below_slots; assumption.
Qed.

Lemma GetIndexInUxpte_spec_witness :
  @GetIndexInUxpte (page4k true) 65536 65536 = 16 /\
  @GetIndexInUxpte (page4k true) 65536 (70000 + 4096) = @GetIndexInUxpte (page4k true) 65536 70000 + 1 /\
  @GetIndexInUxpte (page4k true) 65536 70000 < 512.
Proof.
  assert (HdA : 0 <= 65536) by discriminate.
  assert (HdS : 0 < 8192) by reflexivity.
  assert (Hend : 65536 + 8192 <= 2 ^ 64 - @PAGE_SIZE (page4k true))
    by (vm_compute; discriminate).
  assert (Ha : 65536 <= 70000 < 65536 + 8192) by (split; [discriminate | reflexivity]).
  destruct (@GetIndexInUxpte_spec (page4k true) 65536 8192 70000 HdA HdS Hend Ha)
    as (H0 & _ & _ & Hnext & _ & Hlt).
  split; [rewrite H0; reflexivity|]. split; [exact Hnext | exact Hlt].
Defined.

(** ** The compare-and-swap loop of a pin, with the kernel writing *)

Lemma UxpteAdd_pass fuel kernel pte yields :
  UxpteAdd (S fuel) kernel pte UXPTE_REFCNT_ONE yields =
  if (pin_word pte =? pte) || (kernel_store kernel pte =? pte)
  then Some {| run_pte := pin_word pte; run_yields := yields |}
  else UxpteAdd fuel (tl kernel) (kernel_store kernel pte) UXPTE_REFCNT_ONE yields.
Proof.
  cbn [UxpteAdd]. pose proof (UxpteAdd_body_no_yield pte) as Hny.
  unfold UxpteAdd_body, pin_word in *. rewrite UXPTE_REFCNT_ONE_val in *.
  destruct ((u64 (pte + 2) <? pte) || (u64 (pte + 2) <? 2)) eqn:Hwrap.
  { rewrite Z.eqb_refl. reflexivity. }
  destruct (u64 (ULONG_MAX - pte) <? 2) eqn:Hmax.
  { rewrite Z.eqb_refl. reflexivity. }
  apply orb_false_iff in Hwrap. destruct Hwrap as [Hw1 Hw2].
  apply Z.ltb_ge in Hw1. apply Z.ltb_ge in Hw2.
  destruct (IsUxpteUnderReclaim pte); [discriminate Hny|].
  destruct (kernel_store kernel pte =? pte) eqn:Hcas.
  - rewrite orb_true_r. reflexivity.
  - rewrite orb_false_r.
    destruct (u64 (pte + 2) =? pte) eqn:Heq; [|reflexivity].
    apply Z.eqb_eq in Heq. exfalso.
    pose proof (u64_range (pte + 2)) as Hp. rewrite Heq in Hp.
    unfold u64 in Heq.
    destruct (Z_lt_le_dec (pte + 2) (2 ^ 64)) as [Hlt|Hge].
    + rewrite Z.mod_small in Heq by lia. lia.
    + assert (Hm : (pte + 2) mod 2 ^ 64 = pte + 2 - 2 ^ 64).
      { symmetry. apply (Z.mod_unique_pos _ _ 1); lia. }
      lia.
Qed.

(** X6.  A pin against a kernel that rewrites the word between the load and
    the compare-and-swap of each of the first passes: once the kernel's
    writes are over the loop returns, without a call of [sched_yield], and
    the word holds the pin of a value it held at a load: the value plus 2,
    or the value itself when it is 2^64 - 2 or 2^64 - 1. *)
Theorem UxpteAdd_contended :
  forall kernel pte yields,
    exists v,
      (v = pte \/ In (Some v) kernel) /\
      UxpteAdd (S (length kernel)) kernel pte UXPTE_REFCNT_ONE yields
        = Some {| run_pte := pin_word v; run_yields := yields |} /\
      (0 <= v < 2 ^ 64 - 2 -> pin_word v = v + 2) /\
      (2 ^ 64 - 2 <= v < 2 ^ 64 -> pin_word v = v).
Proof.
  assert (Hpin : forall v,
            (0 <= v < 2 ^ 64 - 2 -> pin_word v = v + 2) /\
            (2 ^ 64 - 2 <= v < 2 ^ 64 -> pin_word v = v)).
  { intros v. split.
    - intros Hv. apply pin_word_pinnable. rewrite UXPTE_UNDER_RECLAIM_val. exact Hv.
    - intros Hv. unfold pin_word.
      assert (Hm : u64 (v + 2) = v + 2 - 2 ^ 64).
      { unfold u64. symmetry. apply (Z.mod_unique_pos _ _ 1); lia. }
      rewrite Hm.
      destruct (v + 2 - 2 ^ 64 <? v) eqn:E; [reflexivity|].
      apply Z.ltb_ge in E. lia. }
  induction kernel as [|k kernel IH]; intros pte yields.
  - exists pte. split; [left; reflexivity|]. split; [|apply Hpin].
    cbn [length]. rewrite UxpteAdd_pass. cbn [kernel_store].
    rewrite Z.eqb_refl, orb_true_r. reflexivity.
  - cbn [length]. rewrite UxpteAdd_pass.
    destruct ((pin_word pte =? pte) || (kernel_store (k :: kernel) pte =? pte)).
    + exists pte. split; [left; reflexivity|]. split; [reflexivity | apply Hpin].
    + cbn [tl].
      destruct (IH (kernel_store (k :: kernel) pte) yields) as (v & Hv & Hrun & _).
      exists v. split; [|split; [exact Hrun | apply Hpin]].
      destruct Hv as [->|Hin]; [|right; right; exact Hin].
      destruct k as [w|]; cbn [kernel_store].
      * right. left. reflexivity.
      * left. reflexivity.
Qed.

Lemma UxpteAdd_contended_witness :
  exists v,
    (v = 4 \/ In (Some v) [Some 7; None]) /\
    UxpteAdd 3 [Some 7; None] 4 UXPTE_REFCNT_ONE O
      = Some {| run_pte := pin_word v; run_yields := O |}.
Proof.
  destruct (UxpteAdd_contended [Some 7; None] 4 O) as (v & Hv & Hrun & _).
  exists v. split; [exact Hv | exact Hrun].
Defined.

(** ** Pins and unpins of a table *)

Section TableRoundTrip.
Context `{Platform}.

Lemma set_uxpte_same t (ptes : list uxpte_t) : uxpte t = Some ptes -> set_uxpte t ptes = t.
Proof. destruct t as [dA dS u]. cbn. intros ->. reflexivity. Qed.

Lemma u64_add2_sub2 pte : 0 <= pte < 2 ^ 64 - 2 -> u64 (pte + 2 - 2) = pte.
Proof. intros Hp. replace (pte + 2 - 2) with pte by lia. apply u64_small. lia. Qed.

End TableRoundTrip.

(** X7.  On a table whose descriptors over the range are below 2^64 - 2,
    [UxpteGet] adds 2 to each of them and to no other, and [UxptePut] on the
    same range then gives back the table as it was. *)
Theorem UxpteGet_UxptePut_round_trip `{Platform} :
  forall t ptes addr len,
    g_supportUxpt = true ->
    table_ok t -> uxpte t = Some ptes -> 0 <= addr < 2 ^ 64 ->
    dataAddr t <= RoundDown addr PAGE_SIZE ->
    RoundUp (u64 (addr + len)) PAGE_SIZE <= dataAddr t + dataSize t ->
    (forall k pte, covered t addr len k -> ptes !! k = Some pte -> 0 <= pte < 2 ^ 64 - 2) ->
    exists ptes1,
      UxpteGet (Some t) addr len = Some (Some (set_uxpte t ptes1)) /\
      length ptes1 = length ptes /\
      (forall k pte, covered t addr len k -> ptes !! k = Some pte ->
                     ptes1 !! k = Some (pte + 2)) /\
      (forall k, ~ covered t addr len k -> ptes1 !! k = ptes !! k) /\
      UxptePut (Some (set_uxpte t ptes1)) addr len = Some (Some t).
Proof.
  intros t ptes addr len Hsupp Htok Hptes Haddr Hlo Hhi Hpin.
  set (i := first_index t addr). set (n := page_count addr len).
  set (ptes1 := update_range (word_op UPT_GET) i n ptes).
  assert (Hcov : forall k, covered t addr len k <-> (i <= k < i + n)%nat).
  { intros k. apply (covered_interval t ptes); assumption. }
  assert (Hin : forall k, (i <= k < i + n)%nat ->
            (i <=? k)%nat && (k <? i + n)%nat = true).
  { intros k Hk. apply andb_true_iff. split; [apply Nat.leb_le | apply Nat.ltb_lt]; lia. }
  assert (Hout : forall k, ~ (i <= k < i + n)%nat ->
            (i <=? k)%nat && (k <? i + n)%nat = false).
  { intros k Hk. apply andb_false_iff.
    destruct (Nat.leb_spec i k); [right; apply Nat.ltb_ge; lia | left; reflexivity]. }
  exists ptes1.
  assert (Hget : UxpteGet (Some t) addr len = Some (Some (set_uxpte t ptes1))).
  { unfold UxpteGet. rewrite Hsupp. cbn [negb].
    rewrite (UxpteOps_update t ptes) by (try assumption; discriminate). reflexivity. }
  split; [exact Hget|].
  split; [apply update_range_length|].
  split; [|split].
  - intros k pte Hk Hl. unfold ptes1. rewrite update_range_lookup.
    unfold uxpte_t in *. rewrite Hl.
    rewrite Hin by (apply Hcov; exact Hk). cbn [fmap option_fmap option_map word_op].
    f_equal. apply pin_word_pinnable. rewrite UXPTE_UNDER_RECLAIM_val. eapply Hpin; eassumption.
  - intros k Hk. unfold ptes1. rewrite update_range_lookup.
    rewrite Hout by (intros Hx; apply Hk, Hcov; exact Hx).
    unfold uxpte_t in *. destruct (ptes !! k); reflexivity.
  - assert (Htok1 : table_ok (set_uxpte t ptes1)).
    { eapply table_ok_set_uxpte; [exact Htok | exact Hptes | apply update_range_length]. }
    unfold UxptePut. rewrite Hsupp. cbn [negb].
    rewrite (UxpteOps_update (set_uxpte t ptes1) ptes1)
      by (try assumption; try discriminate; reflexivity).
    cbn [mbind option_bind snd]. rewrite set_uxpte_twice.
    change (first_index (set_uxpte t ptes1) addr) with i. fold n.
    do 2 f_equal. rewrite <- (set_uxpte_same t ptes Hptes) at 2. f_equal.
    apply list_eq. intros k. unfold ptes1. rewrite !update_range_lookup.
    unfold uxpte_t in *. destruct (ptes !! k) as [pte|] eqn:Hl; [|reflexivity].
    cbn [fmap option_fmap option_map].
    destruct (decide (i <= k < i + n)%nat) as [Hk|Hk].
    + rewrite (Hin k Hk). cbn [word_op]. f_equal.
      assert (Hr : 0 <= pte < 2 ^ 64 - 2) by (eapply Hpin; [apply Hcov; exact Hk | exact Hl]).
      rewrite pin_word_pinnable by (rewrite UXPTE_UNDER_RECLAIM_val; exact Hr).
      apply u64_add2_sub2. exact Hr.
    + rewrite (Hout k Hk). reflexivity.
Qed.

Lemma UxpteGet_UxptePut_round_trip_witness :
  exists ptes1,
    @UxpteGet (page4k true) (Some (table_2p 4)) 65546 5000
      = Some (Some (set_uxpte (table_2p 4) ptes1)) /\
    length ptes1 = 512%nat /\
    @UxptePut (page4k true) (Some (set_uxpte (table_2p 4) ptes1)) 65546 5000
      = Some (Some (table_2p 4)).
Proof.
  assert (Hok : @table_ok (page4k true) (table_2p 4)).
  { unfold table_ok. split; [vm_compute; discriminate|].
    split; [reflexivity|]. split; [vm_compute; discriminate|].
    exists (replicate 512 4). split; reflexivity. }
  assert (Haddr : 0 <= 65546 < 2 ^ 64) by (split; [discriminate | reflexivity]).
  destruct (@UxpteGet_UxptePut_round_trip (page4k true) (table_2p 4) (replicate 512 4)
              65546 5000 eq_refl Hok eq_refl Haddr)
    as (ptes1 & Hget & Hlen & _ & _ & Hput).
  - vm_compute. discriminate.
  - vm_compute. discriminate.
  - intros k pte _ Hk. apply lookup_replicate in Hk. destruct Hk as [-> _].
    split; [discriminate | reflexivity].
  - exists ptes1. split; [exact Hget|]. split; [|exact Hput].
    rewrite Hlen. apply length_replicate.
Defined.

(** ** Setting up and tearing down a table *)

Section InitDeinit.
Context `{Platform}.

Lemma RoundUp_aligned x :
  0 <= x -> x mod PAGE_SIZE = 0 -> x + PAGE_SIZE < 2 ^ 64 -> RoundUp x PAGE_SIZE = x.
Proof.
  intros Hx Hal Htop. pose proof PAGE_SIZE_range as Hp.
  assert (Hne : PAGE_SIZE <> 0) by lia.
  rewrite RoundUp_page by lia.
  pose proof (Z.div_mod x PAGE_SIZE Hne) as Hd. rewrite Hal, Z.add_0_r in Hd.
  remember (x / PAGE_SIZE) as q eqn:Hq.
  replace (x + PAGE_SIZE - 1) with (q * PAGE_SIZE + (PAGE_SIZE - 1)) by lia.
  rewrite Z.div_add_l by exact Hne. rewrite Z.div_small by lia. lia.
Qed.

Lemma MapUxptePages_ok env a n :
  0 <= a -> 0 < n -> a + n <= 2 ^ 64 - PAGE_SIZE -> mmap_uxpte_ok env = true ->
  exists ptes, MapUxptePages env a n = Some ptes /\
    Z.of_nat (length ptes) = Z.shiftr (GetUxPageSize a n) UXPTE_SIZE_SHIFT /\
    forall k, (k < length ptes)%nat -> ptes !! k = Some (mmap_uxpte_init env k).
Proof.
  intros Ha Hn Htop Hok. pose proof PAGE_SIZE_range as Hp.
  unfold MapUxptePages. rewrite Hok.
  pose proof (uxpte_pages a n Ha Hn) as Hpages.
  assert (Hsize : 0 < GetUxPageSize a n).
  { rewrite GetUxPageSize_ok by assumption. nia. }
  replace (GetUxPageSize a n =? 0) with false by (symmetry; apply Z.eqb_neq; lia).
  cbn [andb negb]. eexists. split; [reflexivity|]. split.
  - rewrite length_map, length_seq. apply Z2Nat.id. apply Z.shiftr_nonneg. lia.
  - intros k Hk. rewrite length_map, length_seq in Hk.
    rewrite list_lookup_fmap, lookup_seq_lt by exact Hk. reflexivity.
Qed.

End InitDeinit.

(** X8.  [InitUxPageTable] with the capability on, for a page-aligned
    range: when the descriptors cannot be mapped it answers
    PM_MMAP_UXPT_FAIL, with the range recorded and [uxpte] NULL; otherwise it
    answers PM_OK with every descriptor of the range cleared, whatever the
    kernel had left in the mapping, and the other descriptors as mapped, so
    that the range reads as not present.  The former content of the
    structure plays no part. *)
Theorem InitUxPageTable_clears `{Platform} :
  forall env t0 a n,
    g_supportUxpt = true ->
    0 < a -> a mod PAGE_SIZE = 0 -> 0 < n -> n mod PAGE_SIZE = 0 ->
    a + n < 2 ^ 64 - PAGE_SIZE ->
    (mmap_uxpte_ok env = false ->
       InitUxPageTable env (Some t0) a n
       = Some (PM_MMAP_UXPT_FAIL, Some {| dataAddr := a; dataSize := n; uxpte := None |})) /\
    (mmap_uxpte_ok env = true ->
       exists ptes,
         let t := {| dataAddr := a; dataSize := n; uxpte := Some ptes |} in
         InitUxPageTable env (Some t0) a n = Some (PM_OK, Some t) /\
         table_ok t /\
         (forall k, covered t a n k -> ptes !! k = Some 0) /\
         (forall k, (k < length ptes)%nat -> ~ covered t a n k ->
                    ptes !! k = Some (mmap_uxpte_init env k)) /\
         UxpteIsPresent (Some t) a n = Some false).
Proof.
  intros env t0 a n Hsupp Ha Hal Hn Hnal Htop. pose proof PAGE_SIZE_range as Hp.
  unfold InitUxPageTable. rewrite Hsupp. cbn [negb uxpte]. split.
  - intros Hfail. unfold MapUxptePages. rewrite Hfail. reflexivity.
  - intros Hok.
    assert (Ha0 : 0 <= a) by lia.
    assert (Htop' : a + n <= 2 ^ 64 - PAGE_SIZE) by lia.
    destruct (MapUxptePages_ok env a n Ha0 Hn Htop' Hok) as (ptes0 & -> & Hlen & Hinit).
    set (t := {| dataAddr := a; dataSize := n; uxpte := Some ptes0 |}).
    assert (Htok : table_ok t).
    { unfold table_ok. cbn [t dataAddr dataSize uxpte]. split; [lia|]. split; [lia|].
      split; [lia|]. exists ptes0. split; [reflexivity | exact Hlen]. }
    assert (Hlo : dataAddr t <= RoundDown a PAGE_SIZE).
    { cbn [t dataAddr]. rewrite RoundDown_aligned by lia. lia. }
    assert (Hhi : RoundUp (u64 (a + n)) PAGE_SIZE <= dataAddr t + dataSize t).
    { cbn [t dataAddr dataSize]. rewrite u64_small by lia.
      rewrite RoundUp_aligned; [lia | lia | | lia].
      rewrite <- Zplus_mod_idemp_l, Hal, Z.add_0_l. exact Hnal. }
    assert (Haddr : 0 <= a < 2 ^ 64) by lia.
    set (i := first_index t a). set (cnt := page_count a n).
    set (ptes := update_range (word_op UPT_CLEAR) i cnt ptes0).
    assert (Hclear : UxpteClear (Some t) a n = Some (Some (set_uxpte t ptes))).
    { unfold UxpteClear. rewrite Hsupp. cbn [negb].
      rewrite (UxpteOps_update t ptes0) by (try assumption; try discriminate; reflexivity).
      reflexivity. }
    rewrite Hclear. cbn [mbind option_bind].
    exists ptes. cbv zeta. change (set_uxpte t ptes)
      with {| dataAddr := a; dataSize := n; uxpte := Some ptes |}.
    set (t' := {| dataAddr := a; dataSize := n; uxpte := Some ptes |}).
    assert (Htok' : table_ok t').
    { apply (table_ok_set_uxpte t ptes0 ptes Htok eq_refl). apply update_range_length. }
    assert (Hcov : forall k, covered t' a n k <-> (i <= k < i + cnt)%nat).
    { intros k. change (covered t' a n k) with (covered t a n k).
      apply (covered_interval t ptes0); try assumption. reflexivity. }
    split; [reflexivity|]. split; [exact Htok'|].
    destruct (range_in_table t ptes0 a n Htok eq_refl Haddr Hlo Hhi) as (Hend & _ & Hfit).
    { cbn [t dataAddr dataSize] in Hlo, Hhi. rewrite RoundDown_aligned in * by lia.
      rewrite u64_small in * by lia.
      rewrite RoundUp_aligned; [lia | lia | | lia].
      rewrite <- Zplus_mod_idemp_l, Hal, Z.add_0_l. exact Hnal. }
    fold i cnt in Hfit.
    assert (Hcnt : (0 < cnt)%nat).
    { rewrite RoundDown_aligned in Hend by lia. rewrite u64_small in Hend by lia.
      rewrite RoundUp_aligned in Hend; [ | lia | | lia].
      - fold cnt in Hend. destruct cnt; [|lia]. cbn in Hend. lia.
      - rewrite <- Zplus_mod_idemp_l, Hal, Z.add_0_l. exact Hnal. }
    split; [|split].
    + intros k Hk. apply Hcov in Hk. unfold ptes. rewrite update_range_lookup.
      replace ((i <=? k)%nat && (k <? i + cnt)%nat) with true
        by (symmetry; apply andb_true_iff; split; [apply Nat.leb_le | apply Nat.ltb_lt]; lia).
      rewrite Hinit by lia. reflexivity.
    + intros k Hlt Hk. unfold ptes in *. rewrite update_range_length in Hlt.
      rewrite update_range_lookup.
      replace ((i <=? k)%nat && (k <? i + cnt)%nat) with false.
      * rewrite Hinit by exact Hlt. reflexivity.
      * symmetry. apply andb_false_iff.
        destruct (Nat.leb_spec i k) as [Hle|Hgt]; [|left; reflexivity].
        right. apply Nat.ltb_ge.
        destruct (Nat.le_gt_cases (i + cnt) k) as [Hge|Hlt2]; [exact Hge|].
        exfalso. apply Hk, Hcov. lia.
    + unfold UxpteIsPresent. rewrite Hsupp. cbn [negb].
      rewrite (UxpteOps_present t' ptes) by (try assumption; reflexivity).
      cbn [mbind option_bind fst]. change (first_index t' a) with i. fold cnt.
      destruct (forallb IsUxptePresent (take cnt (drop i ptes))) eqn:Hall; [|reflexivity].
      exfalso. rewrite forallb_present_range in Hall.
      assert (Hz : ptes !! i = Some 0).
      { unfold ptes. rewrite update_range_lookup.
        replace ((i <=? i)%nat && (i <? i + cnt)%nat) with true
          by (symmetry; apply andb_true_iff; split; [apply Nat.leb_le | apply Nat.ltb_lt]; lia).
        rewrite Hinit by lia. reflexivity. }
      specialize (Hall i 0 ltac:(lia) Hz). discriminate Hall.
Qed.

Lemma InitUxPageTable_clears_witness :
  let env := {| mmap_uxpte_ok := true; mmap_uxpte_init := fun _ => 7; munmap_uxpte_ret := 0 |} in
  exists ptes,
    @InitUxPageTable (page4k true) env (Some (table_2p 1)) 65536 8192
      = Some (PM_OK, Some {| dataAddr := 65536; dataSize := 8192; uxpte := Some ptes |}) /\
    ptes !! 15%nat = Some 7 /\
    @UxpteIsPresent (page4k true)
      (Some {| dataAddr := 65536; dataSize := 8192; uxpte := Some ptes |}) 65536 8192
      = Some false.
Proof.
  intros env.
  destruct (@InitUxPageTable_clears (page4k true) env (table_2p 1) 65536 8192)
    as [_ Hok]; try reflexivity.
  destruct (Hok eq_refl) as (ptes & Hinit & Htok & _ & Hrest & Habsent).
  exists ptes. split; [exact Hinit|]. split; [|exact Habsent].
  destruct Htok as (_ & _ & _ & ptes' & Hp & Hlen).
  injection Hp as <-.
  apply (Hrest 15%nat).
  - apply Nat2Z.inj_lt. rewrite Hlen. reflexivity.
  - intros (x & Hx & Hk). revert Hx Hk.
    replace (@RoundDown 65536 (@PAGE_SIZE (page4k true))) with 65536 by reflexivity.
    replace (@RoundUp (u64 (65536 + 8192)) (@PAGE_SIZE (page4k true))) with 73728
      by reflexivity.
    intros Hx Hk.
    rewrite (@GetIndexInUxpte_page (page4k true)) in Hk by (cbn [dataAddr]; lia).
    cbn [dataAddr] in Hk.
    assert (Hq : 16 <= x / @PAGE_SIZE (page4k true)).
    { change (@PAGE_SIZE (page4k true)) with 4096.
      apply Z.div_le_lower_bound; lia. }
    change (65536 / @PAGE_SIZE (page4k true)) with 16 in Hk.
    change (16 mod @UXPTE_PER_PAGE (page4k true)) with 16 in Hk. lia.
Defined.

(** X9.  [InitUxPageTable] clears through [UxpteClear], which refuses a
    range that is not made of whole pages of the table: for an address that
    is not page-aligned it answers PM_OK with the descriptors as mapped, not
    cleared, and every later operation on that address is out of range. *)
Theorem InitUxPageTable_unaligned `{Platform} :
  forall env t0 a n ptes,
    g_supportUxpt = true ->
    0 <= a < 2 ^ 64 -> a mod PAGE_SIZE <> 0 ->
    MapUxptePages env a n = Some ptes ->
    let t := {| dataAddr := a; dataSize := n; uxpte := Some ptes |} in
    InitUxPageTable env (Some t0) a n = Some (PM_OK, Some t) /\
    forall len op, UxpteOps (Some t) a len op = Some (PM_UXPT_OUT_RANGE, Some t).
Proof.
  intros env t0 a n ptes Hsupp Ha Hun Hmap t. pose proof PAGE_SIZE_range as Hp.
  assert (Hne : PAGE_SIZE <> 0) by lia.
  assert (Hlow : RoundDown a PAGE_SIZE < dataAddr t).
  { cbn [t dataAddr]. rewrite RoundDown_page by exact Ha.
    pose proof (Z.div_mod a PAGE_SIZE Hne) as Hd.
    assert (Hpos : 0 < PAGE_SIZE) by lia.
    pose proof (Z.mod_pos_bound a PAGE_SIZE Hpos) as Hb. lia. }
  assert (Hops : forall len op, UxpteOps (Some t) a len op = Some (PM_UXPT_OUT_RANGE, Some t)).
  { intros len op. apply UxpteOps_out_of_range. left. exact Hlow. }
  split; [|exact Hops].
  unfold InitUxPageTable. rewrite Hsupp. cbn [negb uxpte]. rewrite Hmap.
  unfold UxpteClear. rewrite Hsupp. cbn [negb]. fold t. rewrite Hops. reflexivity.
Qed.

Lemma InitUxPageTable_unaligned_witness :
  let env := {| mmap_uxpte_ok := true; mmap_uxpte_init := fun _ => 7; munmap_uxpte_ret := 0 |} in
  @InitUxPageTable (page4k true) env (Some (table_2p 1)) 65546 4096
    = Some (PM_OK, Some {| dataAddr := 65546; dataSize := 4096;
                           uxpte := Some (replicate 512 7) |}).
Proof.
  intros env.
  assert (Ha : 0 <= 65546 < 2 ^ 64) by (split; [discriminate | reflexivity]).
  assert (Hun : 65546 mod @PAGE_SIZE (page4k true) <> 0) by (vm_compute; discriminate).
  assert (Hmap : @MapUxptePages (page4k true) env 65546 4096 = Some (replicate 512 7))
    by reflexivity.
  exact (proj1 (@InitUxPageTable_unaligned (page4k true) env (table_2p 1) 65546 4096
                  (replicate 512 7) eq_refl Ha Hun Hmap)).
Defined.

(** X10.  [DeinitUxPageTable] with the capability on: a NULL table is
    PM_MMAP_UXPT_FAIL; when [munmap] of the descriptors fails the answer is
    PM_UNMAP_UXPT_FAIL and the table is as it was; otherwise the answer is
    PM_OK and the table is reset to (0, 0, NULL), on which a second call
    answers PM_OK without calling [munmap], whatever [munmap] would say. *)
Theorem DeinitUxPageTable_cases `{Platform} :
  forall env t,
    g_supportUxpt = true ->
    let reset := {| dataAddr := 0; dataSize := 0; uxpte := None |} in
    DeinitUxPageTable env None = (PM_MMAP_UXPT_FAIL, None) /\
    (uxpte t <> None -> munmap_uxpte_ret env <> 0 ->
       DeinitUxPageTable env (Some t) = (PM_UNMAP_UXPT_FAIL, Some t)) /\
    (uxpte t = None \/ munmap_uxpte_ret env = 0 ->
       DeinitUxPageTable env (Some t) = (PM_OK, Some reset)) /\
    (forall env2, DeinitUxPageTable env2 (Some reset) = (PM_OK, Some reset)).
Proof.
  intros env t Hsupp reset. unfold DeinitUxPageTable. rewrite Hsupp. cbn [negb].
  split; [reflexivity|]. split; [|split].
  - intros Hmapped Hret. destruct (uxpte t) as [ptes|]; [|contradiction].
    unfold UnmapUxptePages.
    replace (munmap_uxpte_ret env =? 0) with false by (symmetry; apply Z.eqb_neq; exact Hret).
    reflexivity.
  - intros [Hnone|Hret].
    + rewrite Hnone. reflexivity.
    + destruct (uxpte t) as [ptes|]; [|reflexivity].
      unfold UnmapUxptePages. rewrite Hret. reflexivity.
  - intros env2. reflexivity.
Qed.

Lemma DeinitUxPageTable_cases_witness :
  let env := {| mmap_uxpte_ok := true; mmap_uxpte_init := fun _ => 0; munmap_uxpte_ret := -1 |} in
  @DeinitUxPageTable (page4k true) env (Some (table_2p 0))
    = (PM_UNMAP_UXPT_FAIL, Some (table_2p 0)) /\
  @DeinitUxPageTable (page4k true) (uxpt_env env_ok) (Some (table_2p 0))
    = (PM_OK, Some {| dataAddr := 0; dataSize := 0; uxpte := None |}).
Proof.
  intros env.
  destruct (@DeinitUxPageTable_cases (page4k true) env (table_2p 0) eq_refl)
    as (_ & Hfail & _).
  destruct (@DeinitUxPageTable_cases (page4k true) (uxpt_env env_ok) (table_2p 0) eq_refl)
    as (_ & _ & Hok & _).
  split.
  - apply Hfail; discriminate.
  - apply Hok. right. reflexivity.
Defined.

(** X11.  A table that [DeinitUxPageTable] has reset is safe to use: no
    operation reads or writes a descriptor through its NULL [uxpte]; the
    answer is PM_UXPT_OUT_RANGE, or PM_OK when the rounded end of the range
    is 0 (nothing to go through). *)
Theorem UxpteOps_after_deinit `{Platform} :
  forall addr len op,
    0 <= addr < 2 ^ 64 ->
    let reset := {| dataAddr := 0; dataSize := 0; uxpte := None |} in
    exists st,
      UxpteOps (Some reset) addr len op = Some (st, Some reset) /\
      (st = PM_UXPT_OUT_RANGE \/
       st = PM_OK /\ RoundUp (u64 (addr + len)) PAGE_SIZE = 0).
Proof.
  intros addr len op Haddr reset. unfold UxpteOps. cbn [reset dataAddr dataSize].
  pose proof (RoundDown_nonneg addr Haddr) as Hlo.
  pose proof (u64_range (addr + len)) as Hsum.
  pose proof (RoundUp_ge (u64 (addr + len)) Hsum) as Hge.
  replace (RoundDown addr PAGE_SIZE <? 0) with false by (symmetry; apply Z.ltb_ge; exact Hlo).
  change (u64 (0 + 0)) with 0. cbn [orb].
  destruct (0 <? RoundUp (u64 (addr + len)) PAGE_SIZE) eqn:E.
  - exists PM_UXPT_OUT_RANGE. split; [reflexivity | left; reflexivity].
  - apply Z.ltb_ge in E. exists PM_OK. split; [|right; split; [reflexivity | lia]].
    unfold UxpteOps_fuel. rewrite Nat.add_comm. cbn [Nat.add UxpteOps_loop].
    replace (RoundDown addr PAGE_SIZE <? RoundUp (u64 (addr + len)) PAGE_SIZE) with false
      by (symmetry; apply Z.ltb_ge; lia).
    reflexivity.
Qed.

Lemma UxpteOps_after_deinit_witness :
  @UxpteOps (page4k true) (Some {| dataAddr := 0; dataSize := 0; uxpte := None |})
            65536 4096 UPT_GET
  = Some (PM_UXPT_OUT_RANGE, Some {| dataAddr := 0; dataSize := 0; uxpte := None |}).
Proof.
  assert (Haddr : 0 <= 65536 < 2 ^ 64) by (split; [discriminate | reflexivity]).
  destruct (@UxpteOps_after_deinit (page4k true) 65536 4096 UPT_GET Haddr)
    as (st & Hrun & [->|[_ Habs]]).
  - exact Hrun.
  - vm_compute in Habs. discriminate.
Defined.

Section PresentEdges.
Context `{Platform}.

Lemma RoundDown_le a : 0 <= a < 2 ^ 64 -> RoundDown a PAGE_SIZE <= a.
Proof.
  intros Ha. rewrite RoundDown_page by exact Ha.
  pose proof PAGE_SIZE_range as Hp.
  apply Z.mul_div_le. lia.
Qed.

End PresentEdges.

(** X12.  [UxpteIsPresent] with the capability on answers false for a NULL
    table.  On a table whose end [dataAddr + dataSize] is below 2^64, it
    answers false for every range whose end [addr + len] does not wrap and
    that starts below [dataAddr] or ends above [dataAddr + dataSize], and
    true, without looking at a descriptor, for an empty range inside it (a
    page-aligned address with length 0). *)
Theorem UxpteIsPresent_edges `{Platform} :
  forall t addr len,
    g_supportUxpt = true ->
    0 <= dataAddr t -> 0 <= dataSize t -> dataAddr t + dataSize t < 2 ^ 64 ->
    UxpteIsPresent None addr len = Some false /\
    (0 <= addr -> 0 <= len -> addr + len < 2 ^ 64 ->
     addr < dataAddr t \/ dataAddr t + dataSize t < addr + len ->
       UxpteIsPresent (Some t) addr len = Some false) /\
    (0 <= addr -> addr + PAGE_SIZE < 2 ^ 64 -> addr mod PAGE_SIZE = 0 ->
     dataAddr t <= addr <= dataAddr t + dataSize t ->
       UxpteIsPresent (Some t) addr 0 = Some true).
Proof.
  intros t addr len Hsupp HdA HdS Htop. unfold UxpteIsPresent. rewrite Hsupp. cbn [negb].
  assert (Hsum : u64 (dataAddr t + dataSize t) = dataAddr t + dataSize t)
    by (apply u64_small; lia).
  split; [reflexivity|]. split.
  - intros Ha Hl Hwrap Hout.
    rewrite UxpteOps_out_of_range; [reflexivity|].
    rewrite Hsum. rewrite (u64_small (addr + len)) by lia.
    pose proof (RoundDown_le addr ltac:(lia)) as Hlo.
    pose proof (RoundUp_ge (addr + len) ltac:(lia)) as Hhi.
    lia.
  - intros Ha Hpage Hal Hin. pose proof PAGE_SIZE_range as Hp.
    unfold UxpteOps. rewrite Z.add_0_r. rewrite (u64_small addr) by lia.
    rewrite RoundDown_aligned by lia. rewrite RoundUp_aligned by assumption.
    replace (addr <? dataAddr t) with false by (symmetry; apply Z.ltb_ge; lia).
    replace (u64 (dataAddr t + dataSize t) <? addr) with false
      by (symmetry; apply Z.ltb_ge; lia).
    cbn [orb]. unfold UxpteOps_fuel. rewrite Nat.add_comm. cbn [Nat.add UxpteOps_loop].
    rewrite Z.ltb_irrefl. reflexivity.
Qed.

Lemma UxpteIsPresent_edges_witness :
  @UxpteIsPresent (page4k true) (Some (table_2p 0)) 4096 4096 = Some false /\
  @UxpteIsPresent (page4k true) (Some (table_2p 0)) 69632 8192 = Some false /\
  @UxpteIsPresent (page4k true) (Some (table_2p 0)) 65536 0 = Some true.
Proof.
  assert (HdA : 0 <= dataAddr (table_2p 0)) by discriminate.
  assert (HdS : 0 <= dataSize (table_2p 0)) by discriminate.
  assert (Htop : dataAddr (table_2p 0) + dataSize (table_2p 0) < 2 ^ 64) by reflexivity.
  destruct (@UxpteIsPresent_edges (page4k true) (table_2p 0) 4096 4096 eq_refl HdA HdS Htop)
    as (_ & Hbelow & _).
  destruct (@UxpteIsPresent_edges (page4k true) (table_2p 0) 69632 8192 eq_refl HdA HdS Htop)
    as (_ & Hpast & _).
  destruct (@UxpteIsPresent_edges (page4k true) (table_2p 0) 65536 0 eq_refl HdA HdS Htop)
    as (_ & _ & Hempty).
  split; [|split].
  - apply Hbelow; try discriminate; try reflexivity. left. reflexivity.
  - apply Hpast; try discriminate; try reflexivity. right. reflexivity.
  - apply Hempty; try discriminate; try reflexivity.
    split; discriminate.
Defined.

(** ** Sessions *)

Section Sessions.
Context `{Platform}.

Lemma refcnts_None upt : refcnts upt = None <-> upt = None.
Proof. destruct upt; cbn; split; intros Hx; congruence. Qed.

Lemma valid_frame o o' :
  dataPtr o' = dataPtr o -> builder o' = builder o ->
  refcnts (uxPageTable o') = refcnts (uxPageTable o) ->
  IsPurgMemPtrValid (Some o') = IsPurgMemPtrValid (Some o).
Proof.
  intros Hp Hb Hr. unfold IsPurgMemPtrValid. rewrite Hp, Hb.
  destruct (uxPageTable o) as [t|] eqn:Ht, (uxPageTable o') as [t'|] eqn:Ht';
    cbn in Hr; try discriminate; reflexivity.
Qed.

Lemma unlock_returns o : rwlock o <> RwUnlocked -> is_Some (unlock o).
Proof.
  intros Hheld. unfold unlock, pthread_rwlock_unlock.
  destruct (negb (next_ret (unlock_rets o) =? 0)); [eexists; reflexivity|].
  destruct (rwlock o) as [|[|n]|]; [contradiction | | |]; eexists; reflexivity.
Qed.

Lemma UxpteOps_loop_keeps_table op fuel : forall t off end_ st u,
  UxpteOps_loop fuel (Some t) off end_ op = Some (st, u) -> exists t', u = Some t'.
Proof.
  induction fuel as [|fuel IH]; intros t off end_ st u Hrun; [discriminate|].
  cbn [UxpteOps_loop] in Hrun.
  destruct (off <? end_); [|injection Hrun as _ <-; eexists; reflexivity].
  destruct op; cbn [GetUxpteAt PutUxpteAt ClearUxpteAt] in Hrun.
  - destruct (uxpte_update t _ _) as [t1|]; [|discriminate].
    cbn [mbind option_bind] in Hrun. eapply IH; exact Hrun.
  - destruct (uxpte_update t _ _) as [t1|]; [|discriminate].
    cbn [mbind option_bind] in Hrun. eapply IH; exact Hrun.
  - destruct (uxpte_update t _ _) as [t1|]; [|discriminate].
    cbn [mbind option_bind] in Hrun. eapply IH; exact Hrun.
  - destruct (IsPresentAt (Some t) off) as [present|]; [|discriminate].
    cbn [mbind option_bind] in Hrun.
    destruct (negb present); [injection Hrun as _ <-; eexists; reflexivity|].
    eapply IH; exact Hrun.
Qed.

Lemma UxpteGet_keeps_table t addr len u :
  UxpteGet (Some t) addr len = Some u -> exists t', u = Some t'.
Proof.
  unfold UxpteGet. destruct (negb g_supportUxpt).
  - intros [= <-]. eexists; reflexivity.
  - destruct (UxpteOps (Some t) addr len UPT_GET) as [[st u']|] eqn:Hops; [|discriminate].
    cbn [mbind option_bind snd]. intros [= <-].
    unfold UxpteOps in Hops.
    destruct (_ || _); [injection Hops as _ <-; eexists; reflexivity|].
    eapply UxpteOps_loop_keeps_table; exact Hops.
Qed.

(** A pinned table, present bits changed or not, can be unpinned. *)
Lemma UxptePut_returns o u1 u2 :
  region_ok o ->
  UxpteGet (uxPageTable o) (dataPtr o) (dataSizeInput o) = Some u1 ->
  refcnts u2 = refcnts u1 ->
  is_Some (UxptePut u2 (dataPtr o) (dataSizeInput o)).
Proof.
  intros Hok Hget Hdrift. unfold UxpteGet in Hget. unfold UxptePut.
  destruct g_supportUxpt eqn:Hsupp; cbn [negb] in Hget |- *; [|eexists; reflexivity].
  pose proof Hok as (_ & _ & _ & _ & _ & _ & Htab).
  destruct (Htab Hsupp) as (t & Ht & Htok & HdA & HdS).
  pose proof Htok as (HA & HS & Htop & ptes & Hptes & Hlen).
  destruct (region_range o t Hok Hsupp Ht) as (_ & Haddr & Hstart & Hend).
  rewrite Ht in Hget.
  rewrite (UxpteOps_update t ptes) in Hget by (try assumption; try discriminate; lia).
  cbn [mbind option_bind snd] in Hget. injection Hget as <-.
  unfold refcnts in Hdrift.
  destruct u2 as [t2|]; cbn [mbind option_bind set_uxpte dataAddr dataSize uxpte] in Hdrift;
    [|discriminate].
  injection Hdrift as HA2 HS2 Hp2.
  destruct (uxpte t2) as [ptes2|] eqn:Hptes2; cbn [fmap option_fmap option_map] in Hp2;
    [|discriminate].
  injection Hp2 as Hp2.
  assert (Hlen2 : length ptes2 = length ptes).
  { apply (f_equal length) in Hp2. rewrite !length_fmap, update_range_length in Hp2.
    exact Hp2. }
  assert (Htok2 : table_ok t2).
  { unfold table_ok. rewrite HA2, HS2. repeat split; try assumption.
    exists ptes2. split; [exact Hptes2 | congruence]. }
  rewrite (UxpteOps_update t2 ptes2)
    by (try assumption; try discriminate; rewrite ?HA2, ?HS2; lia).
  eexists. reflexivity.
Qed.

(** A read loop that is left with [ret = true], its unlock calls having
    succeeded, holds one more read lock than it found. *)
Lemma PurgMemBeginRead_loop_done fuel : forall o0 o o',
  mem_inv o0 o -> rwlock o = rwlock o0 -> Forall (eq 0) (unlock_rets o) ->
  PurgMemBeginRead_loop fuel o = Some (true, o') ->
  mem_inv o0 o' /\ rwlock o0 <> RwWrite /\ rwlock o' = rd_acquired (rwlock o0) /\
  Forall (eq 0) (unlock_rets o').
Proof.
  induction fuel as [|fuel IH]; intros o0 o o' Hinv Hlock Hz Hrun; [discriminate|].
  cbn [PurgMemBeginRead_loop] in Hrun.
  destruct (TryBeginRead o) as [[st o1]|] eqn:Htry; [|discriminate].
  cbn [mbind option_bind fst snd] in Hrun.
  destruct (next_ret_zero _ Hz) as [Hz0 Hztl].
  destruct (TryBeginRead_cases o st o1 Htry)
    as (Hs1 & _ & [(-> & _)|[(-> & _ & _ & Hnw & Hl1 & Hu1)|[(-> & _ & _ & Hnz & _)|
        (-> & _ & _ & _ & Hl1 & Hu1)]]]).
  - discriminate.
  - injection Hrun as <-. split; [eapply mem_inv_frame; eassumption|].
    split; [congruence|]. split; [congruence|]. rewrite Hu1. exact Hz.
  - contradiction.
  - destruct (BeginReadBuildData o1) as [[st2 o2]|] eqn:Hbuild; [|discriminate].
    cbn [mbind option_bind fst snd] in Hrun.
    assert (Hinv1 : mem_inv o0 o1) by (eapply mem_inv_frame; eassumption).
    assert (Hz1 : Forall (eq 0) (unlock_rets o1)) by (rewrite Hu1; exact Hztl).
    destruct (next_ret_zero _ Hz1) as [Hz10 Hz1tl].
    destruct (BeginReadBuildData_cases o1 st2 o2 Hbuild)
      as (_ & [(-> & _)|
               (_ & Hfree & oa & rebuildRet & ob & Hsa & _ & _ & Hmid & Hsb & Hu2 &
                [(-> & Hnz & _)|(_ & Hl2 & ->)])]).
    + discriminate.
    + contradiction.
    + assert (Hinv2 : mem_inv o0 o2).
      { eapply mem_inv_frame; [|exact Hsb].
        destruct Hmid as [[_ Hb]|(_ & _ & ->)].
        - eapply mem_inv_build; [|exact Hb]. eapply mem_inv_frame; eassumption.
        - eapply mem_inv_frame; eassumption. }
      assert (Hl2' : rwlock o2 = rwlock o0) by congruence.
      destruct rebuildRet; cbn [PMState_eqb negb] in Hrun; [|discriminate].
      apply (IH o0 o2 o'); try assumption. rewrite Hu2. exact Hz1tl.
Qed.

(** [EndAccessPurgMem] on an object that a session left pinned and locked:
    it returns, whatever the unlock answers, after its put; where the get
    could pin every covered descriptor the pins are dropped. *)
Lemma EndAccessPurgMem_unpins o oa o1 :
  region_ok o -> IsPurgMemPtrValid (Some o) = true ->
  pin o = Some oa -> mem_inv oa o1 ->
  rwlock o1 <> RwUnlocked ->
  exists u o2,
    unlock o1 = Some (next_ret (unlock_rets o1), u) /\
    EndAccessPurgMem (Some o1) = Some (Some o2) /\
    rwlock o2 = rwlock u /\
    (pinnable o -> refcnts (uxPageTable o2) = refcnts (uxPageTable o)) /\
    trace o2 = trace o1 ++ [EvUxptePut (dataPtr o) (dataSizeInput o)] /\
    data o2 = data o1 /\ buildDataCount o2 = buildDataCount o1.
Proof.
  intros Hok Hvalid Hp1 Hinv Hheld.
  destruct (pin_fields o oa Hp1) as (Hget & Hda & Hsa & Hba & _).
  destruct Hinv as (Hd1 & Hs1 & Hb1 & Hr1 & _).
  assert (Hvalid_a : IsPurgMemPtrValid (Some oa) = true).
  { unfold IsPurgMemPtrValid in *. rewrite Hda, Hba.
    destruct (dataPtr o =? 0); [discriminate|].
    destruct (uxPageTable o) as [t|] eqn:Ht; [|discriminate].
    destruct (UxpteGet_keeps_table t _ _ _ Hget) as [ta ->]. exact Hvalid. }
  assert (Hvalid1 : IsPurgMemPtrValid (Some o1) = true).
  { rewrite <- Hvalid_a. apply valid_frame; assumption. }
  destruct (unlock_returns o1 Hheld) as [[ret u] Hu].
  destruct (unlock_fields o1 ret u Hu) as (Hsu & Hretu & _ & _ & _ & _).
  subst ret.
  destruct Hsu as (Hdu & Hzu & Hbu & Huu & Hcu & Hdatau & Htu).
  assert (Hput : is_Some (UxptePut (uxPageTable u) (dataPtr u) (dataSizeInput u))).
  { rewrite Hdu, Hzu, Huu, Hd1, Hs1, Hda, Hsa.
    apply (UxptePut_returns o (uxPageTable oa)); assumption. }
  destruct Hput as [u3 Hput].
  exists u, (emit (set_uxPageTable u u3) (EvUxptePut (dataPtr u) (dataSizeInput u))).
  split; [exact Hu|]. split.
  - unfold EndAccessPurgMem. rewrite Hvalid1. cbn [negb mbind option_bind].
    rewrite Hu. cbn [mbind option_bind snd]. unfold unpin. rewrite Hput. reflexivity.
  - cbn [emit set_uxPageTable rwlock uxPageTable trace data buildDataCount].
    split; [reflexivity|]. split.
    + intros Hpin.
      apply (get_put_refcnts o (uxPageTable oa) (uxPageTable u) u3); try assumption.
      * congruence.
      * rewrite Hdu, Hzu, Hd1, Hs1, Hda, Hsa in Hput. exact Hput.
    + split; [|split; assumption].
      rewrite Htu, Hdu, Hzu, Hd1, Hs1, Hda, Hsa. reflexivity.
Qed.

End Sessions.

(** X13.  A read session is balanced.  When [PurgMemBeginRead] returns true
    on a live region whose descriptors can all be pinned, the caller holds
    one more read lock than before; [PurgMemEndRead] then returns, and, its
    unlock succeeding, leaves the lock and every reference count as they
    were before the session, the bytes and the build count as the begin left
    them.  Between the get and the put the session ran nothing but
    rebuilds. *)
Theorem read_session_balanced `{Platform} :
  forall fuel o o1,
    region_ok o -> IsPurgMemPtrValid (Some o) = true -> pinnable o ->
    Forall (eq 0) (unlock_rets o) ->
    PurgMemBeginRead fuel (Some o) = Some (true, Some o1) ->
    rwlock o <> RwWrite /\ rwlock o1 = rd_acquired (rwlock o) /\
    exists o2 builds,
      PurgMemEndRead (Some o1) = Some (Some o2) /\
      rwlock o2 = rwlock o /\
      refcnts (uxPageTable o2) = refcnts (uxPageTable o) /\
      trace o2 = trace o ++ [EvUxpteGet (dataPtr o) (dataSizeInput o)] ++ builds
                         ++ [EvUxptePut (dataPtr o) (dataSizeInput o)] /\
      builds_only builds /\
      data o2 = data o1 /\ buildDataCount o2 = buildDataCount o1.
Proof.
  intros fuel o o1 Hok Hvalid Hpin Hz Hrun.
  unfold PurgMemBeginRead in Hrun. rewrite Hvalid in Hrun.
  cbn [negb mbind option_bind] in Hrun.
  destruct (pin o) as [oa|] eqn:Hp1; [|discriminate]. cbn [mbind option_bind] in Hrun.
  destruct (PurgMemBeginRead_loop fuel oa) as [[ret ob]|] eqn:Hloop; [|discriminate].
  cbn [mbind option_bind fst snd] in Hrun.
  destruct ret; cbn [negb] in Hrun.
  2:{ destruct (unpin ob); discriminate. }
  injection Hrun as <-.
  destruct (pin_fields o oa Hp1) as (_ & _ & _ & _ & Hla & _ & Hua & _ & _ & Hta).
  destruct (PurgMemBeginRead_loop_done fuel oa oa ob (mem_inv_refl oa) eq_refl
              ltac:(rewrite Hua; exact Hz) Hloop) as (Hinv & Hnw & Hl1 & Hz1).
  rewrite Hla in Hnw, Hl1.
  split; [exact Hnw|]. split; [exact Hl1|].
  destruct (next_ret_zero _ Hz1) as [Hret _].
  assert (Hheld : rwlock ob <> RwUnlocked).
  { rewrite Hl1. destruct (rwlock o); discriminate. }
  destruct (EndAccessPurgMem_unpins o oa ob Hok Hvalid Hp1 Hinv Hheld)
    as (u & o2 & Hu & Hend & Hl2 & Hr2 & Ht2 & Hd2 & Hc2).
  rewrite Hret in Hu.
  destruct Hinv as (_ & _ & _ & _ & builds & Htb & Hbo).
  exists o2, builds. split; [exact Hend|]. split.
  - rewrite Hl2.
    destruct (unlock_fields ob 0 u Hu) as (_ & _ & _ & _ & _ & Hrel).
    destruct (Hrel eq_refl) as [[_ Hback]|[Hw _]].
    + apply (rd_acquired_inj (rwlock o)); [exact Hnw | congruence].
    + rewrite Hl1 in Hw. destruct (rwlock o); try discriminate. contradiction.
  - split; [exact (Hr2 Hpin)|]. split; [|split; [exact Hbo | split; assumption]].
    rewrite Ht2, Htb, Hta. rewrite <- !app_assoc. reflexivity.
Qed.

(** X14.  A write session is balanced.  [PurgMemBeginWrite] returns true
    only from a lock nobody held, holding it for writing, after at most one
    rebuild, which succeeded; [PurgMemEndWrite] then returns after its put
    and leaves the lock free when its unlock succeeds, and every reference
    count as before the session when the get of the begin could pin every
    covered descriptor. *)
Theorem write_session_balanced `{Platform} :
  forall o o1,
    region_ok o -> IsPurgMemPtrValid (Some o) = true ->
    PurgMemBeginWrite (Some o) = Some (true, Some o1) ->
    rwlock o = RwUnlocked /\ rwlock o1 = RwWrite /\
    exists o2 builds,
      (builds = [] \/ builds = [EvBuildData true]) /\
      trace o1 = trace o ++ [EvUxpteGet (dataPtr o) (dataSizeInput o)] ++ builds /\
      PurgMemEndWrite (Some o1) = Some (Some o2) /\
      (next_ret (unlock_rets o) = 0 -> rwlock o2 = RwUnlocked) /\
      (pinnable o -> refcnts (uxPageTable o2) = refcnts (uxPageTable o)) /\
      trace o2 = trace o1 ++ [EvUxptePut (dataPtr o) (dataSizeInput o)] /\
      data o2 = data o1 /\ buildDataCount o2 = buildDataCount o1.
Proof.
  intros o o1 Hok Hvalid Hrun.
  unfold PurgMemBeginWrite in Hrun. rewrite Hvalid in Hrun.
  cbn [negb mbind option_bind] in Hrun.
  destruct (pin o) as [oa|] eqn:Hp1; [|discriminate]. cbn [mbind option_bind] in Hrun.
  destruct (pin_fields o oa Hp1) as (_ & _ & _ & _ & Hla & _ & Hua & _ & _ & Hta).
  destruct (wrlock oa) as [[ret ow]|] eqn:Hw; [|discriminate].
  cbn [mbind option_bind fst snd] in Hrun.
  destruct (wrlock_fields oa ret ow Hw) as (Hsw & _ & _ & Huw & _ & Hacq).
  destruct (ret =? 0) eqn:E; cbn [negb] in Hrun.
  2:{ destruct (unpin ow); discriminate. }
  apply Z.eqb_eq in E. destruct (Hacq E) as [Hfree Hlw].
  assert (Hinvw : mem_inv oa ow) by (eapply mem_inv_frame; [apply mem_inv_refl | exact Hsw]).
  assert (Htw : trace ow = trace oa) by (destruct Hsw as (_ & _ & _ & _ & _ & _ & Hx); exact Hx).
  assert (Hfin : exists builds,
            (builds = [] \/ builds = [EvBuildData true]) /\
            trace o1 = trace oa ++ builds /\ mem_inv oa o1 /\
            rwlock o1 = RwWrite /\ unlock_rets o1 = unlock_rets oa).
  { destruct (IsPurged ow) as [purged|]; [|discriminate].
    cbn [mbind option_bind] in Hrun. destruct purged; cbn [negb] in Hrun.
    - destruct (PurgMemBuildData ow) as [[succ ob]|] eqn:Hb; [|discriminate].
      cbn [mbind option_bind fst snd] in Hrun.
      destruct succ.
      + injection Hrun as <-.
        destruct (PurgMemBuildData_frame ow true ob Hb)
          as (_ & _ & _ & Hlb & _ & Hub & Htb & _).
        exists [EvBuildData true]. split; [right; reflexivity|].
        split; [congruence|]. split; [eapply mem_inv_build; eassumption|].
        split; congruence.
      + destruct (unlock ob) as [[r u]|]; [|discriminate].
        cbn [mbind option_bind snd] in Hrun. destruct (unpin u); discriminate.
    - injection Hrun as <-. exists []. split; [left; reflexivity|].
      split; [rewrite app_nil_r; exact Htw|]. split; [exact Hinvw|]. split; assumption. }
  destruct Hfin as (builds & Hbuilds & Ht1 & Hinv1 & Hl1 & Hu1).
  split; [congruence|]. split; [exact Hl1|].
  assert (Hheld : rwlock o1 <> RwUnlocked) by (rewrite Hl1; discriminate).
  destruct (EndAccessPurgMem_unpins o oa o1 Hok Hvalid Hp1 Hinv1 Hheld)
    as (u & o2 & Hu & Hend & Hl2 & Hr2 & Ht2 & Hd2 & Hc2).
  exists o2, builds. split; [exact Hbuilds|]. split.
  { rewrite Ht1, Hta, <- app_assoc. reflexivity. }
  split; [exact Hend|]. split.
  - intros Hret.
    assert (Hret1 : next_ret (unlock_rets o1) = 0) by congruence.
    rewrite Hret1 in Hu. rewrite Hl2.
    destruct (unlock_fields o1 0 u Hu) as (_ & _ & _ & _ & _ & Hrel).
    destruct (Hrel eq_refl) as [[Hnw _]|[_ Hx]]; [contradiction | exact Hx].
  - repeat split; assumption.
Qed.

Lemma region_4000_ok chain pte count bytes :
  length bytes = 4096%nat -> 0 <= count < 2 ^ 32 ->
  @region_ok (page4k true) (region_4000 chain pte count bytes).
Proof.
  intros Hlen Hcount. unfold region_ok.
  cbn [region_4000 dataPtr dataSizeInput data buildDataCount uxPageTable].
  split; [split; reflexivity|]. split; [reflexivity|].
  split; [reflexivity|]. split; [reflexivity|].
  split; [rewrite Hlen; reflexivity|]. split; [exact Hcount|].
  intros _. eexists. split; [reflexivity|]. split; [|split; reflexivity].
  unfold table_ok. split; [discriminate|]. split; [reflexivity|].
  split; [discriminate|]. eexists. split; [reflexivity|].
  rewrite length_replicate. reflexivity.
Qed.

Lemma region_4000_pinnable chain pte count bytes :
  0 <= pte < 2 ^ 64 - 2 ->
  @pinnable (page4k true) (region_4000 chain pte count bytes).
Proof.
  intros Hpte t ptes k x Ht Hptes _ Hk.
  cbn [region_4000 uxPageTable] in Ht. apply (inj Some) in Ht. subst t.
  cbn [uxpte] in Hptes. apply (inj Some) in Hptes. subst ptes.
  apply lookup_replicate in Hk. destruct Hk as [-> _].
  rewrite UXPTE_UNDER_RECLAIM_val. exact Hpte.
Qed.

Lemma read_session_balanced_witness :
  let o := region_4000 [ {| Build := fill "Z"; param := 0 |} ] 1 1 (replicate 4096 x00) in
  exists o1 o2,
    @PurgMemBeginRead (page4k true) 1 (Some o) = Some (true, Some o1) /\
    @PurgMemEndRead (page4k true) (Some o1) = Some (Some o2) /\
    rwlock o2 = RwUnlocked /\
    refcnts (uxPageTable o2) = refcnts (uxPageTable o).
Proof.
  intros o.
  assert (Hok : @region_ok (page4k true) o).
  { apply region_4000_ok; [apply length_replicate | split; [discriminate | reflexivity]]. }
  assert (Hpin : @pinnable (page4k true) o).
  { apply region_4000_pinnable. split; [discriminate | reflexivity]. }
  destruct (@PurgMemBeginRead (page4k true) 1 (Some o)) as [[ret r]|] eqn:Hrun;
    [|vm_compute in Hrun; discriminate].
  assert (Hr : ret = true /\ exists o1, r = Some o1).
  { vm_compute in Hrun. injection Hrun as <- <-. split; [reflexivity | eexists; reflexivity]. }
  destruct Hr as [-> [o1 ->]].
  assert (Hz : Forall (eq 0) (unlock_rets o)) by constructor.
  destruct (@read_session_balanced (page4k true) 1%nat o o1 Hok eq_refl Hpin Hz Hrun) as (_ & _ & o2 & builds & Hend & Hl & Hr & _).
  exists o1, o2. split; [reflexivity|]. split; [exact Hend|]. split; assumption.
Defined.

Lemma write_session_balanced_witness :
  let o := region_4000 [ {| Build := fill "Z"; param := 0 |} ] 0 1 (replicate 4096 x00) in
  exists o1 o2,
    @PurgMemBeginWrite (page4k true) (Some o) = Some (true, Some o1) /\
    rwlock o1 = RwWrite /\
    @PurgMemEndWrite (page4k true) (Some o1) = Some (Some o2) /\
    rwlock o2 = RwUnlocked /\
    refcnts (uxPageTable o2) = refcnts (uxPageTable o).
Proof.
  intros o.
  assert (Hok : @region_ok (page4k true) o).
  { apply region_4000_ok; [apply length_replicate | split; [discriminate | reflexivity]]. }
  assert (Hpin : @pinnable (page4k true) o).
  { apply region_4000_pinnable. split; [discriminate | reflexivity]. }
  destruct (@PurgMemBeginWrite (page4k true) (Some o)) as [[ret r]|] eqn:Hrun;
    [|vm_compute in Hrun; discriminate].
  assert (Hr : ret = true /\ exists o1, r = Some o1).
  { vm_compute in Hrun. injection Hrun as <- <-. split; [reflexivity | eexists; reflexivity]. }
  destruct Hr as [-> [o1 ->]].
  destruct (@write_session_balanced (page4k true) o o1 Hok eq_refl Hrun)
    as (_ & Hl1 & o2 & builds & _ & _ & Hend & Hl & Hr & _).
  exists o1, o2. split; [reflexivity|]. split; [exact Hl1|].
  split; [exact Hend|]. split; [exact (Hl eq_refl) | exact (Hr Hpin)].
Defined.

(** ** Reading a resident region *)

Section Resident.
Context `{Platform}.

Lemma present_pin_word pte : IsUxptePresent (pin_word pte) = IsUxptePresent pte.
Proof.
  rewrite !IsUxptePresent_odd. unfold pin_word.
  destruct ((u64 (pte + 2) <? pte) || (u64 (pte + 2) <? 2)); [reflexivity|].
  destruct (u64 (ULONG_MAX - pte) <? 2); [reflexivity|].
  unfold u64. rewrite <- !Z.bit0_odd.
  rewrite Z.mod_pow2_bits_low by lia.
  rewrite !Z.bit0_odd.
  replace (pte + 2) with (pte + 2 * 1) by lia.
  apply Z.odd_add_mul_2.
Qed.

Lemma pin_returns o : region_ok o -> is_Some (pin o).
Proof.
  intros Hok. unfold pin, UxpteGet.
  destruct g_supportUxpt eqn:Hsupp; cbn [negb]; [|eexists; reflexivity].
  pose proof Hok as (_ & _ & _ & _ & _ & _ & Htab).
  destruct (Htab Hsupp) as (t & Ht & Htok & HdA & HdS).
  pose proof Htok as (HA & HS & Htop & ptes & Hptes & Hlen).
  destruct (region_range o t Hok Hsupp Ht) as (_ & Haddr & Hstart & Hend).
  rewrite Ht.
  rewrite (UxpteOps_update t ptes) by (try assumption; try discriminate; lia).
  eexists. reflexivity.
Qed.

(** A pin changes no present bit. *)
Lemma UxpteIsPresent_pin o oa :
  region_ok o -> pin o = Some oa ->
  UxpteIsPresent (uxPageTable oa) (dataPtr o) (dataSizeInput o)
  = UxpteIsPresent (uxPageTable o) (dataPtr o) (dataSizeInput o).
Proof.
  intros Hok Hp1.
  destruct g_supportUxpt eqn:Hsupp; [|rewrite !UxpteIsPresent_off by exact Hsupp; reflexivity].
  pose proof (region_ok_pin o oa Hok Hp1) as Hoka.
  destruct (pin_fields o oa Hp1) as (Hget & Hda & Hsa & _).
  pose proof Hok as (_ & _ & _ & _ & _ & _ & Htab).
  destruct (Htab Hsupp) as (t & Ht & Htok & HdA & HdS).
  pose proof Htok as (HA & HS & Htop & ptes & Hptes & Hlen).
  destruct (region_range o t Hok Hsupp Ht) as (_ & Haddr & Hstart & Hend).
  unfold UxpteGet in Hget. rewrite Hsupp, Ht in Hget. cbn [negb] in Hget.
  rewrite (UxpteOps_update t ptes) in Hget by (try assumption; try discriminate; lia).
  cbn [mbind option_bind snd] in Hget. injection Hget as Hta. symmetry in Hta.
  set (i := first_index t (dataPtr o)) in *.
  set (n := page_count (dataPtr o) (dataSizeInput o)) in *.
  set (ptes1 := update_range (word_op UPT_GET) i n ptes) in *.
  rewrite (UxpteIsPresent_region o t ptes Hok Hsupp Ht Hptes).
  pose proof (UxpteIsPresent_region oa (set_uxpte t ptes1) ptes1 Hoka Hsupp Hta eq_refl)
    as Hpa.
  rewrite Hda, Hsa in Hpa. rewrite Hpa.
  change (first_index (set_uxpte t ptes1) (dataPtr o)) with i. fold i n. f_equal.
  destruct (forallb IsUxptePresent (take n (drop i ptes))) eqn:Hall.
  - apply forallb_present_range. intros k pte1 Hk Hl.
    rewrite forallb_present_range in Hall.
    unfold ptes1 in Hl. rewrite update_range_lookup in Hl. unfold uxpte_t in *.
    destruct (ptes !! k) as [pte|] eqn:Hlk; [|discriminate].
    cbn [fmap option_fmap option_map] in Hl. injection Hl as <-.
    specialize (Hall k pte Hk Hlk).
    destruct ((i <=? k)%nat && (k <? i + n)%nat); [|exact Hall].
    cbn [word_op]. rewrite present_pin_word. exact Hall.
  - destruct (absent_in_range ptes i n Hall) as (k & pte & Hk & Hlk & Habs).
    destruct (forallb IsUxptePresent (take n (drop i ptes1))) eqn:Hall1; [|reflexivity].
    exfalso. rewrite forallb_present_range in Hall1.
    assert (Hl1 : ptes1 !! k = Some (pin_word pte)).
    { unfold ptes1. rewrite update_range_lookup. unfold uxpte_t in *. rewrite Hlk.
      replace ((i <=? k)%nat && (k <? i + n)%nat) with true
        by (symmetry; apply andb_true_iff; split; [apply Nat.leb_le | apply Nat.ltb_lt]; lia).
      reflexivity. }
    specialize (Hall1 k _ Hk Hl1). rewrite present_pin_word in Hall1. congruence.
Qed.

End Resident.

(** X15.  Reading a resident region.  On a live region that has been built
    and whose pages are all present, [PurgMemBeginRead] returns true as soon
    as it has the read lock: it pins, rebuilds nothing, and leaves the bytes
    and the build count as they were. *)
Theorem PurgMemBeginRead_resident `{Platform} :
  forall fuel o,
    region_ok o -> IsPurgMemPtrValid (Some o) = true -> buildDataCount o <> 0 ->
    UxpteIsPresent (uxPageTable o) (dataPtr o) (dataSizeInput o) = Some true ->
    next_ret (lock_rets o) = 0 -> rwlock o <> RwWrite ->
    exists o',
      PurgMemBeginRead (S fuel) (Some o) = Some (true, Some o') /\
      UxpteGet (uxPageTable o) (dataPtr o) (dataSizeInput o) = Some (uxPageTable o') /\
      trace o' = trace o ++ [EvUxpteGet (dataPtr o) (dataSizeInput o)] /\
      data o' = data o /\ buildDataCount o' = buildDataCount o /\
      rwlock o' = rd_acquired (rwlock o).
Proof.
  intros fuel o Hok Hvalid Hbuilt Hpresent Hret Hlock.
  destruct (pin_returns o Hok) as [oa Hp1].
  pose proof (UxpteIsPresent_pin o oa Hok Hp1) as Hpa. rewrite Hpresent in Hpa.
  destruct (pin_fields o oa Hp1)
    as (Hget & Hda & Hsa & _ & Hla & Hlra & _ & Hca & Hdataa & Hta).
  unfold PurgMemBeginRead. rewrite Hvalid. cbn [negb mbind option_bind].
  rewrite Hp1. cbn [mbind option_bind PurgMemBeginRead_loop].
  unfold TryBeginRead, rdlock, pthread_rwlock_rdlock.
  rewrite Hlra, Hret. cbn [Z.eqb negb].
  assert (Hpurged : forall l,
            IsPurged (set_rwlock (set_lock_rets oa (tl (lock_rets o))) l) = Some false).
  { intros l. unfold IsPurged.
    cbn [set_rwlock set_lock_rets buildDataCount uxPageTable dataPtr dataSizeInput].
    rewrite Hca. replace (buildDataCount o =? 0) with false
      by (symmetry; apply Z.eqb_neq; exact Hbuilt).
    rewrite Hda, Hsa, Hpa. reflexivity. }
  rewrite Hla.
  destruct (rwlock o) as [|n|] eqn:Hl; [| |contradiction];
    cbn [mbind option_bind fst snd Z.eqb negb]; rewrite Hpurged;
    cbn [mbind option_bind fst snd negb];
    eexists; (split; [reflexivity|]);
    cbn [set_rwlock set_lock_rets uxPageTable trace data buildDataCount rwlock rd_acquired];
    repeat split; assumption.
Qed.

Lemma PurgMemBeginRead_resident_witness :
  let o := region_4000 [ {| Build := fill "Z"; param := 0 |} ] 1 3 (replicate 4096 "Q"%byte) in
  exists o',
    @PurgMemBeginRead (page4k true) 1 (Some o) = Some (true, Some o') /\
    data o' = replicate 4096 "Q"%byte /\ buildDataCount o' = 3 /\
    trace o' = [EvUxpteGet 65536 4000].
Proof.
  intros o.
  assert (Hok : @region_ok (page4k true) o).
  { apply region_4000_ok; [apply length_replicate | split; [discriminate | reflexivity]]. }
  destruct (@PurgMemBeginRead_resident (page4k true) O o Hok eq_refl)
    as (o' & Hrun & _ & Ht & Hd & Hc & _).
  - discriminate.
  - reflexivity.
  - reflexivity.
  - discriminate.
  - exists o'. split; [exact Hrun|]. repeat split; assumption.
Defined.

(** ** The build count *)

(** X16.  The build count is an [unsigned int]: the successful rebuild of a
    region whose count is 2^32 - 1 brings it to 0, and the region then reads
    as never built: [IsPurged] answers true whatever the table says, so the
    next session rebuilds again. *)
Theorem buildDataCount_wraps `{Platform} :
  forall o o',
    buildDataCount o = 2 ^ 32 - 1 ->
    PurgMemBuildData o = Some (true, o') ->
    buildDataCount o' = 0 /\ IsPurged o' = Some true.
Proof.
  intros o o' Hmax Hrun.
  destruct (PurgMemBuildData_frame o true o' Hrun) as (_ & _ & _ & _ & _ & _ & _ & Hc & _).
  assert (Hz : buildDataCount o' = 0) by (rewrite Hc, Hmax; reflexivity).
  split; [exact Hz | apply IsPurged_unbuilt; exact Hz].
Qed.

Lemma buildDataCount_wraps_witness :
  let o := region_4000 [ {| Build := fill "Z"; param := 0 |} ] 1 (2 ^ 32 - 1)
                       (replicate 4096 x00) in
  exists o',
    @PurgMemBuildData (page4k true) o = Some (true, o') /\
    buildDataCount o' = 0 /\ @IsPurged (page4k true) o' = Some true /\
    @UxpteIsPresent (page4k true) (uxPageTable o') (dataPtr o') (dataSizeInput o') = Some true.
Proof.
  intros o.
  destruct (@PurgMemBuildData (page4k true) o) as [[succ o']|] eqn:Hrun;
    [|vm_compute in Hrun; discriminate].
  assert (Hs : succ = true) by (vm_compute in Hrun; congruence). subst succ.
  destruct (@buildDataCount_wraps (page4k true) o o' eq_refl Hrun) as [Hc Hp].
  exists o'. split; [reflexivity|]. split; [exact Hc|]. split; [exact Hp|].
  vm_compute in Hrun. injection Hrun as <-. reflexivity.
Defined.

(** ** Creating, extending and destroying a region *)

(** What a create that returned a region went through. *)
Lemma PurgMemCreate_fields `{Platform} env len func para o :
  PurgMemCreate env len func para = Some (Some o) ->
  len <> 0 /\
  exists f,
    func = Some f /\
    malloc_obj_ok env = true /\ mmap_data_ret env = Some (dataPtr o) /\
    malloc_upt env <> None /\ rwlock_init_ret env = 0 /\
    builder_create_ok (builder_env env) = true /\
    dataSizeInput o = len /\ buildDataCount o = 0 /\ rwlock o = RwUnlocked /\
    trace o = [] /\ uxPageTable o <> None /\
    builder o = [ {| Build := f; param := para |} ] /\
    f (replicate (Z.to_nat (RoundUp len PAGE_SIZE)) x00) len para = (true, data o).
Proof.
  intros Hcreate. unfold PurgMemCreate in Hcreate.
  destruct (len =? 0) eqn:Hlen; [discriminate|]. apply Z.eqb_neq in Hlen.
  split; [exact Hlen|].
  destruct func as [f|]; [|discriminate]. exists f. split; [reflexivity|].
  destruct (PurgMemCreate_ env len []) as [[o0|]|] eqn:Hc0; cbn [mbind option_bind] in Hcreate;
    try discriminate.
  unfold PurgMemCreate_ in Hc0.
  destruct (malloc_obj_ok env); cbn [negb] in Hc0; [|discriminate].
  unfold mmap_data in Hc0.
  destruct (RoundUp len PAGE_SIZE =? 0); [discriminate|].
  destruct (mmap_data_ret env) as [a|] eqn:Ha; cbn [mbind option_bind] in Hc0; [|discriminate].
  destruct (malloc_upt env) as [t0|] eqn:Hm; [|discriminate].
  destruct (InitUxPageTable (uxpt_env env) (Some t0) a (RoundUp len PAGE_SIZE))
    as [[st upt]|] eqn:Hinit; cbn [mbind option_bind fst snd] in Hc0; [|discriminate].
  destruct st; cbn [PMState_eqb negb] in Hc0; try discriminate.
  destruct (rwlock_init_ret env =? 0) eqn:Hrw; cbn [negb] in Hc0; [|discriminate].
  apply Z.eqb_eq in Hrw. injection Hc0 as <-.
  assert (Hupt : upt <> None).
  { unfold InitUxPageTable in Hinit.
    destruct (negb g_supportUxpt); [injection Hinit as <-; discriminate|].
    cbn [uxpte] in Hinit.
    destruct (MapUxptePages (uxpt_env env) a (RoundUp len PAGE_SIZE)); [|discriminate].
    unfold UxpteClear in Hinit. destruct (negb g_supportUxpt).
    - injection Hinit as <-. discriminate.
    - destruct (UxpteOps _ a (RoundUp len PAGE_SIZE) UPT_CLEAR) as [[st u]|] eqn:Hops;
        [|discriminate].
      cbn [mbind option_bind snd] in Hinit. injection Hinit as <-.
      unfold UxpteOps in Hops.
      destruct (_ || _); [injection Hops as _ <-; discriminate|].
      destruct (UxpteOps_loop_keeps_table _ _ _ _ _ _ _ Hops) as [t' ->]. discriminate. }
  unfold PurgMemAppendModify in Hcreate. cbn [data dataSizeInput] in Hcreate.
  destruct (f (replicate (Z.to_nat (RoundUp len PAGE_SIZE)) x00) len para)
    as [succ data'] eqn:Hf.
  cbv beta iota zeta in Hcreate.
  destruct succ; cbn [negb] in Hcreate; cbv beta iota zeta in Hcreate.
  2:{ destruct (PurgMemDestroy env _); discriminate. }
  unfold PurgMemBuilderCreate in Hcreate.
  destruct (builder_create_ok (builder_env env)); cbv beta iota zeta in Hcreate.
  2:{ destruct (PurgMemDestroy env _); discriminate. }
  cbn [set_data builder] in Hcreate. cbv beta iota zeta in Hcreate.
  injection Hcreate as <-.
  cbn [set_builder set_data dataPtr dataSizeInput builder uxPageTable buildDataCount data
       rwlock trace].
  repeat split; try reflexivity; try assumption. discriminate.
Qed.


(** X17.  [PurgMemCreate] answers NULL for a length of 0 and for a NULL
    function.  It returns a region only when every allocation, the mapping,
    the lock initialisation and the creation of the builder node succeeded
    and the function succeeded on the fresh, zero-filled mapping; the region
    then records the length asked for, counts no build, is unlocked, holds
    what the function wrote, and has the one node (func, funcPara) as its
    chain. *)
Theorem PurgMemCreate_only_if `{Platform} :
  forall env len func para,
    PurgMemCreate env 0 func para = Some None /\
    PurgMemCreate env len None para = Some None /\
    forall o,
      PurgMemCreate env len func para = Some (Some o) ->
      len <> 0 /\
      exists f,
        func = Some f /\
        malloc_obj_ok env = true /\ mmap_data_ret env = Some (dataPtr o) /\
        malloc_upt env <> None /\ rwlock_init_ret env = 0 /\
        builder_create_ok (builder_env env) = true /\
        dataSizeInput o = len /\ buildDataCount o = 0 /\ rwlock o = RwUnlocked /\
        trace o = [] /\ uxPageTable o <> None /\
        builder o = [ {| Build := f; param := para |} ] /\
        f (replicate (Z.to_nat (RoundUp len PAGE_SIZE)) x00) len para = (true, data o).
Proof.
  intros env len func para.
  split; [reflexivity|]. split; [unfold PurgMemCreate; destruct (len =? 0); reflexivity|].
  intros o Hcreate. apply (PurgMemCreate_fields env len func para o Hcreate).
Qed.

Lemma PurgMemCreate_only_if_witness :
  exists o,
    @PurgMemCreate (page4k true) env_ok 4000 (Some (fill "Z")) 0 = Some (Some o) /\
    dataSizeInput o = 4000 /\ buildDataCount o = 0 /\
    data o = replicate 4000 "Z"%byte ++ replicate 96 x00.
Proof.
  destruct (@PurgMemCreate (page4k true) env_ok 4000 (Some (fill "Z")) 0)
    as [[o|]|] eqn:Hcreate; try (vm_compute in Hcreate; discriminate).
  destruct (@PurgMemCreate_only_if (page4k true) env_ok 4000 (Some (fill "Z")) 0)
    as (_ & _ & Honly).
  destruct (Honly o Hcreate)
    as (_ & f & Hf & _ & _ & _ & _ & _ & Hs & Hc & _ & _ & _ & _ & Hdata).
  injection Hf as <-.
  exists o. split; [reflexivity|]. split; [exact Hs|]. split; [exact Hc|].
  unfold fill in Hdata. injection Hdata as <-. reflexivity.
Defined.

(** X18.  [PurgMemAppendModify] tests the function first: a NULL function
    is a success that changes nothing, even on a NULL region; a NULL region
    is a failure.  Otherwise the function is applied to the mapping with the
    region's size; when it fails the chain is as it was and the mapping
    holds what the function left; when it succeeds and the node can be
    created and linked, the node is the last of the chain. *)
Theorem PurgMemAppendModify_cases :
  forall env purgObj o f para,
    PurgMemAppendModify env purgObj None para = (true, purgObj) /\
    PurgMemAppendModify env None (Some f) para = (false, None) /\
    (fst (f (data o) (dataSizeInput o) para) = false ->
       PurgMemAppendModify env (Some o) (Some f) para
       = (false, Some (set_data o (snd (f (data o) (dataSizeInput o) para))))) /\
    (fst (f (data o) (dataSizeInput o) para) = true ->
     builder_create_ok (builder_env env) = true ->
     builder o = [] \/ builder_append_ok (builder_env env) = true ->
       PurgMemAppendModify env (Some o) (Some f) para
       = (true, Some (set_builder (set_data o (snd (f (data o) (dataSizeInput o) para)))
                        (builder o ++ [ {| Build := f; param := para |} ])))).
Proof.
  intros env purgObj o f para.
  split; [reflexivity|]. split; [reflexivity|]. split.
  - intros Hfail. unfold PurgMemAppendModify.
    destruct (f (data o) (dataSizeInput o) para) as [succ data']. cbn [fst snd] in *.
    subst succ. reflexivity.
  - intros Hsucc Hcreate Hlink. unfold PurgMemAppendModify.
    destruct (f (data o) (dataSizeInput o) para) as [succ data']. cbn [fst snd] in *.
    subst succ. cbn [negb]. unfold PurgMemBuilderCreate. rewrite Hcreate.
    cbn [set_data builder].
    destruct (builder o) as [|node rest] eqn:Hb; [reflexivity|].
    destruct Hlink as [Habs|Happend]; [discriminate|].
    unfold PurgMemBuilderAppendBuilder. rewrite Happend. reflexivity.
Qed.

Lemma PurgMemAppendModify_cases_witness :
  let o := region_4000 [ {| Build := fill "Z"; param := 0 |} ] 0 1 (replicate 4096 x00) in
  exists o',
    PurgMemAppendModify env_ok (Some o) (Some (fill "A")) 7 = (true, Some o') /\
    builder o' = [ {| Build := fill "Z"; param := 0 |}; {| Build := fill "A"; param := 7 |} ] /\
    data o' = replicate 4000 "A"%byte ++ replicate 96 x00.
Proof.
  intros o.
  destruct (PurgMemAppendModify_cases env_ok None o (fill "A") 7) as (_ & _ & _ & Hok).
  eexists. split; [apply Hok; [reflexivity | reflexivity | right; reflexivity]|].
  split; reflexivity.
Defined.



(** X20.  [PurgMemDestroy] undoes [PurgMemCreate]: on the region a create
    returned (at a mapping address that is not 0), when its releases succeed
    it returns true after exactly one release of each resource the create
    acquired: the lock, the builder chain, the data mapping with its rounded
    size, the descriptors, the table structure and the object. *)
Theorem PurgMemCreate_PurgMemDestroy `{Platform} :
  forall env len func para o env2,
    PurgMemCreate env len func para = Some (Some o) ->
    dataPtr o <> 0 ->
    builder_destroy_ok (builder_env env2) = true ->
    munmap_data_ret env2 = 0 -> munmap_uxpte_ret (uxpt_env env2) = 0 ->
    PurgMemDestroy env2 (Some o)
    = Some (true, None,
            [RelRwlock (rwlock_destroy_ret env2); RelBuilder true;
             RelData (dataPtr o) (RoundUp len PAGE_SIZE) 0;
             RelUxptMap PM_OK; RelUxptStruct; RelObj]).
Proof.
  intros env len func para o env2 Hcreate Hptr Hbd Hmd Hmu.
  destruct (PurgMemCreate_fields env len func para o Hcreate)
    as (_ & f & _ & _ & _ & _ & _ & _ & Hs & Hc & _ & _ & Hupt & Hb & _).
  unfold PurgMemDestroy, destroy_builder. rewrite Hb.
  unfold PurgMemBuilderDestroy. rewrite Hbd. cbn [negb app].
  unfold unmap_data. cbn [set_builder dataPtr dataSizeInput].
  replace (dataPtr o =? 0) with false by (symmetry; apply Z.eqb_neq; exact Hptr).
  rewrite Hmd, Hs. cbn [Z.eqb negb].
  assert (Hp : forall o', buildDataCount o' = 0 ->
            (if UxpteIsEnabled then IsPurged o' else Some true) = Some true).
  { intros o' Hz. destruct UxpteIsEnabled; [apply IsPurged_unbuilt; exact Hz | reflexivity]. }
  rewrite Hp by exact Hc. cbn [mbind option_bind].
  unfold unmap_uxpt. cbn [set_data set_dataPtr set_builder uxPageTable].
  destruct (uxPageTable o) as [t|] eqn:Ht; [|contradiction].
  unfold DeinitUxPageTable, UnmapUxptePages. rewrite Hmu.
  destruct (negb g_supportUxpt); [reflexivity|].
  destruct (uxpte t); reflexivity.
Qed.

Lemma PurgMemCreate_PurgMemDestroy_witness :
  exists o,
    @PurgMemCreate (page4k true) env_ok 4000 (Some (fill "Z")) 0 = Some (Some o) /\
    @PurgMemDestroy (page4k true) env_ok (Some o)
    = Some (true, None,
            [RelRwlock 0; RelBuilder true; RelData 65536 4096 0;
             RelUxptMap PM_OK; RelUxptStruct; RelObj]).
Proof.
  destruct (@PurgMemCreate (page4k true) env_ok 4000 (Some (fill "Z")) 0)
    as [[o|]|] eqn:Hcreate; try (vm_compute in Hcreate; discriminate).
  assert (Hptr : dataPtr o = 65536).
  { destruct (@PurgMemCreate_fields (page4k true) env_ok 4000 (Some (fill "Z")) 0 o Hcreate)
      as (_ & f & _ & _ & Hm & _). cbn in Hm. congruence. }
  exists o. split; [reflexivity|].
  rewrite (@PurgMemCreate_PurgMemDestroy (page4k true) env_ok 4000 (Some (fill "Z")) 0 o env_ok
             Hcreate ltac:(rewrite Hptr; discriminate) eq_refl eq_refl eq_refl).
  rewrite Hptr. reflexivity.
Defined.

(** ** Sessions on a purged region *)

Section Purged.
Context `{Platform}.

Lemma IsPurged_returns o : region_ok o -> is_Some (IsPurged o).
Proof.
  intros Hok. unfold IsPurged. destruct (buildDataCount o =? 0); [eexists; reflexivity|].
  destruct g_supportUxpt eqn:Hsupp.
  - pose proof Hok as (_ & _ & _ & _ & _ & _ & Htab).
    destruct (Htab Hsupp) as (t & Ht & Htok & _).
    pose proof Htok as (_ & _ & _ & ptes & Hptes & _).
    rewrite (UxpteIsPresent_region o t ptes Hok Hsupp Ht Hptes). eexists. reflexivity.
  - rewrite UxpteIsPresent_off by exact Hsupp. eexists. reflexivity.
Qed.

Lemma IsPurged_pin o oa : region_ok o -> pin o = Some oa -> IsPurged oa = IsPurged o.
Proof.
  intros Hok Hp1.
  destruct (pin_fields o oa Hp1) as (_ & Hda & Hsa & _ & _ & _ & _ & Hca & _).
  unfold IsPurged. rewrite Hca, Hda, Hsa, (UxpteIsPresent_pin o oa Hok Hp1). reflexivity.
Qed.

Lemma TryBeginRead_progress o :
  rwlock o <> RwWrite -> is_Some (IsPurged o) -> is_Some (TryBeginRead o).
Proof.
  intros Hlock [purged Hp]. unfold TryBeginRead.
  destruct (rdlock o) as [[ret o1]|] eqn:Hrd.
  - cbn [mbind option_bind fst snd].
    destruct (rdlock_fields o ret o1 Hrd) as (Hs1 & _ & _ & _ & _ & Hacq).
    destruct (ret =? 0) eqn:E; cbn [negb]; [|eexists; reflexivity].
    apply Z.eqb_eq in E. destruct (Hacq E) as [_ Hl1].
    rewrite (IsPurged_frame o o1 Hs1), Hp. cbn [mbind option_bind].
    destruct purged; cbn [negb]; [|eexists; reflexivity].
    assert (Hheld : rwlock o1 <> RwUnlocked).
    { rewrite Hl1. destruct (rwlock o); discriminate. }
    destruct (unlock_returns o1 Hheld) as [[r u] ->]. cbn [mbind option_bind fst snd].
    destruct (negb (r =? 0)); eexists; reflexivity.
  - exfalso. unfold rdlock, pthread_rwlock_rdlock in Hrd.
    destruct (negb _), (rwlock o); try discriminate; contradiction.
Qed.

Lemma BeginReadBuildData_progress o :
  region_ok o -> rwlock o = RwUnlocked -> is_Some (BeginReadBuildData o).
Proof.
  intros Hok Hlock. unfold BeginReadBuildData.
  destruct (wrlock o) as [[ret o1]|] eqn:Hwr.
  - cbn [mbind option_bind fst snd].
    destruct (wrlock_fields o ret o1 Hwr) as (Hs1 & _ & _ & _ & _ & Hacq).
    destruct (ret =? 0) eqn:E; cbn [negb]; [|eexists; reflexivity].
    apply Z.eqb_eq in E. destruct (Hacq E) as [_ Hl1].
    pose proof (region_ok_frame o o1 Hok Hs1) as Hok1.
    destruct (IsPurged_returns o1 Hok1) as [purged ->]. cbn [mbind option_bind].
    assert (Hb : exists rebuildRet o2,
              (if purged then PurgMemBuildData o1 else Some (false, o1))
              = Some (rebuildRet, o2) /\ rwlock o2 = RwWrite).
    { destruct purged.
      - destruct (PurgMemBuildData_fields o1 Hok1) as (succ & o2 & Hrun & _ & _ & _ & Hl2 & _).
        exists succ, o2. split; [exact Hrun | congruence].
      - exists false, o1. split; [reflexivity | exact Hl1]. }
    destruct Hb as (rebuildRet & o2 & -> & Hl2).
    cbn [mbind option_bind fst snd].
    assert (Hheld : rwlock o2 <> RwUnlocked) by (rewrite Hl2; discriminate).
    destruct (unlock_returns o2 Hheld) as [[r u] ->]. cbn [mbind option_bind fst snd].
    destruct (negb (r =? 0)); [eexists; reflexivity|].
    destruct (negb rebuildRet); eexists; reflexivity.
  - exfalso. unfold wrlock, pthread_rwlock_wrlock in Hwr. rewrite Hlock in Hwr.
    destruct (negb _); discriminate.
Qed.

Lemma u32_succ c : 0 <= c < 2 ^ 32 - 1 -> u32 (c + 1) = c + 1.
Proof. intros Hc. unfold u32. apply Z.mod_small. lia. Qed.

End Purged.

(** X21.  Reading a purged region.  On a live region that reads as purged
    (never built, or with a page that is not present), nobody holding the
    lock and the lock calls succeeding, [PurgMemBeginRead] returns within
    two passes of its loop after exactly one rebuild.  It returns true
    exactly when that rebuild succeeded, holding the read lock, with the
    mapping as the chain built it from the zeroed bytes, the build count one
    more and the region no longer purged; otherwise it returns false,
    unpinned and unlocked, with the build count as it was. *)
Theorem PurgMemBeginRead_purged `{Platform} :
  forall fuel o,
    region_ok o -> IsPurgMemPtrValid (Some o) = true ->
    IsPurged o = Some true -> buildDataCount o < 2 ^ 32 - 1 ->
    Forall (eq 0) (lock_rets o) -> Forall (eq 0) (unlock_rets o) ->
    rwlock o = RwUnlocked ->
    exists ret o',
      PurgMemBeginRead (S (S fuel)) (Some o) = Some (ret, Some o') /\
      trace o' = trace o ++ [EvUxpteGet (dataPtr o) (dataSizeInput o); EvBuildData ret]
                         ++ (if ret then [] else [EvUxptePut (dataPtr o) (dataSizeInput o)]) /\
      (ret = true <->
       RoundUp (dataSizeInput o) PAGE_SIZE <= SECUREC_MEM_MAX_LEN /\
       fst (PurgMemBuilderBuildAll (builder o) (zeroed o) (dataSizeInput o)) = true) /\
      (ret = true ->
       data o' = snd (PurgMemBuilderBuildAll (builder o) (zeroed o) (dataSizeInput o)) /\
       buildDataCount o' = buildDataCount o + 1 /\
       rwlock o' = RwRead O /\ IsPurged o' = Some false) /\
      (ret = false -> buildDataCount o' = buildDataCount o /\ rwlock o' = RwUnlocked).
Proof.
  intros fuel o Hok Hvalid Hpurged Hcount Hlz Huz Hlock.
  pose proof Hok as (_ & _ & _ & _ & _ & Hcnt & _).
  destruct (pin_returns o Hok) as [o1 Hp1].
  unfold PurgMemBeginRead. rewrite Hvalid. cbn [negb mbind option_bind].
  rewrite Hp1. cbn [mbind option_bind].
  destruct (pin_fields o o1 Hp1)
    as (Hget & Hd1 & Hs1 & Hb1 & Hl1 & Hlr1 & Hur1 & Hc1 & Hdata1 & Ht1).
  pose proof (region_ok_pin o o1 Hok Hp1) as Hok1.
  pose proof (IsPurged_pin o o1 Hok Hp1) as Hp_1. rewrite Hpurged in Hp_1.
  destruct (next_ret_zero _ Hlz) as [Hl0 Hlz1].
  destruct (next_ret_zero _ Hlz1) as [Hl00 Hlz2].
  destruct (next_ret_zero _ Hlz2) as [Hl000 _].
  destruct (next_ret_zero _ Huz) as [Hu0 Huz1].
  destruct (next_ret_zero _ Huz1) as [Hu00 _].
  cbn [PurgMemBeginRead_loop].
  assert (Hnw1 : rwlock o1 <> RwWrite) by (rewrite Hl1, Hlock; discriminate).
  destruct (TryBeginRead_progress o1 Hnw1 ltac:(rewrite Hp_1; eexists; reflexivity))
    as [[st o2] Htry].
  rewrite Htry. cbn [mbind option_bind fst snd].
  destruct (TryBeginRead_cases o1 st o2 Htry)
    as (Hs2 & Hlr2 & [(_ & Hnz & _)|[(_ & _ & Hnp & _)|[(_ & _ & _ & Hnz & _)|
        (-> & _ & _ & _ & Hl2 & Hur2)]]]).
  { rewrite Hlr1 in Hnz. contradiction. }
  { congruence. }
  { rewrite Hur1 in Hnz. contradiction. }
  pose proof (region_ok_frame o1 o2 Hok1 Hs2) as Hok2.
  destruct (BeginReadBuildData_progress o2 Hok2 ltac:(congruence)) as [[st2 o3] Hbuild].
  rewrite Hbuild. cbn [mbind option_bind fst snd].
  destruct (BeginReadBuildData_cases o2 st2 o3 Hbuild)
    as (Hlr3 & [(_ & Hnz & _)|
                (_ & _ & oa & rebuildRet & ob & Hsa & _ & _ & Hmid & Hsb & Hur3 &
                 [(_ & Hnz & _)|(_ & Hl3 & ->)])]).
  { rewrite Hlr2, Hlr1 in Hnz. contradiction. }
  { rewrite Hur2, Hur1 in Hnz. contradiction. }
  assert (Hsoa : same_but_lock o1 oa) by (eapply same_but_lock_trans; eassumption).
  pose proof (region_ok_frame o1 oa Hok1 Hsoa) as Hoka.
  pose proof Hsoa as (Hda & Hza & Hba & Hua & Hca & Hdataa & Hta).
  rewrite (IsPurged_frame o1 o2 Hs2), Hp_1 in Hmid.
  destruct Hmid as [[_ Hb]|[Habs _]]; [|discriminate].
  destruct (PurgMemBuildData_fields oa Hoka)
    as (succ & ob' & Hrun' & Hdb & Hzb & Hbb & _ & _ & _ & Htb & Hcb & Hrb & Hsucc & Hiff).
  rewrite Hb in Hrun'. injection Hrun' as <- <-.
  pose proof Hsb as (Hd3 & Hz3 & Hb3 & Hu3 & Hc3 & Hdata3 & Ht3).
  assert (Htrace : trace o3 = trace o ++ [EvUxpteGet (dataPtr o) (dataSizeInput o);
                                          EvBuildData rebuildRet]).
  { rewrite Ht3, Htb, Hta, Ht1, <- app_assoc. reflexivity. }
  assert (Hzeroed : zeroed oa = zeroed o).
  { unfold zeroed. rewrite Hza, Hdataa, Hs1, Hdata1. reflexivity. }
  assert (Hgoal : rebuildRet = true <->
            RoundUp (dataSizeInput o) PAGE_SIZE <= SECUREC_MEM_MAX_LEN /\
            fst (PurgMemBuilderBuildAll (builder o) (zeroed o) (dataSizeInput o)) = true).
  { rewrite Hiff, Hzeroed, Hza, Hba, Hs1, Hb1. reflexivity. }
  destruct rebuildRet; cbn [PMState_eqb negb].
  - destruct (Hsucc eq_refl) as [Hbuilt Hpop].
    assert (Hcount3 : buildDataCount o3 = buildDataCount o + 1).
    { rewrite Hc3, Hcb, Hca, Hc1. apply u32_succ. lia. }
    assert (Hnp3 : IsPurged o3 = Some false).
    { unfold IsPurged. rewrite Hcount3.
      replace (buildDataCount o + 1 =? 0) with false by (symmetry; apply Z.eqb_neq; lia).
      rewrite Hu3, Hpop, Hd3, Hz3, Hdb, Hzb.
      rewrite (present_after_populate oa Hoka). reflexivity. }
    cbn [PurgMemBeginRead_loop].
    assert (Hl3' : rwlock o3 <> RwWrite) by (rewrite Hl3; discriminate).
    destruct (TryBeginRead_progress o3 Hl3' ltac:(rewrite Hnp3; eexists; reflexivity))
      as [[st4 o4] Htry4].
    rewrite Htry4. cbn [mbind option_bind fst snd].
    destruct (TryBeginRead_cases o3 st4 o4 Htry4)
      as (Hs4 & _ & [(_ & Hnz & _)|[(-> & _ & _ & _ & Hl4 & _)|[(_ & _ & Hp & _)|
          (_ & _ & Hp & _)]]]).
    + rewrite Hlr3, Hlr2, Hlr1 in Hnz. contradiction.
    + cbn [negb fst snd mbind option_bind]. exists true, o4.
      pose proof Hs4 as (Hd4 & Hz4 & Hb4 & Hu4 & Hc4 & Hdata4 & Ht4).
      split; [reflexivity|]. split; [rewrite Ht4, Htrace, app_nil_r; reflexivity|].
      split; [exact Hgoal|]. split; [|discriminate].
      intros _. split; [|split; [congruence|split]].
      * rewrite Hdata4, Hdata3. rewrite Hzeroed, Hza, Hba, Hs1, Hb1 in Hbuilt.
        rewrite Hbuilt. reflexivity.
      * rewrite Hl4, Hl3. reflexivity.
      * rewrite (IsPurged_frame o3 o4 Hs4). exact Hnp3.
    + congruence.
    + congruence.
  - cbn [negb fst snd mbind option_bind].
    assert (Hput : is_Some (unpin o3)).
    { unfold unpin. rewrite Hd3, Hz3, Hdb, Hzb, Hda, Hza, Hd1, Hs1.
      destruct (UxptePut_returns o (uxPageTable o1) (uxPageTable o3) Hok Hget) as [u3 ->].
      - rewrite Hu3, Hrb, Hua. reflexivity.
      - eexists. reflexivity. }
    destruct Hput as [o4 Hp4]. rewrite Hp4. cbn [mbind option_bind].
    exists false, o4.
    destruct (unpin_fields o3 o4 Hp4) as (_ & _ & _ & _ & Hl4 & _ & _ & Hc4 & _ & Ht4).
    split; [reflexivity|]. split.
    { rewrite Ht4, Htrace, Hd3, Hz3, Hdb, Hzb, Hda, Hza, Hd1, Hs1, <- app_assoc.
      reflexivity. }
    split; [exact Hgoal|]. split; [discriminate|].
    intros _. split; congruence.
Qed.

Lemma PurgMemBeginRead_purged_witness :
  let o := region_4000 [ {| Build := fill "Z"; param := 0 |} ] 0 5 (replicate 4096 "Q"%byte) in
  exists o',
    @PurgMemBeginRead (page4k true) 2 (Some o) = Some (true, Some o') /\
    trace o' = [EvUxpteGet 65536 4000; EvBuildData true] /\
    data o' = replicate 4000 "Z"%byte ++ replicate 96 "Q"%byte /\
    buildDataCount o' = 6 /\ rwlock o' = RwRead O.
Proof.
  intros o.
  assert (Hok : @region_ok (page4k true) o).
  { apply region_4000_ok; [apply length_replicate | split; [discriminate | reflexivity]]. }
  assert (Hz : Forall (eq 0) (@nil Z)) by constructor.
  destruct (@PurgMemBeginRead_purged (page4k true) O o Hok eq_refl eq_refl eq_refl Hz Hz eq_refl)
    as (ret & o' & Hrun & Ht & Hiff & Htrue & _).
  assert (Hret : ret = true).
  { apply Hiff. split; [vm_compute; discriminate | reflexivity]. }
  subst ret. destruct (Htrue eq_refl) as (Hd & Hc & Hl & _).
  exists o'. split; [exact Hrun|]. split; [exact Ht|]. split; [|split; assumption].
  rewrite Hd. reflexivity.
Defined.

(** X22.  [PurgMemBeginWrite] on a live region whose lock nobody holds,
    the lock call succeeding: it returns.  A region that does not read as
    purged is returned at once, pinned and write-locked, nothing rebuilt.
    A purged region is rebuilt exactly once: on success the call returns
    true holding the write lock, with the mapping as the chain built it and
    the build count one more (modulo 2^32); on failure it returns false,
    unpinned, the build count as it was, and unlocked when the unlock
    succeeds. *)
Theorem PurgMemBeginWrite_returns `{Platform} :
  forall o,
    region_ok o -> IsPurgMemPtrValid (Some o) = true ->
    next_ret (lock_rets o) = 0 -> rwlock o = RwUnlocked ->
    exists purged ret o',
      IsPurged o = Some purged /\
      PurgMemBeginWrite (Some o) = Some (ret, Some o') /\
      (purged = false ->
         ret = true /\ trace o' = trace o ++ [EvUxpteGet (dataPtr o) (dataSizeInput o)] /\
         data o' = data o /\ buildDataCount o' = buildDataCount o /\ rwlock o' = RwWrite) /\
      (purged = true ->
         trace o' = trace o ++ [EvUxpteGet (dataPtr o) (dataSizeInput o); EvBuildData ret]
                            ++ (if ret then [] else [EvUxptePut (dataPtr o) (dataSizeInput o)]) /\
         (ret = true <->
          RoundUp (dataSizeInput o) PAGE_SIZE <= SECUREC_MEM_MAX_LEN /\
          fst (PurgMemBuilderBuildAll (builder o) (zeroed o) (dataSizeInput o)) = true) /\
         (ret = true ->
          data o' = snd (PurgMemBuilderBuildAll (builder o) (zeroed o) (dataSizeInput o)) /\
          buildDataCount o' = u32 (buildDataCount o + 1) /\ rwlock o' = RwWrite) /\
         (ret = false ->
          buildDataCount o' = buildDataCount o /\
          (next_ret (unlock_rets o) = 0 -> rwlock o' = RwUnlocked))).
Proof.
  intros o Hok Hvalid Hl0 Hlock.
  destruct (pin_returns o Hok) as [o1 Hp1].
  destruct (pin_fields o o1 Hp1)
    as (Hget & Hd1 & Hs1 & Hb1 & Hl1 & Hlr1 & Hur1 & Hc1 & Hdata1 & Ht1).
  pose proof (region_ok_pin o o1 Hok Hp1) as Hok1.
  pose proof (IsPurged_pin o o1 Hok Hp1) as Hp_1.
  destruct (IsPurged_returns o Hok) as [purged Hpurged]. rewrite Hpurged in Hp_1.
  exists purged.
  unfold PurgMemBeginWrite. rewrite Hvalid. cbn [negb mbind option_bind].
  rewrite Hp1. cbn [mbind option_bind].
  destruct (wrlock o1) as [[r ow]|] eqn:Hw.
  2:{ exfalso. unfold wrlock, pthread_rwlock_wrlock in Hw. rewrite Hl1, Hlock in Hw.
      destruct (negb _); discriminate. }
  cbn [mbind option_bind fst snd].
  destruct (wrlock_fields o1 r ow Hw) as (Hsw & Hr & _ & Huw & _ & Hacq).
  assert (Hr0 : r = 0) by congruence. clear Hr. subst r. cbn [Z.eqb negb].
  destruct (Hacq eq_refl) as [_ Hlw].
  pose proof (region_ok_frame o1 ow Hok1 Hsw) as Hokw.
  pose proof Hsw as (Hdw & Hzw & Hbw & Hupw & Hcw & Hdataw & Htw).
  rewrite (IsPurged_frame o1 ow Hsw), Hp_1. cbn [mbind option_bind].
  destruct purged; cbn [negb].
  - destruct (PurgMemBuildData_fields ow Hokw)
      as (succ & ob & Hrun & Hdb & Hzb & Hbb & Hlb & _ & Hub & Htb & Hcb & Hrb & Hsucc & Hiff).
    rewrite Hrun. cbn [mbind option_bind fst snd].
    assert (Hzeroed : zeroed ow = zeroed o).
    { unfold zeroed. rewrite Hzw, Hdataw, Hs1, Hdata1. reflexivity. }
    assert (Hgoal : succ = true <->
              RoundUp (dataSizeInput o) PAGE_SIZE <= SECUREC_MEM_MAX_LEN /\
              fst (PurgMemBuilderBuildAll (builder o) (zeroed o) (dataSizeInput o)) = true).
    { rewrite Hiff, Hzeroed, Hzw, Hbw, Hs1, Hb1. reflexivity. }
    destruct succ.
    + exists true, ob. split; [exact Hpurged|]. split; [reflexivity|].
      split; [discriminate|]. intros _.
      split; [rewrite Htb, Htw, Ht1, <- app_assoc; reflexivity|].
      split; [exact Hgoal|]. split; [|discriminate].
      intros _. destruct (Hsucc eq_refl) as [Hbuilt _].
      rewrite Hzeroed, Hzw, Hbw, Hs1, Hb1 in Hbuilt. rewrite Hbuilt.
      split; [reflexivity|]. split; congruence.
    + assert (Hheld : rwlock ob <> RwUnlocked) by (rewrite Hlb, Hlw; discriminate).
      destruct (unlock_returns ob Hheld) as [[ru u] Hu]. rewrite Hu.
      cbn [mbind option_bind snd].
      destruct (unlock_fields ob ru u Hu) as (Hsu & Hru & _ & _ & _ & Hrel).
      pose proof Hsu as (Hdu & Hzu & Hbu & Hupu & Hcu & Hdatau & Htu).
      assert (Hput : is_Some (unpin u)).
      { unfold unpin. rewrite Hdu, Hzu, Hdb, Hzb, Hdw, Hzw, Hd1, Hs1.
        destruct (UxptePut_returns o (uxPageTable o1) (uxPageTable u) Hok Hget) as [u3 ->].
        - rewrite Hupu, Hrb, Hupw. reflexivity.
        - eexists. reflexivity. }
      destruct Hput as [o4 Hp4]. rewrite Hp4. cbn [mbind option_bind].
      destruct (unpin_fields u o4 Hp4) as (_ & _ & _ & _ & Hl4 & _ & _ & Hc4 & _ & Ht4).
      exists false, o4. split; [exact Hpurged|]. split; [reflexivity|].
      split; [discriminate|]. intros _. split.
      { rewrite Ht4, Htu, Htb, Htw, Ht1, Hdu, Hzu, Hdb, Hzb, Hdw, Hzw, Hd1, Hs1.
        rewrite <- !app_assoc. reflexivity. }
      split; [exact Hgoal|]. split; [discriminate|].
      intros _. split; [congruence|].
      intros Hu0. rewrite Hl4.
      assert (Hru0 : ru = 0) by congruence.
      destruct (Hrel Hru0) as [[Hnw _]|[_ Hx]]; [|exact Hx].
      rewrite Hlb, Hlw in Hnw. contradiction.
  - exists true, ow. split; [exact Hpurged|]. split; [reflexivity|].
    split; [|discriminate]. intros _. split; [reflexivity|].
    split; [congruence|]. split; [congruence|]. split; congruence.
Qed.

Lemma PurgMemBeginWrite_returns_witness :
  let o := region_4000 [ {| Build := fill "Z"; param := 0 |} ] 1 5 (replicate 4096 "Q"%byte) in
  exists o',
    @PurgMemBeginWrite (page4k true) (Some o) = Some (true, Some o') /\
    trace o' = [EvUxpteGet 65536 4000] /\
    data o' = replicate 4096 "Q"%byte /\ rwlock o' = RwWrite.
Proof.
  intros o.
  assert (Hok : @region_ok (page4k true) o).
  { apply region_4000_ok; [apply length_replicate | split; [discriminate | reflexivity]]. }
  destruct (@PurgMemBeginWrite_returns (page4k true) o Hok eq_refl eq_refl eq_refl)
    as (purged & ret & o' & Hp & Hrun & Hres & _).
  assert (Hf : purged = false) by (vm_compute in Hp; congruence).
  destruct (Hres Hf) as (-> & Ht & Hd & _ & Hl).
  exists o'. split; [exact Hrun|]. repeat split; assumption.
Defined.

(** X23.  An end whose unlock fails.  After a [PurgMemBeginWrite] that
    returned true, a [PurgMemEndWrite] whose [pthread_rwlock_unlock] fails
    still returns after its put, and the region stays write-locked; when
    the get of the begin could pin every covered descriptor, every
    reference count is as before the session. *)
Theorem PurgMemEndWrite_unlock_fails `{Platform} :
  forall o o1,
    region_ok o -> IsPurgMemPtrValid (Some o) = true ->
    PurgMemBeginWrite (Some o) = Some (true, Some o1) ->
    next_ret (unlock_rets o) <> 0 ->
    exists o2,
      PurgMemEndWrite (Some o1) = Some (Some o2) /\
      rwlock o2 = RwWrite /\
      (pinnable o -> refcnts (uxPageTable o2) = refcnts (uxPageTable o)) /\
      trace o2 = trace o1 ++ [EvUxptePut (dataPtr o) (dataSizeInput o)] /\
      data o2 = data o1 /\ buildDataCount o2 = buildDataCount o1.
Proof.
  intros o o1 Hok Hvalid Hrun Hret.
  unfold PurgMemBeginWrite in Hrun. rewrite Hvalid in Hrun.
  cbn [negb mbind option_bind] in Hrun.
  destruct (pin o) as [oa|] eqn:Hp1; [|discriminate]. cbn [mbind option_bind] in Hrun.
  destruct (pin_fields o oa Hp1) as (_ & _ & _ & _ & Hla & _ & Hua & _).
  destruct (wrlock oa) as [[ret ow]|] eqn:Hw; [|discriminate].
  cbn [mbind option_bind fst snd] in Hrun.
  destruct (wrlock_fields oa ret ow Hw) as (Hsw & _ & _ & Huw & _ & Hacq).
  destruct (ret =? 0) eqn:E; cbn [negb] in Hrun.
  2:{ destruct (unpin ow); discriminate. }
  apply Z.eqb_eq in E. destruct (Hacq E) as [Hfree Hlw].
  assert (Hinvw : mem_inv oa ow) by (eapply mem_inv_frame; [apply mem_inv_refl | exact Hsw]).
  assert (Hfin : mem_inv oa o1 /\ rwlock o1 = RwWrite /\ unlock_rets o1 = unlock_rets oa).
  { destruct (IsPurged ow) as [purged|]; [|discriminate].
    cbn [mbind option_bind] in Hrun. destruct purged; cbn [negb] in Hrun.
    - destruct (PurgMemBuildData ow) as [[succ ob]|] eqn:Hb; [|discriminate].
      cbn [mbind option_bind fst snd] in Hrun.
      destruct succ.
      + injection Hrun as <-.
        destruct (PurgMemBuildData_frame ow true ob Hb)
          as (_ & _ & _ & Hlb & _ & Hub & _).
        split; [eapply mem_inv_build; eassumption|]. split; congruence.
      + destruct (unlock ob) as [[r u]|]; [|discriminate].
        cbn [mbind option_bind snd] in Hrun. destruct (unpin u); discriminate.
    - injection Hrun as <-. split; [exact Hinvw|]. split; assumption. }
  destruct Hfin as (Hinv1 & Hl1 & Hu1).
  assert (Hheld : rwlock o1 <> RwUnlocked) by (rewrite Hl1; discriminate).
  destruct (EndAccessPurgMem_unpins o oa o1 Hok Hvalid Hp1 Hinv1 Hheld)
    as (u & o2 & Hu & Hend & Hl2 & Hr2 & Ht2 & Hd2 & Hc2).
  exists o2. split; [exact Hend|]. split.
  - rewrite Hl2.
    destruct (unlock_fields o1 _ u Hu) as (_ & _ & _ & _ & Hfail & _).
    rewrite Hfail by congruence. exact Hl1.
  - repeat split; assumption.
Qed.

Lemma PurgMemEndWrite_unlock_fails_witness :
  let o := set_unlock_rets
             (region_4000 [ {| Build := fill "Z"; param := 0 |} ] 0 1 (replicate 4096 x00))
             [1] in
  exists o1 o2,
    @PurgMemBeginWrite (page4k true) (Some o) = Some (true, Some o1) /\
    @PurgMemEndWrite (page4k true) (Some o1) = Some (Some o2) /\
    rwlock o2 = RwWrite /\
    refcnts (uxPageTable o2) = refcnts (uxPageTable o).
Proof.
  intros o.
  assert (Hok : @region_ok (page4k true) o).
  { apply (@region_ok_frame (page4k true)
             (region_4000 [ {| Build := fill "Z"; param := 0 |} ] 0 1 (replicate 4096 x00))).
    - apply region_4000_ok; [apply length_replicate | split; [discriminate | reflexivity]].
    - repeat split. }
  assert (Hpin : @pinnable (page4k true) o).
  { apply (region_4000_pinnable [ {| Build := fill "Z"; param := 0 |} ] 0 1
             (replicate 4096 x00)).
    split; [discriminate | reflexivity]. }
  destruct (@PurgMemBeginWrite (page4k true) (Some o)) as [[ret r]|] eqn:Hrun;
    [|vm_compute in Hrun; discriminate].
  assert (Hr : ret = true /\ exists o1, r = Some o1).
  { vm_compute in Hrun. injection Hrun as <- <-. split; [reflexivity | eexists; reflexivity]. }
  destruct Hr as [-> [o1 ->]].
  destruct (@PurgMemEndWrite_unlock_fails (page4k true) o o1 Hok eq_refl Hrun)
    as (o2 & Hend & Hl & Hr & _).
  - discriminate.
  - exists o1, o2. split; [reflexivity|]. split; [exact Hend|].
    split; [exact Hl | exact (Hr Hpin)].
Defined.

(** X24.  [BeginReadBuildData] rebuilds only what it finds purged once it
    holds the write lock.  On a region that does not read as purged it
    builds nothing, releases the lock, and answers PMB_BUILD_ALL_FAIL, the
    answer of a failed rebuild. *)
Theorem BeginReadBuildData_not_purged `{Platform} :
  forall o,
    region_ok o -> IsPurged o = Some false ->
    rwlock o = RwUnlocked ->
    next_ret (lock_rets o) = 0 -> next_ret (unlock_rets o) = 0 ->
    exists o',
      BeginReadBuildData o = Some (PMB_BUILD_ALL_FAIL, o') /\
      same_but_lock o o' /\ rwlock o' = RwUnlocked.
Proof.
  intros o Hok Hnp Hlock Hl0 Hu0.
  destruct (BeginReadBuildData_progress o Hok Hlock) as [[st o'] Hrun].
  destruct (BeginReadBuildData_cases o st o' Hrun)
    as (_ & [(_ & Hnz & _)|
             (_ & _ & oa & rebuildRet & ob & Hsa & _ & _ & Hmid & Hsb & _ &
              [(_ & Hnz & _)|(_ & Hl & ->)])]); try contradiction.
  destruct Hmid as [[Habs _]|(_ & -> & ->)]; [congruence|].
  exists o'. split; [exact Hrun|]. split; [|exact Hl].
  eapply same_but_lock_trans; eassumption.
Qed.

Lemma BeginReadBuildData_not_purged_witness :
  let o := region_4000 [ {| Build := fill "Z"; param := 0 |} ] 1 5 (replicate 4096 "Q"%byte) in
  exists o',
    @BeginReadBuildData (page4k true) o = Some (PMB_BUILD_ALL_FAIL, o') /\
    trace o' = [] /\ data o' = replicate 4096 "Q"%byte.
Proof.
  intros o.
  assert (Hok : @region_ok (page4k true) o).
  { apply region_4000_ok; [apply length_replicate | split; [discriminate | reflexivity]]. }
  destruct (@BeginReadBuildData_not_purged (page4k true) o Hok eq_refl eq_refl eq_refl eq_refl)
    as (o' & Hrun & (_ & _ & _ & _ & _ & Hd & Ht) & _).
  exists o'. split; [exact Hrun|]. split; assumption.
Defined.

(** ** What a true return of a read guarantees *)

Section ReadGuarantee.
Context `{Platform}.

Lemma PurgMemBeginRead_loop_true fuel : forall o o',
  PurgMemBeginRead_loop fuel o = Some (true, o') ->
  IsPurged o' = Some false /\ rwlock o' <> RwUnlocked /\ rwlock o' <> RwWrite.
Proof.
  induction fuel as [|fuel IH]; intros o o' Hrun; [discriminate|].
  cbn [PurgMemBeginRead_loop] in Hrun.
  destruct (TryBeginRead o) as [[st o1]|] eqn:Htry; [|discriminate].
  cbn [mbind option_bind fst snd] in Hrun.
  destruct (TryBeginRead_cases o st o1 Htry)
    as (Hs1 & _ & [(-> & _)|[(-> & _ & Hnp & Hnw & Hl1 & _)|[(-> & _)|(-> & _)]]]);
    try discriminate.
  - injection Hrun as <-.
    split; [rewrite (IsPurged_frame o o1 Hs1); exact Hnp|].
    rewrite Hl1. destruct (rwlock o); [split; discriminate | split; discriminate | contradiction].
  - destruct (BeginReadBuildData o1) as [[st2 o2]|]; [|discriminate].
    cbn [mbind option_bind fst snd] in Hrun.
    destruct (negb (PMState_eqb st2 PMB_BUILD_ALL_SUCC)); [discriminate|].
    eapply IH; exact Hrun.
Qed.

End ReadGuarantee.

(** X25.  Whatever the locks, the kernel's table and the builders do, a
    [PurgMemBeginRead] that returns true returns a region that does not read
    as purged, so one that has been built at least once, with a read lock
    held on it; and it has pinned the range once and not unpinned it. *)
Theorem PurgMemBeginRead_true `{Platform} :
  forall fuel o r,
    PurgMemBeginRead fuel (Some o) = Some (true, r) ->
    exists o',
      r = Some o' /\
      IsPurgMemPtrValid (Some o) = true /\
      IsPurged o' = Some false /\ buildDataCount o' <> 0 /\
      (exists n, rwlock o' = RwRead n) /\
      exists builds,
        trace o' = trace o ++ [EvUxpteGet (dataPtr o) (dataSizeInput o)] ++ builds /\
        builds_only builds.
Proof.
  intros fuel o r Hrun. unfold PurgMemBeginRead in Hrun.
  destruct (IsPurgMemPtrValid (Some o)) eqn:Hvalid; cbn [negb] in Hrun; [|discriminate].
  cbn [mbind option_bind] in Hrun.
  destruct (pin o) as [oa|] eqn:Hp1; [|discriminate]. cbn [mbind option_bind] in Hrun.
  destruct (PurgMemBeginRead_loop fuel oa) as [[ret ob]|] eqn:Hloop; [|discriminate].
  cbn [mbind option_bind fst snd] in Hrun.
  destruct ret; cbn [negb] in Hrun.
  2:{ destruct (unpin ob); discriminate. }
  injection Hrun as <-. exists ob. split; [reflexivity|]. split; [reflexivity|].
  destruct (PurgMemBeginRead_loop_true fuel oa ob Hloop) as (Hnp & Hheld & Hnw).
  split; [exact Hnp|]. split.
  { intros Hz. rewrite (IsPurged_unbuilt ob Hz) in Hnp. discriminate. }
  split.
  { destruct (rwlock ob) as [|n|]; [contradiction | eexists; reflexivity | contradiction]. }
  destruct (pin_fields o oa Hp1) as (_ & _ & _ & _ & _ & _ & _ & _ & _ & Hta).
  assert (Hinv : forall fuel o0 o1 ret o2, mem_inv o0 o1 ->
            PurgMemBeginRead_loop fuel o1 = Some (ret, o2) -> mem_inv o0 o2).
  { clear. induction fuel as [|fuel IH]; intros o0 o1 ret o2 Hinv Hrun; [discriminate|].
    cbn [PurgMemBeginRead_loop] in Hrun.
    destruct (TryBeginRead o1) as [[st oa]|] eqn:Htry; [|discriminate].
    cbn [mbind option_bind fst snd] in Hrun.
    destruct (TryBeginRead_cases o1 st oa Htry) as (Hs1 & _).
    assert (Hinv1 : mem_inv o0 oa) by (eapply mem_inv_frame; eassumption).
    destruct st; try (injection Hrun as _ <-; exact Hinv1).
    destruct (BeginReadBuildData oa) as [[st2 ob]|] eqn:Hbuild; [|discriminate].
    cbn [mbind option_bind fst snd] in Hrun.
    assert (Hinv2 : mem_inv o0 ob).
    { destruct (BeginReadBuildData_cases oa st2 ob Hbuild)
        as (_ & [(_ & _ & Hs2 & _)|
                 (_ & _ & ox & rebuildRet & oy & Hsa & _ & _ & Hmid & Hsb & _)]).
      - eapply mem_inv_frame; eassumption.
      - eapply mem_inv_frame; [|exact Hsb].
        destruct Hmid as [[_ Hb]|(_ & _ & ->)].
        + eapply mem_inv_build; [|exact Hb]. eapply mem_inv_frame; eassumption.
        + eapply mem_inv_frame; eassumption. }
    destruct (negb (PMState_eqb st2 PMB_BUILD_ALL_SUCC)).
    - injection Hrun as _ <-. exact Hinv2.
    - eapply IH; eassumption. }
  destruct (Hinv fuel oa oa true ob (mem_inv_refl oa) Hloop)
    as (_ & _ & _ & _ & builds & Htb & Hbo).
  exists builds. split; [|exact Hbo]. rewrite Htb, Hta, <- app_assoc. reflexivity.
Qed.

Lemma PurgMemBeginRead_true_witness :
  let o := region_4000 [ {| Build := fill "Z"; param := 0 |} ] 0 0 (replicate 4096 x00) in
  exists o',
    @PurgMemBeginRead (page4k true) 2 (Some o) = Some (true, Some o') /\
    @IsPurged (page4k true) o' = Some false /\ buildDataCount o' <> 0.
Proof.
  intros o.
  destruct (@PurgMemBeginRead (page4k true) 2 (Some o)) as [[ret r]|] eqn:Hrun;
    [|vm_compute in Hrun; discriminate].
  assert (Hret : ret = true) by (vm_compute in Hrun; congruence). subst ret.
  destruct (@PurgMemBeginRead_true (page4k true) 2%nat o r Hrun)
    as (o' & -> & _ & Hnp & Hc & _).
  exists o'. split; [reflexivity|]. split; assumption.
Defined.

(** ** Present bits belong to the kernel *)

Section PresentBits.
Context `{Platform}.

Lemma present_word_op op pte :
  op = UPT_GET \/ op = UPT_PUT ->
  IsUxptePresent (word_op op pte) = IsUxptePresent pte.
Proof.
  intros [->| ->]; cbn [word_op].
  - apply present_pin_word.
  - rewrite !IsUxptePresent_odd. apply odd_u64_sub2.
Qed.

Lemma forallb_present_update g i n i' n' (ptes : list uxpte_t) :
  (forall pte, IsUxptePresent (g pte) = IsUxptePresent pte) ->
  forallb IsUxptePresent (take n' (drop i' (update_range g i n ptes)))
  = forallb IsUxptePresent (take n' (drop i' ptes)).
Proof.
  intros Hg.
  destruct (forallb IsUxptePresent (take n' (drop i' ptes))) eqn:Hall.
  - apply forallb_present_range. intros k pte1 Hk Hl.
    rewrite forallb_present_range in Hall.
    rewrite update_range_lookup in Hl. unfold uxpte_t in *.
    destruct (ptes !! k) as [pte|] eqn:Hlk; [|discriminate].
    cbn [fmap option_fmap option_map] in Hl. injection Hl as <-.
    specialize (Hall k pte Hk Hlk).
    destruct ((i <=? k)%nat && (k <? i + n)%nat); [|exact Hall].
    rewrite Hg. exact Hall.
  - destruct (absent_in_range ptes i' n' Hall) as (k & pte & Hk & Hlk & Habs).
    destruct (forallb IsUxptePresent (take n' (drop i' (update_range g i n ptes)))) eqn:Hall1;
      [|reflexivity].
    exfalso. rewrite forallb_present_range in Hall1.
    assert (Hl1 : exists pte1, update_range g i n ptes !! k = Some pte1 /\
                               IsUxptePresent pte1 = false).
    { rewrite update_range_lookup. unfold uxpte_t in *. rewrite Hlk.
      cbn [fmap option_fmap option_map]. eexists. split; [reflexivity|].
      destruct ((i <=? k)%nat && (k <? i + n)%nat); [rewrite Hg|]; exact Habs. }
    destruct Hl1 as (pte1 & Hl1 & Habs1).
    specialize (Hall1 k pte1 Hk Hl1). congruence.
Qed.

End PresentBits.

(** X26.  Pins and unpins leave the present bits to the kernel: after a
    [UxpteGet] or a [UxptePut] on any range of a table, [UxpteIsPresent]
    answers for any range what it answered before. *)
Theorem UxpteIsPresent_after_get_put `{Platform} :
  forall t ptes addr len addr' len',
    g_supportUxpt = true ->
    table_ok t -> uxpte t = Some ptes ->
    0 <= addr < 2 ^ 64 -> dataAddr t <= RoundDown addr PAGE_SIZE ->
    RoundUp (u64 (addr + len)) PAGE_SIZE <= dataAddr t + dataSize t ->
    0 <= addr' < 2 ^ 64 -> dataAddr t <= RoundDown addr' PAGE_SIZE ->
    RoundUp (u64 (addr' + len')) PAGE_SIZE <= dataAddr t + dataSize t ->
    exists u1 u2,
      UxpteGet (Some t) addr len = Some u1 /\
      UxptePut (Some t) addr len = Some u2 /\
      UxpteIsPresent u1 addr' len' = UxpteIsPresent (Some t) addr' len' /\
      UxpteIsPresent u2 addr' len' = UxpteIsPresent (Some t) addr' len'.
Proof.
  intros t ptes addr len addr' len' Hsupp Htok Hptes Haddr Hlo Hhi Haddr' Hlo' Hhi'.
  assert (Hop : forall op, op = UPT_GET \/ op = UPT_PUT ->
            exists ptes1,
              UxpteOps (Some t) addr len op = Some (PM_OK, Some (set_uxpte t ptes1)) /\
              UxpteIsPresent (Some (set_uxpte t ptes1)) addr' len'
              = UxpteIsPresent (Some t) addr' len').
  { intros op Hgp. eexists. split.
    - apply (UxpteOps_update t ptes); try assumption. destruct Hgp as [->| ->]; discriminate.
    - unfold UxpteIsPresent. rewrite Hsupp. cbn [negb].
      rewrite (UxpteOps_present t ptes) by assumption.
      match goal with
      | |- context [set_uxpte t ?l] =>
          assert (Htok1 : table_ok (set_uxpte t l))
            by (eapply table_ok_set_uxpte; [exact Htok | exact Hptes | apply update_range_length]);
          rewrite (UxpteOps_present (set_uxpte t l) l) by (try assumption; reflexivity)
      end.
      cbn [mbind option_bind fst].
      change (first_index (set_uxpte t _) addr') with (first_index t addr').
      rewrite forallb_present_update by (intros pte; apply present_word_op; exact Hgp).
      reflexivity. }
  destruct (Hop UPT_GET (or_introl eq_refl)) as (p1 & Hget & Hp1).
  destruct (Hop UPT_PUT (or_intror eq_refl)) as (p2 & Hput & Hp2).
  exists (Some (set_uxpte t p1)), (Some (set_uxpte t p2)).
  unfold UxpteGet, UxptePut. rewrite Hsupp, Hget, Hput. cbn [negb mbind option_bind snd].
  repeat split; assumption.
Qed.

Lemma UxpteIsPresent_after_get_put_witness :
  exists u1 u2,
    @UxpteGet (page4k true) (Some (table_2p 1)) 65546 5000 = Some u1 /\
    @UxptePut (page4k true) (Some (table_2p 1)) 65546 5000 = Some u2 /\
    @UxpteIsPresent (page4k true) u1 65536 8192 = Some true /\
    @UxpteIsPresent (page4k true) u2 65536 8192 = Some true.
Proof.
  assert (Hok : @table_ok (page4k true) (table_2p 1)).
  { unfold table_ok. split; [vm_compute; discriminate|].
    split; [reflexivity|]. split; [vm_compute; discriminate|].
    exists (replicate 512 1). split; reflexivity. }
  assert (Haddr : 0 <= 65546 < 2 ^ 64) by (split; [discriminate | reflexivity]).
  assert (Haddr' : 0 <= 65536 < 2 ^ 64) by (split; [discriminate | reflexivity]).
  assert (Hlo : dataAddr (table_2p 1) <= @RoundDown 65546 (@PAGE_SIZE (page4k true)))
    by (vm_compute; discriminate).
  assert (Hhi : @RoundUp (u64 (65546 + 5000)) (@PAGE_SIZE (page4k true))
                <= dataAddr (table_2p 1) + dataSize (table_2p 1))
    by (vm_compute; discriminate).
  assert (Hlo' : dataAddr (table_2p 1) <= @RoundDown 65536 (@PAGE_SIZE (page4k true)))
    by (vm_compute; discriminate).
  assert (Hhi' : @RoundUp (u64 (65536 + 8192)) (@PAGE_SIZE (page4k true))
                 <= dataAddr (table_2p 1) + dataSize (table_2p 1))
    by (vm_compute; discriminate).
  assert (Hbefore : @UxpteIsPresent (page4k true) (Some (table_2p 1)) 65536 8192 = Some true)
    by (vm_compute; reflexivity).
  destruct (@UxpteIsPresent_after_get_put (page4k true) (table_2p 1) (replicate 512 1)
              65546 5000 65536 8192 eq_refl Hok eq_refl Haddr Hlo Hhi Haddr' Hlo' Hhi')
    as (u1 & u2 & Hget & Hput & Hp1 & Hp2).
  exists u1, u2. split; [exact Hget|]. split; [exact Hput|].
  rewrite Hp1, Hp2. split; exact Hbefore.
Defined.

(** ** The two builds *)

(** X27.  With the capability off, the functions of the USE_UXPT build do
    what the stubs of the build without USE_UXPT do: nothing, with PM_OK and
    "present" for answers, whatever table and range they are given. *)
Theorem capability_off_is_stub_build `{Platform} :
  g_supportUxpt = false ->
  UxpteIsEnabled = NoUxpt.UxpteIsEnabled /\
  (forall env upt addr len,
     InitUxPageTable env upt addr len = Some (NoUxpt.InitUxPageTable upt addr len)) /\
  (forall env upt, DeinitUxPageTable env upt = NoUxpt.DeinitUxPageTable upt) /\
  (forall upt addr len, UxpteGet upt addr len = Some (NoUxpt.UxpteGet upt addr len)) /\
  (forall upt addr len, UxptePut upt addr len = Some (NoUxpt.UxptePut upt addr len)) /\
  (forall upt addr len,
     UxpteIsPresent upt addr len = Some (NoUxpt.UxpteIsPresent upt addr len)).
Proof.
  intros Hoff.
  unfold UxpteIsEnabled, InitUxPageTable, DeinitUxPageTable, UxpteGet, UxptePut,
    UxpteIsPresent.
  rewrite Hoff. cbn [negb]. repeat split.
Qed.

Lemma capability_off_is_stub_build_witness :
  @UxpteGet (page4k false) None 12345 678 = Some None /\
  @UxpteIsPresent (page4k false) (Some (table_2p 0)) 0 (2 ^ 64 - 1) = Some true.
Proof.
  destruct (@capability_off_is_stub_build (page4k false) eq_refl)
    as (_ & _ & _ & Hget & _ & Hpresent).
  split; [apply Hget | apply Hpresent].
Defined.
